(** * Backend resolver and genesis export of the exchain node

    A shallow embedding of [app/rpc/backend/backend.go] and of the storage
    export of [x/evm/export_operation.go], with the properties that the
    specification states about them.

    Conventions.
    - A Go machine integer is a [Z]; every conversion and every operation
      that can wrap is written with [uint64], [int64] or [uint8].
    - A Go byte is a [Z] in [0, 256); a byte slice is a [list Z]; a Go
      string is a [list ascii].
    - A Go call returning [(value, error)] returns a [result]; a function
      of the sources that can panic returns an [outcome].
    - The collaborators of the backend (the watcher's querier and writer,
      the Tendermint client with its structured queries, the codec) are
      records of functions: the theorems hold for every implementation. *)

From Stdlib Require Import ZArith List Lia Ascii String Bool.
From stdpp Require Import base list gmap.
From Equations Require Import Equations.

Local Open Scope Z_scope.

(** ** Machine integers *)

Definition uint64 (z : Z) : Z := z mod 2 ^ 64.
Definition int64 (z : Z) : Z := (z + 2 ^ 63) mod 2 ^ 64 - 2 ^ 63.
Definition uint8 (z : Z) : Z := z mod 2 ^ 8.

Definition is_uint64 (z : Z) : Prop := 0 <= z < 2 ^ 64.
Definition is_int64 (z : Z) : Prop := - 2 ^ 63 <= z < 2 ^ 63.
Definition is_byte (z : Z) : Prop := 0 <= z < 256.

(** ** Results of Go calls *)

Definition error := string.

Inductive result (A : Type) : Type :=
| Ok (a : A)          (* (a, nil) *)
| Err (e : error).    (* (zero value, e) *)
Arguments Ok {A} a.
Arguments Err {A} e.

Inductive outcome (A : Type) : Type :=
| Return (a : A)
| Panic (msg : string).
Arguments Return {A} a.
Arguments Panic {A} msg.

Definition bytes := list Z.

(** [common.Hash] is [[32]byte]. *)
Definition Hash := list Z.
Definition HashLength : nat := 32%nat.
Definition zeroHash : Hash := replicate HashLength 0.
Definition is_hash (h : Hash) : Prop :=
  length h = HashLength /\ Forall is_byte h.

(** [ethtypes.Bloom] is [[256]byte]. *)
Definition Bloom := list Z.

(** A Go slice that may be [nil]: [None] is the nil slice, [Some []] the
    empty one.  Used where the code tells them apart. *)
Definition slice (A : Type) := option (list A).
Definition slen {A : Type} (s : slice A) : nat :=
  match s with None => 0%nat | Some l => length l end.

(** ** Records of the collaborating packages

    Only the fields that [backend.go] reads or writes are kept. *)

(** [ethtypes.Log] *)
Record Log := mkLog {
  log_Address : bytes;
  log_Topics : list Hash;
  log_Data : bytes }.

(** [ethtypes.Header] *)
Record Header := mkEthHeader {
  ParentHash : Hash;
  HeaderNumber : Z;
  HeaderTime : Z;
  HeaderBloom : Bloom }.   (* Bloom *)

(** [evmtypes.MsgEthereumTx], opaque to the backend. *)
Record MsgEthereumTx := mkMsg {
  msg_Nonce : Z;
  msg_GasLimit : Z;
  msg_Payload : bytes }.

(** [evmtypes.ResultData]; [DecodeResultData] returns the zero value with
    its error. *)
Record ResultData := mkResultData {
  rd_Logs : slice Log;
  rd_Ret : bytes }.
Definition zeroResultData : ResultData := mkResultData None [].

(** [rpctypes.Transaction] *)
Record Transaction := mkTransaction {
  tx_BlockHash : Hash;
  tx_BlockNumber : Z;
  tx_TransactionIndex : Z;
  tx_Hash : Hash;
  tx_Msg : MsgEthereumTx }.

(** A Go [interface{}] holding what the block formatters store. *)
Inductive Value :=
| HashList (l : list Hash)          (* []common.Hash *)
| TxList (l : list Transaction)     (* []*rpctypes.Transaction *)
| Other (raw : bytes).

Module tm.
(** [abci.ResponseDeliverTx] *)
Record TxResult := mkTxResult {
  Code : Z;       (* uint32 *)
  Data : bytes;
  GasUsed : Z }.  (* int64 *)
Definition IsOK (r : TxResult) : bool := Code r =? 0.
Definition GetData (r : TxResult) : bytes := Data r.

(** [ctypes.ResultTx] *)
Record ResultTx := mkResultTx {
  TxHeight : Z;   (* Height int64 *)
  Index : Z;      (* uint32 *)
  Result : TxResult;   (* TxResult *)
  RawTx : bytes }.     (* Tx *)

(** [tmtypes.Header] *)
Record Header := mkHeader {
  Height : Z;     (* int64 *)
  Time : Z;
  LastBlockHash : bytes }.

(** [tmtypes.Block]: the header is embedded, so [block.Height] is
    [Height (BlockHeader block)]; [BlockHash] is what [Hash()] computes. *)
Record Block := mkBlock {
  BlockHeader : Header;
  BlockHash : bytes;
  Txs : list bytes }.

(** The RPC client [clientCtx.Client]. *)
Record Client := mkClient {
  BlockchainInfo : Z -> Z -> result Z;    (* info.LastHeight *)
  GetBlock : Z -> result Block;           (* Block(&height): resBlock.Block *)
  Tx : bytes -> bool -> result ResultTx;
  UnconfirmedTxs : Z -> result (list bytes * Z);     (* Txs, Count *)
  UserNumUnconfirmedTxs : list ascii -> result Z;    (* Count *)
  UserUnconfirmedTxs : list ascii -> Z -> result (list bytes);
  GetUnconfirmedTxByHash : Hash -> result bytes }.
End tm.

Module watcher.
(** [watcher.EthBlock] *)
Record EthBlock := mkEthBlock {
  Number : Z;
  BlockHash : Hash;
  LogsBloom : Bloom;
  Transactions : Value }.

(** [watcher.TransactionReceipt] *)
Record TransactionReceipt := mkReceipt {
  Status : Z;
  CumulativeGasUsed : Z;
  Logs : slice Log;
  GasUsed : Z }.

(** The read side, [wrappedBackend], over a store [Db]. *)
Record Querier (Db : Type) := mkQuerier {
  GetLatestBlockNumber : Db -> result Z;                   (* uint64 *)
  GetBlockByNumber : Db -> Z -> bool -> result EthBlock;
  GetBlockByHash : Db -> Hash -> bool -> result EthBlock;
  MustGetTransactionReceipt : Db -> Hash -> result TransactionReceipt;
  GetBlockHashByNumber : Db -> Z -> result Hash;
  EthHeader : EthBlock -> Header }.

(** The write side, [watcherBackend]: the arguments are those of
    [CommitTransactionReceiptToRpcDb], in its order. *)
Record Watcher (Db : Type) := mkWatcher {
  CommitTransactionReceiptToRpcDb :
    Db -> Z -> MsgEthereumTx -> Hash -> Hash -> Z -> Z -> ResultData ->
    Z -> Z -> Db }.

Arguments GetLatestBlockNumber {Db} _ _.
Arguments GetBlockByNumber {Db} _ _ _ _.
Arguments GetBlockByHash {Db} _ _ _ _.
Arguments MustGetTransactionReceipt {Db} _ _ _.
Arguments GetBlockHashByNumber {Db} _ _ _.
Arguments EthHeader {Db} _ _.
Arguments CommitTransactionReceiptToRpcDb {Db} _ _ _ _ _ _ _ _ _ _ _.
End watcher.

(** The structured state queries of [clientCtx.Query]: one constructor per
    path [custom/<module>/<query-type>/<parameter>] that the backend
    formats. *)
Inductive QueryPath :=
| QueryHashToHeight (hash : Hash)   (* custom/%s/%s/%s, hash.Hex() *)
| QueryHeightToHash (height : Z)    (* custom/%s/%s/%d, height *)
| QueryBloom (height : Z)           (* custom/%s/%s/%d, height *)
| QueryBloomBits (key : bytes)      (* custom/%s/%s/%s, hexutil.Encode(key) *)
| QuerySection.                     (* custom/%s/%s *)

(** [clientcontext.CLIContext], with the codec calls and the [rpctypes]
    and [evmtypes] helpers that the backend hands it to. *)
Record CLIContext := mkCLIContext {
  Client : tm.Client;
  TrustNode : bool;
  Query : QueryPath -> result bytes;
  (* Codec.UnmarshalJSON into evmtypes.QueryResBlockNumber: out.Number *)
  UnmarshalBlockNumber : bytes -> result Z;
  (* Codec.UnmarshalJSON into evmtypes.QueryBloomFilter: bloomRes.Bloom *)
  UnmarshalBloom : bytes -> result Bloom;
  RawTxToEthTx : bytes -> result MsgEthereumTx;
  NewTransaction :
    MsgEthereumTx -> Hash -> Hash -> Z -> Z -> result Transaction;
  EthBlockFromTendermint : tm.Block -> bool -> result (gmap string Value);
  EthHeaderFromTendermint : tm.Header -> Header;
  GetBlockCumulativeGas : tm.Block -> Z -> Z;
  DecodeResultData : bytes -> result ResultData;
  TxHash : bytes -> bytes }.        (* tmtypes.Tx.Hash() *)

(** [ethdb.KeyValueReader]: its [Get]. *)
Definition KeyValueReader := bytes -> result bytes.

(** Package-level state and library calls read by the bloom service. *)
Record Globals := mkGlobals {
  IsClientRestServer : bool;          (* filters.IsClientRestServer() *)
  GetStartBlockHeight : Z;            (* tmtypes.GetStartBlockHeight(), int64 *)
  BloomBitsBlocks : Z;                (* evmtypes.BloomBitsBlocks, uint64 *)
  StoredSection : Z;                  (* evmtypes.GetIndexer().StoredSection() *)
  BloomBitsKey : Z -> Z -> Hash -> bytes;
  ReadBloomBits : KeyValueReader -> Z -> Z -> Hash -> result bytes;
  (* json.Unmarshal into a uint64; the target is left alone on an error *)
  UnmarshalUint64 : bytes -> result Z }.

(** ** Library calls: hexadecimal text, hashes, strings, readers *)

Definition newline : ascii := "010"%char.
Definition colon : ascii := ":"%char.

(** [encoding/hex] *)
Module hex.
Definition hextable : list ascii := list_ascii_of_string "0123456789abcdef".

(** [EncodeToString]: [hextable[v>>4]] then [hextable[v&0x0f]]. *)
Fixpoint EncodeToString (src : bytes) : list ascii :=
  match src with
  | [] => []
  | v :: src' =>
      nth (Z.to_nat (Z.shiftr v 4)) hextable "000"%char
      :: nth (Z.to_nat (Z.land v 15)) hextable "000"%char
      :: EncodeToString src'
  end.

(** [reverseHexTable]: the digit of a character, 255 for any other. *)
Definition fromHexChar (c : ascii) : Z :=
  let n := Z.of_N (N_of_ascii c) in
  if (48 <=? n) && (n <=? 57) then n - 48
  else if (97 <=? n) && (n <=? 102) then n - 97 + 10
  else if (65 <=? n) && (n <=? 70) then n - 65 + 10
  else 255.

(** [DecodeString]: the bytes decoded before the error, with the error. *)
Fixpoint DecodeString (s : list ascii) : bytes * option error :=
  match s with
  | [] => ([], None)
  | [p] =>
      if 15 <? fromHexChar p then ([], Some "invalid byte"%string)
      else ([], Some "odd length hex string"%string)
  | p :: q :: s' =>
      let a := fromHexChar p in
      let b := fromHexChar q in
      if 15 <? a then ([], Some "invalid byte"%string)
      else if 15 <? b then ([], Some "invalid byte"%string)
      else
        let '(dst, err) := DecodeString s' in
        (uint8 (Z.lor (Z.shiftl a 4) b) :: dst, err)
  end.
End hex.

(** [hexutil.Encode] *)
Module hexutil.
Definition Encode (b : bytes) : list ascii :=
  list_ascii_of_string "0x" ++ hex.EncodeToString b.
(** The prefix test of [hexutil], its own copy of the one of [common]. *)
Definition has0xPrefix (input : list ascii) : bool :=
  match input with
  | c0 :: c1 :: _ =>
      (c0 =? "0")%char && ((c1 =? "x")%char || (c1 =? "X")%char)
  | _ => false
  end.

(** [mapError]: the errors of [encoding/hex] as [hexutil] reports them. *)
Definition mapError (err : error) : error :=
  if String.eqb err "odd length hex string" then "hex string of odd length"%string
  else if String.eqb err "invalid byte" then "invalid hex string"%string
  else err.

(** [Decode]: the bytes of a text with the prefix [0x]. *)
Definition Decode (input : list ascii) : result bytes :=
  if (length input =? 0)%nat then Err "empty hex string"%string
  else if negb (has0xPrefix input) then
    Err "hex string without 0x prefix"%string
  else
    match hex.DecodeString (drop 2 input) with
    | (b, None) => Ok b
    | (_, Some err) => Err (mapError err)
    end.

End hexutil.

(** [common]: hashes and hexadecimal text *)
Module common.
Definition has0xPrefix (str : list ascii) : bool :=
  match str with
  | c0 :: c1 :: _ =>
      (c0 =? "0")%char && ((c1 =? "x")%char || (c1 =? "X")%char)
  | _ => false
  end.

(** [Hex2Bytes] drops the error of [hex.DecodeString]. *)
Definition Hex2Bytes (str : list ascii) : bytes := fst (hex.DecodeString str).

Definition FromHex (s : list ascii) : bytes :=
  let s := if has0xPrefix s then drop 2 s else s in
  let s := if Nat.odd (length s) then "0"%char :: s else s in
  Hex2Bytes s.

(** [BytesToHash], through [Hash.SetBytes]: a longer input is cropped from
    the left, a shorter one is right-aligned in a zeroed hash. *)
Definition BytesToHash (b : bytes) : Hash :=
  let b := if (HashLength <? length b)%nat
           then drop (length b - HashLength) b else b in
  replicate (HashLength - length b) 0 ++ b.

Definition HexToHash (s : list ascii) : Hash :=
  BytesToHash (FromHex s).

(** [Hash.Hex] *)
Definition Hex (h : Hash) : list ascii := hexutil.Encode h.
End common.

(** [strings], at a separator of one character as the export tool calls
    them. *)
Module strings.
Fixpoint ReplaceAll (s : list ascii) (old : ascii) (new : list ascii)
  : list ascii :=
  match s with
  | [] => []
  | c :: s' =>
      if (c =? old)%char then new ++ ReplaceAll s' old new
      else c :: ReplaceAll s' old new
  end.

(** [Split]: the fields between the separators, at least one. *)
Fixpoint Split (s : list ascii) (sep : ascii) : list (list ascii) :=
  match s with
  | [] => [[]]
  | c :: s' =>
      if (c =? sep)%char then [] :: Split s' sep
      else
        match Split s' sep with
        | field :: fields => (c :: field) :: fields
        | [] => [[c]]
        end
  end.
End strings.

(** [bufio.Reader] over what is left of the file. *)
Module bufio.
(** [ReadString]: the text up to and with the first [delim] and what is
    left after it; at the end of the file, what was read and [io.EOF]. *)
Fixpoint ReadString (rd : list ascii) (delim : ascii)
  : (list ascii * option error) * list ascii :=
  match rd with
  | [] => (([], Some "EOF"%string), [])
  | c :: rd' =>
      if (c =? delim)%char then (([c], None), rd')
      else
        let '((line, err), rest) := ReadString rd' delim in
        ((c :: line, err), rest)
  end.
End bufio.

(** [bitutil], the decompression of a bit vector (go-ethereum,
    [common/bitutil/compress.go]). *)
Module bitutil.
Definition errMissingData : error := "missing bytes on input"%string.
Definition errUnreferencedData : error := "extra bytes on input"%string.
Definition errExceededTarget : error := "target data size exceeded"%string.
Definition errZeroContent : error := "zero byte in input content"%string.

(** The loop of [bitsetDecodePartialBytes] over the bits [i] of the
    bitset: a set bit takes the next byte of the data into slot [i]. *)
Fixpoint distribute (data nonZeroBitset : bytes) (bits : list nat)
    (decomp : bytes) (ptr : nat) : result (bytes * nat) :=
  match bits with
  | [] => Ok (decomp, ptr)
  | i :: bits' =>
      if negb (Z.land (nth (i / 8) nonZeroBitset 0)
                 (Z.shiftl 1 (Z.of_nat (7 - i mod 8))) =? 0)
      then
        if (length data <=? ptr)%nat then Err errMissingData
        else if (length decomp <=? i)%nat then Err errExceededTarget
        else if nth ptr data 0 =? 0 then Err errZeroContent
        else distribute data nonZeroBitset bits'
               (<[i := nth ptr data 0]> decomp) (S ptr)
      else distribute data nonZeroBitset bits' decomp ptr
  end.

(** [bitsetDecodePartialBytes]: the decompressed bytes and how many bytes
    of the data they took.  The bitset of the non-zero bytes is itself
    compressed, in an eighth of the target. *)
Equations? bitsetDecodePartialBytes (data : bytes) (target : nat)
  : result (bytes * nat) by wf target lt :=
  bitsetDecodePartialBytes data target with Nat.eq_dec target 0%nat := {
    | left _ => Ok ([], 0%nat)
    | right _ with data := {
      | [] => Ok (replicate target 0, 0%nat)
      | d0 :: _ with Nat.eq_dec target 1%nat := {
        | left _ =>
            Ok (<[0%nat := d0]> (replicate target 0),
                if d0 =? 0 then 0%nat else 1%nat)
        | right _
            with bitsetDecodePartialBytes data ((target + 7) / 8)%nat := {
          | Err err => Err err
          | Ok (nonZeroBitset, ptr) =>
              distribute data nonZeroBitset
                (seq 0 (8 * length nonZeroBitset))
                (replicate target 0) ptr } } } }.
Proof.
  change ((target + 7) / 8 < target)%nat.
  apply Nat.Div0.div_lt_upper_bound. lia.
Qed.

(** [bitsetDecodeBytes]: all the data must have been taken. *)
Definition bitsetDecodeBytes (data : bytes) (target : nat) : result bytes :=
  match bitsetDecodePartialBytes data target with
  | Err err => Err err
  | Ok (out, size) =>
      if (size =? length data)%nat then Ok out else Err errUnreferencedData
  end.

(** [DecompressBytes]: data of the size of the target is not compressed. *)
Definition DecompressBytes (data : bytes) (target : Z) : result bytes :=
  if target <? Z.of_nat (length data) then Err errExceededTarget
  else if Z.of_nat (length data) =? target then Ok data
  else bitsetDecodeBytes data (Z.to_nat target).
End bitutil.

(** ** The backend resolver, [app/rpc/backend/backend.go] *)

Module backend.

Record EthermintBackend (Db : Type) := mkBackend {
  clientCtx : CLIContext;
  wrappedBackend : watcher.Querier Db;
  watcherBackend : watcher.Watcher Db;
  globals : Globals }.
Arguments clientCtx {Db} _.
Arguments wrappedBackend {Db} _.
Arguments watcherBackend {Db} _.
Arguments globals {Db} _.

(** What [GetBlockByNumber] and [GetBlockByHash] put in their
    [interface{}]: the cached [*watcher.EthBlock] or the formatted
    [map[string]interface{}]. *)
Inductive BlockValue :=
| CachedBlock (block : watcher.EthBlock)
| FormattedBlock (block : gmap string Value).

(** [bloombits.Retrieval] *)
Record Retrieval := mkRetrieval {
  Bit : Z;
  Sections : list Z;
  Bitsets : list bytes;
  Error : option error }.

Section Resolver.
Context {Db : Type} (b : EthermintBackend Db).

Let ctx := clientCtx b.
Let client := Client (clientCtx b).
Let q := wrappedBackend b.

(** [LatestBlockNumber] *)
Definition LatestBlockNumber : result Z :=
  match tm.BlockchainInfo client 0 0 with
  | Err err => Err err
  | Ok lastHeight => Ok lastHeight
  end.

(** [BlockNumber] *)
Definition BlockNumber (db : Db) : result Z :=
  match watcher.GetLatestBlockNumber q db with
  | Ok ublockNumber =>
      let ublockNumber :=
        if 0 <? ublockNumber then uint64 (ublockNumber - 1)
        else ublockNumber in
      Ok (uint64 ublockNumber)
  | Err _ =>
      match LatestBlockNumber with
      | Err err => Err err
      | Ok blockNumber =>
          let blockNumber :=
            if 0 <? blockNumber then int64 (blockNumber - 1)
            else blockNumber in
          Ok (uint64 blockNumber)
      end
  end.

(** The height that [GetBlockByNumber] and [HeaderByNumber] resolve a
    request to: the current height when the request is not positive. *)
Definition resolveHeight (db : Db) (height : Z) : result Z :=
  if height <=? 0 then
    match BlockNumber db with
    | Err err => Err err
    | Ok num => Ok (int64 num)
    end
  else Ok height.

(** [GetBlockByNumber]; [Ok None] is the return [nil, nil]. *)
Definition GetBlockByNumber (db : Db) (blockNum : Z) (fullTx : bool)
  : result (option BlockValue) :=
  match watcher.GetBlockByNumber q db (uint64 blockNum) fullTx with
  | Ok ethBlock => Ok (Some (CachedBlock ethBlock))
  | Err _ =>
      match resolveHeight db blockNum with
      | Err err => Err err
      | Ok height =>
          match tm.GetBlock client height with
          | Err _ => Ok None
          | Ok resBlock =>
              match EthBlockFromTendermint ctx resBlock fullTx with
              | Ok block => Ok (Some (FormattedBlock block))
              | Err err => Err err
              end
          end
      end
  end.

(** [GetBlockByHash] *)
Definition GetBlockByHash (db : Db) (hash : Hash) (fullTx : bool)
  : result (option BlockValue) :=
  match watcher.GetBlockByHash q db hash fullTx with
  | Ok ethBlock => Ok (Some (CachedBlock ethBlock))
  | Err _ =>
      match Query ctx (QueryHashToHeight hash) with
      | Err err => Err err
      | Ok res =>
          match UnmarshalBlockNumber ctx res with
          | Err err => Err err
          | Ok number =>
              match tm.GetBlock client number with
              | Err _ => Ok None
              | Ok resBlock =>
                  match EthBlockFromTendermint ctx resBlock fullTx with
                  | Ok block => Ok (Some (FormattedBlock block))
                  | Err err => Err err
                  end
              end
          end
      end
  end.

(** The tail shared by [HeaderByNumber] and [HeaderByHash]: the bloom
    query for the fetched block, [MustUnmarshalJSON] (which panics), and
    the header with its bloom overwritten. *)
Definition headerWithBloom (resBlock : tm.Block) : outcome (result Header) :=
  match Query ctx (QueryBloom (tm.Height (tm.BlockHeader resBlock))) with
  | Err err => Return (Err err)
  | Ok res =>
      match UnmarshalBloom ctx res with
      | Err err => Panic err
      | Ok bloom =>
          let ethHeader :=
            EthHeaderFromTendermint ctx (tm.BlockHeader resBlock) in
          Return (Ok (mkEthHeader (ParentHash ethHeader)
                        (HeaderNumber ethHeader) (HeaderTime ethHeader)
                        bloom))
      end
  end.

(** [HeaderByNumber] *)
Definition HeaderByNumber (db : Db) (blockNum : Z)
  : outcome (result Header) :=
  match resolveHeight db blockNum with
  | Err err => Return (Err err)
  | Ok height =>
      match watcher.GetBlockByNumber q db (uint64 height) false with
      | Ok ethBlock => Return (Ok (watcher.EthHeader q ethBlock))
      | Err _ =>
          match tm.GetBlock client height with
          | Err err => Return (Err err)
          | Ok resBlock => headerWithBloom resBlock
          end
      end
  end.

(** [HeaderByHash] *)
Definition HeaderByHash (blockHash : Hash) : outcome (result Header) :=
  match Query ctx (QueryHashToHeight blockHash) with
  | Err err => Return (Err err)
  | Ok res =>
      match UnmarshalBlockNumber ctx res with
      | Err err => Return (Err err)
      | Ok number =>
          match tm.GetBlock client number with
          | Err err => Return (Err err)
          | Ok resBlock => headerWithBloom resBlock
          end
      end
  end.

(** [GetTransactionLogs] *)
Definition GetTransactionLogs (txHash : Hash) : result (slice Log) :=
  match tm.Tx client txHash (negb (TrustNode ctx)) with
  | Err err => Err err
  | Ok txRes =>
      match DecodeResultData ctx (tm.Data (tm.Result txRes)) with
      | Err err => Err err
      | Ok execRes => Ok (rd_Logs execRes)
      end
  end.

(** The loop of [PendingTransactions] and of [UserPendingTransactions]:
    the two bodies are the same text.  An entry of the returned
    [[]*rpctypes.Transaction] is a pointer: [None] is [nil]. *)
Fixpoint pendingLoop (txs : list bytes)
    (transactions : list (option Transaction))
  : result (list (option Transaction)) :=
  match txs with
  | [] => Ok transactions
  | tx :: txs' =>
      match RawTxToEthTx ctx tx with
      | Err _ => pendingLoop txs' transactions     (* continue *)
      | Ok ethTx =>
          match NewTransaction ctx ethTx
                  (common.BytesToHash (TxHash ctx tx)) zeroHash 0 0 with
          | Err err => Err err
          | Ok rpcTx => pendingLoop txs' (transactions ++ [Some rpcTx])
          end
      end
  end.

(** [PendingTransactions]: [make([]*rpctypes.Transaction, 0)] *)
Definition PendingTransactions : result (list (option Transaction)) :=
  match tm.UnconfirmedTxs client (-1) with
  | Err err => Err err
  | Ok (txs, _) => pendingLoop txs []
  end.

(** [PendingTransactionCnt] *)
Definition PendingTransactionCnt : result Z :=
  match tm.UnconfirmedTxs client (-1) with
  | Err err => Err err
  | Ok (_, count) => Ok count
  end.

(** [UserPendingTransactionsCnt] *)
Definition UserPendingTransactionsCnt (address : list ascii) : result Z :=
  match tm.UserNumUnconfirmedTxs client address with
  | Err err => Err err
  | Ok count => Ok count
  end.

(** [UserPendingTransactions]:
    [make([]*rpctypes.Transaction, len(result.Txs))] *)
Definition UserPendingTransactions (address : list ascii) (limit : Z)
  : result (list (option Transaction)) :=
  match tm.UserUnconfirmedTxs client address limit with
  | Err err => Err err
  | Ok txs => pendingLoop txs (replicate (length txs) None)
  end.

(** [PendingTransactionsByHash] *)
Definition PendingTransactionsByHash (target : Hash) : result Transaction :=
  match tm.GetUnconfirmedTxByHash client target with
  | Err err => Err err
  | Ok pendingTx =>
      match RawTxToEthTx ctx pendingTx with
      | Err err => Err err
      | Ok ethTx =>
          match NewTransaction ctx ethTx
                  (common.BytesToHash (TxHash ctx pendingTx)) zeroHash 0 0
          with
          | Err err => Err err
          | Ok rpcTx => Ok rpcTx
          end
      end
  end.

(** The transaction hashes that [GetLogs] takes from the resolved block,
    by its two type assertions; a failed assertion panics, and so does
    the [nil] block of a return [nil, nil]. *)
Definition blockTxHashes (resBlock : option BlockValue)
  : outcome (list Hash) :=
  match resBlock with
  | Some (CachedBlock block) =>
      match watcher.Transactions block with
      | HashList txHashes => Return txHashes
      | _ => Panic "interface conversion"%string
      end
  | Some (FormattedBlock block) =>
      match block !! "transactions"%string with
      | Some (HashList txHashes) => Return txHashes
      | _ => Panic "interface conversion"%string
      end
  | None => Panic "interface conversion"%string
  end.

(** What one turn of the loop of [GetLogs] does with [txHash]. *)
Inductive TxLogs :=
| Logs (logs : slice Log)        (* appended to blockLogs *)
| ReturnNil                      (* return nil, nil *)
| ReturnErr (err : error).       (* return nil, err *)

(** The body of the loop of [GetLogs]: the cached receipt, or the receipt
    rebuilt from the transaction record and committed to the watcher. *)
Definition logsOfTx (db : Db) (txHash : Hash) : TxLogs * Db :=
  match watcher.MustGetTransactionReceipt q db txHash with
  | Ok receipt => (Logs (watcher.Logs receipt), db)
  | Err _ =>
      match tm.Tx client txHash (negb (TrustNode ctx)) with
      | Err _ => (ReturnNil, db)
      | Ok tx =>
          match tm.GetBlock client (tm.TxHeight tx) with
          | Err err => (ReturnErr err, db)
          | Ok block =>
              let blockHash := common.BytesToHash (tm.BlockHash block) in
              match RawTxToEthTx ctx (tm.RawTx tx) with
              | Err err => (ReturnErr err, db)
              | Ok ethTx =>
                  let gasUsed := tm.GasUsed (tm.Result tx) in
                  let cumulativeGasUsed := uint64 gasUsed in
                  let cumulativeGasUsed :=
                    if negb (tm.Index tx =? 0) then
                      uint64 (cumulativeGasUsed
                              + GetBlockCumulativeGas ctx block (tm.Index tx))
                    else cumulativeGasUsed in
                  let status := if tm.IsOK (tm.Result tx) then 1 else 0 in
                  let txData := tm.GetData (tm.Result tx) in
                  let '(data, status) :=
                    match DecodeResultData ctx txData with
                    | Ok data => (data, status)
                    | Err _ => (zeroResultData, 0)
                    end in
                  let data :=
                    if (slen (rd_Logs data) =? 0)%nat
                    then mkResultData (Some []) (rd_Ret data) else data in
                  let db' :=
                    watcher.CommitTransactionReceiptToRpcDb (watcherBackend b)
                      db status ethTx txHash blockHash (uint64 (tm.Index tx))
                      (uint64 (tm.Height (tm.BlockHeader block))) data
                      cumulativeGasUsed (uint64 gasUsed) in
                  (Logs (rd_Logs data), db')
              end
          end
      end
  end.

(** The loop of [GetLogs] over the transaction hashes; [Ok None] is the
    return [nil, nil]. *)
Fixpoint logsLoop (db : Db) (txHashes : list Hash)
    (blockLogs : list (slice Log))
  : result (slice (slice Log)) * Db :=
  match txHashes with
  | [] => (Ok (Some blockLogs), db)
  | txHash :: txHashes' =>
      match logsOfTx db txHash with
      | (Logs logs, db') => logsLoop db' txHashes' (blockLogs ++ [logs])
      | (ReturnNil, db') => (Ok None, db')
      | (ReturnErr err, db') => (Err err, db')
      end
  end.

(** [GetLogs] *)
Definition GetLogs (db : Db) (blockHash : Hash)
  : outcome (result (slice (slice Log))) * Db :=
  match GetBlockByHash db blockHash false with
  | Err err => (Return (Err err), db)
  | Ok resBlock =>
      match blockTxHashes resBlock with
      | Panic msg => (Panic msg, db)
      | Return txHashes =>
          let '(r, db') := logsLoop db txHashes [] in (Return r, db')
      end
  end.

(** [BloomStatus], with the lines that the logger receives. *)
Definition BloomStatus (logger : list string) : (Z * Z) * list string :=
  let g := globals b in
  let sections := 0 in
  if IsClientRestServer g then
    let '(res, logger) :=
      match Query ctx QuerySection with
      | Err _ => ([], logger ++ ["query section failed from node"%string])
      | Ok res => (res, logger)
      end in
    match UnmarshalUint64 g res with
    | Err _ =>
        ((BloomBitsBlocks g, sections),
         logger ++ ["unmarshal sections failed"%string])
    | Ok sections => ((BloomBitsBlocks g, sections), logger)
    end
  else ((BloomBitsBlocks g, StoredSection g), logger).

(** [GetBlockHashByHeight]: on an error the hash returned with it is the
    zero hash. *)
Definition GetBlockHashByHeight (db : Db) (height : Z) : result Hash :=
  match watcher.GetBlockHashByNumber q db (uint64 height) with
  | Ok hash => Ok hash
  | Err _ =>
      match Query ctx (QueryHeightToHash height) with
      | Err err => Err err
      | Ok res => Ok (common.BytesToHash res)
      end
  end.

(** The height that a bloom handler asks the hash of, for a section:
    [int64((section+1)*sectionSize-1) + tmtypes.GetStartBlockHeight()]. *)
Definition sectionHeight (sectionSize section : Z) : Z :=
  int64 (int64 (uint64 (uint64 (uint64 (section + 1) * sectionSize) - 1))
         + GetStartBlockHeight (globals b)).

(** One turn of the loop over [task.Sections] in a bloom handler. *)
Definition serveSection (sectionSize : Z) (kv : KeyValueReader) (db : Db)
    (task : Retrieval) (i : nat) (section : Z) : Retrieval :=
  let g := globals b in
  let height := sectionHeight sectionSize section in
  let '(hash, task) :=
    match GetBlockHashByHeight db height with
    | Ok hash => (hash, task)
    | Err err =>
        (zeroHash,
         mkRetrieval (Bit task) (Sections task) (Bitsets task) (Some err))
    end in
  let bitsKey := BloomBitsKey g (Bit task) section hash in
  let compVector :=
    if IsClientRestServer g then Query ctx (QueryBloomBits bitsKey)
    else ReadBloomBits g kv (Bit task) section hash in
  match compVector with
  | Ok compVector =>
      match bitutil.DecompressBytes compVector (sectionSize / 8) with
      | Ok blob =>
          mkRetrieval (Bit task) (Sections task)
            (<[i:=blob]> (Bitsets task)) (Error task)
      | Err err =>
          mkRetrieval (Bit task) (Sections task) (Bitsets task) (Some err)
      end
  | Err err =>
      mkRetrieval (Bit task) (Sections task) (Bitsets task) (Some err)
  end.

(** The loop [for i, section := range task.Sections], from index [i]. *)
Fixpoint serveSections (sectionSize : Z) (kv : KeyValueReader) (db : Db)
    (task : Retrieval) (i : nat) (sections : list Z) : Retrieval :=
  match sections with
  | [] => task
  | section :: sections' =>
      serveSections sectionSize kv db
        (serveSection sectionSize kv db task i section) (S i) sections'
  end.

(** What a handler does with one request: the task is read from the reply
    channel, its [Bitsets] are allocated, every section is served, and the
    task is written back. *)
Definition serveTask (sectionSize : Z) (kv : KeyValueReader) (db : Db)
    (task : Retrieval) : Retrieval :=
  let task :=
    mkRetrieval (Bit task) (Sections task)
      (replicate (length (Sections task)) []) (Error task) in
  serveSections sectionSize kv db task 0 (Sections task).

(** The cases that the [select] of one handler of [StartBloomHandlers]
    takes: [Request task] when it receives a request from [bloomRequests]
    and then the task from that request, [Close] when it receives from
    [closeBloomHandler].  Which case is taken when both channels are ready
    is the choice of the Go scheduler, and a handler that waits in
    [task := <-request] takes no further case: neither is decided here,
    the cases taken are given. *)
Inductive HandlerEvent :=
| Request (task : Retrieval)
| Close.

(** One handler goroutine along the cases that its [select] takes, in the
    order it takes them: the tasks that it writes back.  The goroutine
    returns when it takes [Close]; the list says nothing of the order in
    which requests and the closing arrive. *)
Fixpoint bloomHandler (sectionSize : Z) (kv : KeyValueReader) (db : Db)
    (events : list HandlerEvent) : list Retrieval :=
  match events with
  | [] => []
  | Close :: _ => []
  | Request task :: events' =>
      serveTask sectionSize kv db task
      :: bloomHandler sectionSize kv db events'
  end.

End Resolver.
End backend.

(** ** The storage export, [x/evm/export_operation.go] *)

Module evm.

(** [types.State] and [types.Storage] *)
Record State := NewState { Key : Hash; Value : Hash }.
Definition Storage := list State.

(** The files of the export directory, by path.  Creating, writing and
    closing a file succeed: the panics of [createFile], [writeOneLine] and
    [closeFile] on an I/O error are not modelled. *)
Abbreviation Files := (gmap string (list ascii)).

(** [createFile]: [os.Create] leaves an empty file. *)
Definition createFile (files : Files) (filePath : string) : Files :=
  <[filePath := []]> files.

(** [writeOneLine] on the text that the [bufio.Writer] was given so far. *)
Definition writeOneLine (writer : list ascii) (data : list ascii)
  : list ascii :=
  writer ++ data.

(** [closeFile]: after the flush the file holds all that was written. *)
Definition closeFile (files : Files) (filePath : string)
    (writer : list ascii) : Files :=
  <[filePath := writer]> files.

(** [Keeper.ForEachStorage] over the storage of the account, in the
    keeper's order: the callback is called until it returns [true]. *)
Fixpoint ForEachStorage {S : Type} (storage : Storage)
    (cb : Hash -> Hash -> S -> S * bool) (s : S) : S :=
  match storage with
  | [] => s
  | st :: storage' =>
      let '(s', stop) := cb (Key st) (Value st) s in
      if stop then s' else ForEachStorage storage' cb s'
  end.

(** [syncWriteAccountStorageSlice], for the account whose storage the
    keeper iterates as [storage] and whose file is [filename]; the deferred
    calls run last first: the file is closed, then removed when nothing was
    written. *)
Definition syncWriteAccountStorageSlice (storage : Storage)
    (filename : string) (files : Files) : Files :=
  let index := 0 in
  let files := createFile files filename in
  let writer := [] in
  let '(writer, index) :=
    ForEachStorage storage
      (fun key value '(writer, index) =>
         ((writeOneLine writer
             (common.Hex key ++ [colon] ++ common.Hex value ++ [newline]),
           int64 (index + 1)),
          false))
      (writer, index) in
  let files := closeFile files filename writer in
  if index =? 0 then delete filename files else files.

(** The loop of [readStorageFromFile]; every turn but the last consumes a
    line of [rd], so [fuel] above the length of [rd] is never used up. *)
Fixpoint readLoop (fuel : nat) (rd : list ascii) (states : Storage)
  : option (outcome Storage) :=
  match fuel with
  | O => None
  | S fuel' =>
      match bufio.ReadString rd newline with
      | ((_, Some _), _) => Some (Return states)       (* break *)
      | ((kvStr, None), rd') =>
          let kvPair :=
            strings.Split (strings.ReplaceAll kvStr newline []) colon in
          match kvPair with
          | kv0 :: kv1 :: _ =>
              let k := common.HexToHash kv0 in
              let v := common.HexToHash kv1 in
              readLoop fuel' rd' (states ++ [NewState k v])
          | _ => Some (Panic "index out of range"%string)
          end
      end
  end.

(** [readStorageFromFile]: [nil] when the file cannot be opened. *)
Definition readStorageFromFile (files : Files) (path : string)
  : option (outcome Storage) :=
  match files !! path with
  | None => Some (Return [])
  | Some content => readLoop (S (length content)) content []
  end.

(** [syncWriteAccountCode], for the account whose code the keeper returns
    as [code] and whose file is [filename]: an account without code gets
    no file. *)
Definition syncWriteAccountCode (code : bytes) (filename : string)
    (files : Files) : Files :=
  if negb (length code =? 0)%nat then
    let files := createFile files filename in
    let writer := [] in
    let writer := writeOneLine writer (hexutil.Encode code) in
    closeFile files filename writer
  else files.

(** [readCodeFromFile]: it panics on a file that cannot be read and on
    a text that [hexutil.Decode] refuses. *)
Definition readCodeFromFile (files : Files) (path : string)
  : outcome bytes :=
  match files !! path with
  | None => Panic "no such file or directory"%string
  | Some bin =>
      match hexutil.Decode bin with
      | Err err => Panic err
      | Ok hexcode => Return hexcode
      end
  end.

(** [convertHexStrToHash]: the hash of the file name up to its first
    dot; [f[0]] panics on an empty slice. *)
Definition convertHexStrToHash (filename : list ascii) : outcome Hash :=
  match strings.Split filename "."%char with
  | hashStr :: _ => Return (common.HexToHash hashStr)
  | [] => Panic "index out of range"%string
  end.

End evm.

(** ** The vocabulary of the properties *)

(** The tip [t] that [BlockNumber] is given: the one of the cache, an
    unsigned height, or, when the cache fails, the one of the chain, a
    signed height. *)
Definition reportedTip {Db : Type} (b : backend.EthermintBackend Db)
    (db : Db) (t : Z) : Prop :=
  (watcher.GetLatestBlockNumber (backend.wrappedBackend b) db = Ok t
   /\ is_uint64 t)
  \/ ((exists e,
         watcher.GetLatestBlockNumber (backend.wrappedBackend b) db = Err e)
      /\ tm.BlockchainInfo (Client (backend.clientCtx b)) 0 0 = Ok t
      /\ is_int64 t).

(** What the formatter of the chain's block gives the caller. *)
Definition formatted (r : result (gmap string Value))
  : result (option backend.BlockValue) :=
  match r with
  | Ok block => Ok (Some (backend.FormattedBlock block))
  | Err err => Err err
  end.

(** The bloom of the header that an accessor returned, if it returned
    one. *)
Definition returnedBloom (r : outcome (result Header)) : option Bloom :=
  match r with
  | Return (Ok header) => Some (HeaderBloom header)
  | _ => None
  end.

(** The pool entries that decode as EVM transactions, in pool order, each
    with its decoded message. *)
Definition evmEntries (ctx : CLIContext) (txs : list bytes)
  : list (bytes * MsgEthereumTx) :=
  omap (fun tx =>
          match RawTxToEthTx ctx tx with
          | Ok ethTx => Some (tx, ethTx)
          | Err _ => None
          end) txs.

(** The transaction that the views make of a decoded entry: its block
    hash is the zero hash, its block number and index are 0. *)
Definition unmined (ctx : CLIContext) (entry : bytes * MsgEthereumTx)
  : result Transaction :=
  NewTransaction ctx entry.2 (common.BytesToHash (TxHash ctx entry.1))
    zeroHash 0 0.

(** The values of a list of results, or its first error. *)
Fixpoint collect {A : Type} (l : list (result A)) : result (list A) :=
  match l with
  | [] => Ok []
  | Err err :: _ => Err err
  | Ok a :: l' =>
      match collect l' with
      | Ok l'' => Ok (a :: l'')
      | Err err => Err err
      end
  end.

(** The value of a result under [f]; an error stays. *)
Definition mapResult {A B : Type} (f : A -> B) (r : result A) : result B :=
  match r with
  | Ok a => Ok (f a)
  | Err err => Err err
  end.

(** [NewTransaction] stores the block hash, number and index it is given:
    what the specification says of it. *)
Definition keepsLinkage (ctx : CLIContext) : Prop :=
  forall msg txHash blockHash blockNumber index t,
    NewTransaction ctx msg txHash blockHash blockNumber index = Ok t ->
    tx_BlockHash t = blockHash /\ tx_BlockNumber t = blockNumber
    /\ tx_TransactionIndex t = index.

(** The linkage of a transaction that is in no block. *)
Definition notMined (t : Transaction) : Prop :=
  tx_BlockHash t = zeroHash /\ tx_BlockNumber t = 0
  /\ tx_TransactionIndex t = 0.

Section LogsVocabulary.
Context {Db : Type} (b : backend.EthermintBackend Db).
Let ctx := backend.clientCtx b.
Let client := Client (backend.clientCtx b).

(** The cache has no receipt of [txHash] and the chain has no record of
    it. *)
Definition unlocatable (db : Db) (txHash : Hash) : Prop :=
  (exists e,
     watcher.MustGetTransactionReceipt (backend.wrappedBackend b) db txHash
     = Err e)
  /\ (exists e, tm.Tx client txHash (negb (TrustNode ctx)) = Err e).

(** The chain has the record of [txHash] and fails on the block of the
    record or on the decoding of its transaction, with the error [e]. *)
Definition hardError (txHash : Hash) (e : error) : Prop :=
  exists tx,
    tm.Tx client txHash (negb (TrustNode ctx)) = Ok tx
    /\ (tm.GetBlock client (tm.TxHeight tx) = Err e
        \/ (exists block,
              tm.GetBlock client (tm.TxHeight tx) = Ok block
              /\ RawTxToEthTx ctx (tm.RawTx tx) = Err e)).

(** Committing the receipt of one transaction changes no answer of the
    cache about the receipt of another. *)
Definition commitLocal : Prop :=
  forall db status ethTx txHash blockHash index height data cumulative
         gasUsed other,
    other <> txHash ->
    watcher.MustGetTransactionReceipt (backend.wrappedBackend b)
      (watcher.CommitTransactionReceiptToRpcDb (backend.watcherBackend b)
         db status ethTx txHash blockHash index height data cumulative
         gasUsed) other
    = watcher.MustGetTransactionReceipt (backend.wrappedBackend b) db other.

End LogsVocabulary.

(** Modelled from the spec: [rpctypes.GetBlockCumulativeGas], which is not
    among the sources, is "the sum of gas used by preceding transactions
    in the block": the sum, in [uint64], of the gas of the transactions
    of the block before the index, [gasOf] being the gas of a raw
    transaction. *)
Definition cumulativeGasBefore (gasOf : bytes -> Z) (block : tm.Block)
    (idx : Z) : Z :=
  foldl (fun gasUsed tx => uint64 (gasUsed + gasOf tx)) 0
    (take (Z.to_nat idx) (tm.Txs block)).

Section BloomVocabulary.
Context {Db : Type} (b : backend.EthermintBackend Db).
Context (sectionSize : Z) (kv : KeyValueReader) (db : Db).
Let g := backend.globals b.
Let ctx := backend.clientCtx b.

(** The hash that a turn goes on with: the resolved one, or the zero hash
    when the resolution failed. *)
Definition sectionHash (section : Z) : Hash :=
  match backend.GetBlockHashByHeight b db
          (backend.sectionHeight b sectionSize section) with
  | Ok hash => hash
  | Err _ => zeroHash
  end.

(** The compressed vector of a section: asked from the chain under the
    key of (bit, section, hash), or read from the store for (bit,
    section, hash). *)
Definition sectionVector (bit section : Z) : result bytes :=
  if IsClientRestServer g
  then Query ctx
         (QueryBloomBits (BloomBitsKey g bit section (sectionHash section)))
  else ReadBloomBits g kv bit section (sectionHash section).

(** The bit vector of a section, or the error of its read or of its
    decompression. *)
Definition sectionBlob (bit section : Z) : result bytes :=
  match sectionVector bit section with
  | Ok compVector => bitutil.DecompressBytes compVector (sectionSize / 8)
  | Err err => Err err
  end.

(** The error that the turn of a section leaves in the task, if any. *)
Definition sectionError (bit section : Z) : option error :=
  match sectionBlob bit section with
  | Err err => Some err
  | Ok _ =>
      match backend.GetBlockHashByHeight b db
              (backend.sectionHeight b sectionSize section) with
      | Err err => Some err
      | Ok _ => None
      end
  end.

End BloomVocabulary.

(** The error slot after a turn that left the error [e], or none. *)
Definition keepLast (acc e : option error) : option error :=
  match e with
  | Some err => Some err
  | None => acc
  end.

(** What the round trip needs of the two characters of a byte, checked on
    each of the 256 bytes. *)
Definition byteOk (v : Z) : bool :=
  let hi := nth (Z.to_nat (Z.shiftr v 4)) hex.hextable "000"%char in
  let lo := nth (Z.to_nat (Z.land v 15)) hex.hextable "000"%char in
  (hex.fromHexChar hi <=? 15) && (hex.fromHexChar lo <=? 15)
  && (uint8 (Z.lor (Z.shiftl (hex.fromHexChar hi) 4) (hex.fromHexChar lo))
      =? v)
  && negb (hi =? newline)%char && negb (hi =? colon)%char
  && negb (lo =? newline)%char && negb (lo =? colon)%char.

(** The text holds neither the line end nor the separator. *)
Definition plain (s : list ascii) : Prop :=
  Forall (fun c => c <> newline /\ c <> colon) s.

(** The line of a state, [fmt.Sprintf("%s:%s\n", key.Hex(), value.Hex())]. *)
Definition stateLine (st : evm.State) : list ascii :=
  common.Hex (evm.Key st) ++ [colon] ++ common.Hex (evm.Value st)
  ++ [newline].

(** A state of two hashes of 32 bytes. *)
Definition validState (st : evm.State) : Prop :=
  is_hash (evm.Key st) /\ is_hash (evm.Value st).

(** The name of a file ends at a dot; the two characters of a byte are no
    dot, checked on each of the 256 bytes. *)
Definition dot : ascii := "."%char.

Definition byteDotFree (v : Z) : bool :=
  let hi := nth (Z.to_nat (Z.shiftr v 4)) hex.hextable "000"%char in
  let lo := nth (Z.to_nat (Z.land v 15)) hex.hextable "000"%char in
  negb (hi =? dot)%char && negb (lo =? dot)%char.

(** The text of a code file, [hexutil.Bytes(code).String()]. *)
Definition codeText (code : bytes) : list ascii := hexutil.Encode code.

Section HeaderVocabulary.
Context {Db : Type} (b : backend.EthermintBackend Db).

(** The cache as a projection of the chain, for the bloom of the block at
    [blockNum]: when the cache holds the block, the header of the cached
    block carries the bloom that the bloom query of the chain gives for
    the chain's block at that height. *)
Definition projectsBloom (db : Db) (blockNum : Z) : Prop :=
  forall ethBlock resBlock res bloom,
    watcher.GetBlockByNumber (backend.wrappedBackend b) db (uint64 blockNum)
      false = Ok ethBlock ->
    tm.GetBlock (Client (backend.clientCtx b)) blockNum = Ok resBlock ->
    Query (backend.clientCtx b)
      (QueryBloom (tm.Height (tm.BlockHeader resBlock))) = Ok res ->
    UnmarshalBloom (backend.clientCtx b) res = Ok bloom ->
    HeaderBloom (watcher.EthHeader (backend.wrappedBackend b) ethBlock)
    = bloom.

(** The header that [HeaderByNumber] and [HeaderByHash] build from the
    chain's block: the Tendermint header, which has no bloom, with the
    bloom merged in. *)
Definition mergedHeader (resBlock : tm.Block) (bloom : Bloom) : Header :=
  let ethHeader :=
    EthHeaderFromTendermint (backend.clientCtx b) (tm.BlockHeader resBlock) in
  mkEthHeader (ParentHash ethHeader) (HeaderNumber ethHeader)
    (HeaderTime ethHeader) bloom.

End HeaderVocabulary.

(** A line of two fields of any text, and the state that the loop of
    [readStorageFromFile] makes of it: [ethcmn.HexToHash] of either
    field. *)
Definition fieldLine (kv : list ascii * list ascii) : list ascii :=
  kv.1 ++ [colon] ++ kv.2 ++ [newline].

Definition fieldState (kv : list ascii * list ascii) : evm.State :=
  evm.NewState (common.HexToHash kv.1) (common.HexToHash kv.2).

Definition plainFields (kv : list ascii * list ascii) : Prop :=
  plain kv.1 /\ plain kv.2.

(** A field that starts as the hexadecimal text of [b] and goes on with
    the character [c] and the text [rest]. *)
Definition cutField (b : bytes) (c : ascii) (rest : list ascii)
  : list ascii :=
  list_ascii_of_string "0x" ++ hex.EncodeToString b ++ c :: rest.

(** ** Sample sources

    Small implementations of the collaborators, on which the functions
    above are run. *)

Module samples.

(** A receipt store keyed by transaction hash. *)
Abbreviation Store := (gmap (list Z) watcher.TransactionReceipt).

Definition notFound {A : Type} : result A := Err "not found"%string.
Definition unavailable {A : Type} : result A := Err "unavailable"%string.

(** A querier that knows the given latest height, the given blocks by
    number, and the receipts of the store. *)
Definition querier (latest : result Z)
    (blocks : Z -> result watcher.EthBlock) : watcher.Querier Store :=
  watcher.mkQuerier Store
    (fun _ => latest)
    (fun _ number _ => blocks number)
    (fun _ _ _ => notFound)
    (fun db txHash =>
       match db !! txHash with Some r => Ok r | None => notFound end)
    (fun _ _ => notFound)
    (fun block =>
       mkEthHeader (watcher.BlockHash block) (watcher.Number block) 0
         (watcher.LogsBloom block)).

(** A watcher that stores the receipt under the transaction hash. *)
Definition writer : watcher.Watcher Store :=
  watcher.mkWatcher Store
    (fun db status _ txHash _ _ _ data cumulativeGasUsed gasUsed =>
       <[txHash := watcher.mkReceipt status cumulativeGasUsed
                     (rd_Logs data) gasUsed]> db).

(** A client with the given chain height, blocks, transactions and pool. *)
Definition client (lastHeight : result Z) (blocks : Z -> result tm.Block)
    (txs : bytes -> result tm.ResultTx) (pool : list bytes) : tm.Client :=
  tm.mkClient
    (fun _ _ => lastHeight)
    blocks
    (fun hash _ => txs hash)
    (fun _ => Ok (pool, Z.of_nat (length pool)))
    (fun _ => Ok (Z.of_nat (length pool)))
    (fun _ _ => Ok pool)
    (fun target =>
       match pool with tx :: _ => Ok tx | [] => notFound end).

(** A codec: a raw transaction [1 :: nonce :: payload] is an EVM
    transaction, any other is not; a result blob [1 :: ret] decodes to a
    result without logs, any other does not; a block number is one byte. *)
Definition decodeTx (raw : bytes) : result MsgEthereumTx :=
  match raw with
  | 1 :: nonce :: payload => Ok (mkMsg nonce 21000 payload)
  | _ => Err "not an EVM transaction"%string
  end.

Definition decodeResult (blob : bytes) : result ResultData :=
  match blob with
  | 1 :: ret => Ok (mkResultData None ret)
  | _ => Err "bad result data"%string
  end.

Definition decodeNumber (res : bytes) : result Z :=
  match res with
  | [n] => Ok n
  | _ => Err "bad block number"%string
  end.

Definition context (c : tm.Client) (query : QueryPath -> result bytes)
  : CLIContext :=
  mkCLIContext c true query decodeNumber
    (fun res => Ok res)
    decodeTx
    (fun msg txHash blockHash blockNumber index =>
       Ok (mkTransaction blockHash blockNumber index txHash msg))
    (fun block _ =>
       Ok {[ "transactions"%string :=
               HashList (common.BytesToHash <$> tm.Txs block) ]})
    (fun header =>
       mkEthHeader (common.BytesToHash (tm.LastBlockHash header))
         (tm.Height header) (tm.Time header) [])
    (fun block idx =>
       uint64 (21000 * Z.of_nat (length (take (Z.to_nat idx) (tm.Txs block)))))
    decodeResult
    (fun raw => raw).

(** Globals of a node with sections of 4096 blocks, three of them
    stored; the key of a vector is its bit, its section and the hash. *)
Definition globals (rest : bool) : Globals :=
  mkGlobals rest 0 4096 3
    (fun bit section hash => [bit; section] ++ hash)
    (fun kv bit section hash => kv ([bit; section] ++ hash))
    (fun res => match res with [n] => Ok n | _ => Err "bad json"%string end).

Definition noBlock {A : Type} (_ : Z) : result A := notFound.
Definition noTx (_ : bytes) : result tm.ResultTx := notFound.
Definition noQuery (_ : QueryPath) : result bytes := unavailable.

(** The cache has no latest height and the chain reports the tip [t]. *)
Definition chainTip (t : Z) : backend.EthermintBackend Store :=
  backend.mkBackend Store
    (context (client (Ok t) noBlock noTx []) noQuery)
    (querier notFound noBlock) writer (globals false).

(** The cache reports the tip [t]. *)
Definition cacheTip (t : Z) : backend.EthermintBackend Store :=
  backend.mkBackend Store
    (context (client unavailable noBlock noTx []) noQuery)
    (querier (Ok t) noBlock) writer (globals false).

(** The cache knows no block; the chain maps every block hash to height 5
    and cannot deliver any block. *)
Definition hashToFive (path : QueryPath) : result bytes :=
  match path with
  | QueryHashToHeight _ => Ok [5]
  | _ => unavailable
  end.

Definition lostBlocks : backend.EthermintBackend Store :=
  backend.mkBackend Store
    (context (client (Ok 9) (fun _ => unavailable) noTx []) hashToFive)
    (querier notFound noBlock) writer (globals false).

(** The chain has a block at height 5 and answers the bloom query with
    the bloom [[2]]; every block hash is mapped to height 5. *)
Definition blockFive : tm.Block :=
  tm.mkBlock (tm.mkHeader 5 1600000000 [4]) [5] [].

Definition blocksAtFive (height : Z) : result tm.Block :=
  if height =? 5 then Ok blockFive else notFound.

Definition bloomTwo (path : QueryPath) : result bytes :=
  match path with
  | QueryHashToHeight _ => Ok [5]
  | QueryBloom _ => Ok [2]
  | _ => unavailable
  end.

(** The cache holds block 5 with another bloom, [[1]]. *)
Definition cachedFive : watcher.EthBlock :=
  watcher.mkEthBlock 5 (common.BytesToHash [5]) [1] (HashList []).

Definition cachedAtFive (number : Z) : result watcher.EthBlock :=
  if number =? 5 then Ok cachedFive else notFound.

Definition staleBloom : backend.EthermintBackend Store :=
  backend.mkBackend Store
    (context (client (Ok 9) blocksAtFive noTx []) bloomTwo)
    (querier (Ok 9) cachedAtFive) writer (globals false).

(** The same chain behind a cache without blocks. *)
Definition coldCache : backend.EthermintBackend Store :=
  backend.mkBackend Store
    (context (client (Ok 9) blocksAtFive noTx []) bloomTwo)
    (querier (Ok 9) noBlock) writer (globals false).

(** A pool whose second entry is not an EVM transaction. *)
Definition mixedPool : list bytes := [[1; 7; 0]; [9; 9]; [1; 8]].

Definition pooled (pool : list bytes) : backend.EthermintBackend Store :=
  backend.mkBackend Store
    (context (client (Ok 9) noBlock noTx pool) noQuery)
    (querier notFound noBlock) writer (globals false).

(** A chain whose block 5 holds the raw transactions [raws] and which
    finds the records of the transactions [known], each with its index;
    the cache knows no block. *)
Fixpoint findTx (known : list (bytes * Z)) (hash : bytes)
  : result tm.ResultTx :=
  match known with
  | [] => notFound
  | (raw, index) :: known' =>
      if decide (hash = common.BytesToHash raw)
      then Ok (tm.mkResultTx 5 index (tm.mkTxResult 0 [1; 42] 21000) raw)
      else findTx known' hash
  end.

Definition chainWith (raws : list bytes) (known : list (bytes * Z))
  : backend.EthermintBackend Store :=
  backend.mkBackend Store
    (context
       (client (Ok 9)
          (fun height =>
             if height =? 5
             then Ok (tm.mkBlock (tm.mkHeader 5 1600000000 [4]) [5] raws)
             else notFound)
          (findTx known) [])
       hashToFive)
    (querier notFound noBlock) writer (globals false).

(** A node that serves bloom bits from its own store, in sections of 64
    blocks: the chain knows the hash of block 63, the last of section 0,
    and of no other block; the store holds bit 3 of section 0,
    compressed. *)
Definition heightToHash (path : QueryPath) : result bytes :=
  match path with
  | QueryHeightToHash 63 => Ok [63]
  | _ => unavailable
  end.

Definition bloomKv : KeyValueReader :=
  fun key =>
    if decide (key = [3; 0] ++ common.BytesToHash [63])
    then Ok [192; 170; 85]
    else notFound.

Definition bloomNode : backend.EthermintBackend Store :=
  backend.mkBackend Store
    (context (client (Ok 40) noBlock noTx []) heightToHash)
    (querier notFound noBlock) writer (globals false).

(** A task for bit 3 of the sections 1 and 0, in this order. *)
Definition bloomTask : backend.Retrieval :=
  backend.mkRetrieval 3 [1; 0] [] None.

(** A node in front of a remote chain that answers the given section
    query. *)
Definition restNode (sections : result bytes) : backend.EthermintBackend Store :=
  backend.mkBackend Store
    (context (client (Ok 40) noBlock noTx [])
       (fun path =>
          match path with
          | QuerySection => sections
          | _ => unavailable
          end))
    (querier notFound noBlock) writer (globals true).

(** A storage of two states, each hash ending in the given byte. *)
Definition hashOf (v : Z) : Hash := replicate 31 0 ++ [v].

Definition storage : evm.Storage :=
  [evm.NewState (hashOf 1) (hashOf 255); evm.NewState (hashOf 2) (hashOf 16)].

(** The cache reports the tip 6 and holds no block; the chain has block 5
    and answers the bloom query with [[2]]. *)
Definition tipSix : backend.EthermintBackend Store :=
  backend.mkBackend Store
    (context (client (Ok 9) blocksAtFive noTx []) bloomTwo)
    (querier (Ok 6) noBlock) writer (globals false).

(** The same node with a codec that accepts no bloom payload. *)
Definition noBloomCodec : backend.EthermintBackend Store :=
  let ctx := context (client (Ok 9) blocksAtFive noTx []) bloomTwo in
  backend.mkBackend Store
    (mkCLIContext (Client ctx) (TrustNode ctx) (Query ctx)
       (UnmarshalBlockNumber ctx)
       (fun _ => Err "bad bloom"%string)
       (RawTxToEthTx ctx) (NewTransaction ctx) (EthBlockFromTendermint ctx)
       (EthHeaderFromTendermint ctx) (GetBlockCumulativeGas ctx)
       (DecodeResultData ctx) (TxHash ctx))
    (querier (Ok 6) noBlock) writer (globals false).

(** A store that holds the receipts of the two transactions [[1; 7; 0]]
    and [[1; 8]], the second without logs. *)
Definition twoReceipts : Store :=
  <[common.BytesToHash [1; 7; 0] :=
      watcher.mkReceipt 1 21000 (Some [mkLog [9] [] [1]]) 21000]>
    (<[common.BytesToHash [1; 8] := watcher.mkReceipt 1 42000 None 21000]>
       ∅).

(** A store that holds a compressed vector for bit 3 of section 1 under
    the key of the zero hash. *)
Definition zeroHashKv : KeyValueReader :=
  fun key =>
    if decide (key = [3; 1] ++ zeroHash) then Ok [192; 1; 2] else notFound.

(** A storage file with one line that no export wrote: a key that is not
    hexadecimal and a value of one digit. *)
Definition oddFiles : evm.Files :=
  {[ "odd.storage"%string := list_ascii_of_string "zz:1" ++ [newline] ]}.

(** The files after the export of [storage], with text after its last
    line. *)
Definition cutFiles (tail : list ascii) : evm.Files :=
  {[ "cut.storage"%string := concat (stateLine <$> storage) ++ tail ]}.


(** The code of an account, and the files after an earlier export of
    it. *)
Definition code : bytes := [96; 128; 0; 255].

Definition staleFiles : evm.Files :=
  {[ "0xabc.code"%string := hexutil.Encode code;
     "0xabc.storage"%string := concat (stateLine <$> storage) ]}.

(** The same chain behind a cache that holds block 5 as the chain has it,
    with the bloom [[2]]. *)
Definition projectedFive : watcher.EthBlock :=
  watcher.mkEthBlock 5 (common.BytesToHash [5]) [2] (HashList []).

Definition warmCache : backend.EthermintBackend Store :=
  backend.mkBackend Store
    (context (client (Ok 9) blocksAtFive noTx []) bloomTwo)
    (querier (Ok 9)
       (fun number => if number =? 5 then Ok projectedFive else notFound))
    writer (globals false).

(** A storage file whose key goes on after the text of the byte 171 with
    two characters that are no hexadecimal digits. *)
Definition cutKeyFiles : evm.Files :=
  {[ "key.storage"%string :=
       cutField [171] "g" (list_ascii_of_string "h") ++ [colon]
       ++ common.Hex (hashOf 7) ++ [newline] ]}.

End samples.

(** * Properties *)

(** ** Machine integers *)

Lemma uint64_id (z : Z) : is_uint64 z -> uint64 z = z.
Proof. unfold is_uint64, uint64. intros H. apply Z.mod_small. lia. Qed.

Lemma int64_id (z : Z) : is_int64 z -> int64 z = z.
Proof.
  unfold is_int64, int64. intros H.
  rewrite Z.mod_small; lia.
Qed.

(** ** The current height: [BlockNumber] *)

Section BlockNumber.
Context {Db : Type} (b : backend.EthermintBackend Db) (db : Db).

Lemma BlockNumber_cache (t : Z) :
  watcher.GetLatestBlockNumber (backend.wrappedBackend b) db = Ok t ->
  is_uint64 t ->
  backend.BlockNumber b db = Ok (if 0 <? t then t - 1 else 0).
Proof.
  intros Hc Ht. unfold backend.BlockNumber. rewrite Hc.
  unfold is_uint64 in Ht.
  destruct (0 <? t) eqn:Hpos.
  - apply Z.ltb_lt in Hpos. f_equal.
    rewrite !uint64_id; unfold is_uint64; try lia.
    rewrite uint64_id; unfold is_uint64; lia.
  - apply Z.ltb_ge in Hpos. f_equal.
    assert (t = 0) as -> by lia. reflexivity.
Qed.

(** When the cache fails, the height of the chain is decremented when it
    is positive and then converted to [uint64] as it is. *)
Lemma BlockNumber_chain (t : Z) (e : error) :
  watcher.GetLatestBlockNumber (backend.wrappedBackend b) db = Err e ->
  tm.BlockchainInfo (Client (backend.clientCtx b)) 0 0 = Ok t ->
  is_int64 t ->
  backend.BlockNumber b db
  = Ok (if 0 <? t then t - 1 else if t =? 0 then 0 else t + 2 ^ 64).
Proof.
  intros Hc Hi Ht. unfold backend.BlockNumber, backend.LatestBlockNumber.
  rewrite Hc, Hi. unfold is_int64 in Ht.
  destruct (0 <? t) eqn:Hpos.
  - apply Z.ltb_lt in Hpos. f_equal.
    rewrite int64_id by (unfold is_int64; lia).
    apply uint64_id. unfold is_uint64. lia.
  - apply Z.ltb_ge in Hpos. f_equal.
    destruct (t =? 0) eqn:Hz.
    + apply Z.eqb_eq in Hz. subst t. reflexivity.
    + apply Z.eqb_neq in Hz. unfold uint64.
      replace t with ((t + 2 ^ 64) + (-1) * 2 ^ 64) at 1 by ring.
      rewrite Z.mod_add by lia. apply Z.mod_small. lia.
Qed.

(** C3, as amended: for a tip [t] that is not negative, from the cache or
    from the chain, [BlockNumber] returns [t - 1] when [t > 0] and [0]
    when [t = 0], without an error. *)
Theorem BlockNumber_tip (t : Z) :
  reportedTip b db t ->
  0 <= t ->
  backend.BlockNumber b db = Ok (if 0 <? t then t - 1 else 0).
Proof.
  intros [[Hc Ht] | [[e Hc] [Hi Ht]]] Hnn.
  - by apply BlockNumber_cache.
  - rewrite (BlockNumber_chain t e Hc Hi Ht).
    destruct (0 <? t) eqn:Hpos; [done |].
    apply Z.ltb_ge in Hpos. assert (t = 0) as -> by lia. done.
Qed.

End BlockNumber.

Lemma BlockNumber_tip_witness :
  reportedTip (samples.chainTip 7) ∅ 7 /\ 0 <= 7
  /\ backend.BlockNumber (samples.chainTip 7) ∅ = Ok 6.
Proof.
  assert (Htip : reportedTip (samples.chainTip 7) ∅ 7).
  { right. split; [by eexists |]. split; [reflexivity |].
    unfold is_int64. lia. }
  split; [exact Htip |]. split; [lia |].
  exact (BlockNumber_tip (samples.chainTip 7) ∅ 7 Htip ltac:(lia)).
Defined.

(** C3 as stated fails: the chain reports the tip [-1], which is not
    positive, and [BlockNumber] returns [2^64 - 1], not [0]. *)
Lemma BlockNumber_negative_tip :
  reportedTip (samples.chainTip (-1)) ∅ (-1)
  /\ backend.BlockNumber (samples.chainTip (-1)) ∅
     = Ok 18446744073709551615
  /\ backend.BlockNumber (samples.chainTip (-1)) ∅ <> Ok 0.
Proof.
  split.
  - right. split; [by eexists |]. split; [reflexivity |].
    unfold is_int64. lia.
  - split; [reflexivity | discriminate].
Qed.

(** ** Blocks by number and by hash *)

Section BlockAccessors.
Context {Db : Type} (b : backend.EthermintBackend Db) (db : Db).
Context (fullTx : bool).

Lemma BlockNumber_error (e : error) :
  backend.BlockNumber b db = Err e ->
  tm.BlockchainInfo (Client (backend.clientCtx b)) 0 0 = Err e.
Proof.
  unfold backend.BlockNumber, backend.LatestBlockNumber.
  destruct (watcher.GetLatestBlockNumber _ _); [discriminate |].
  destruct (tm.BlockchainInfo _ _ _); [discriminate | congruence].
Qed.

Lemma resolveHeight_positive (height : Z) :
  0 < height -> backend.resolveHeight b db height = Ok height.
Proof.
  intros H. unfold backend.resolveHeight.
  destruct (height <=? 0) eqn:E; [apply Z.leb_le in E; lia | done].
Qed.

Lemma resolveHeight_error (height : Z) (e : error) :
  backend.resolveHeight b db height = Err e ->
  height <= 0 /\ tm.BlockchainInfo (Client (backend.clientCtx b)) 0 0 = Err e.
Proof.
  unfold backend.resolveHeight.
  destruct (height <=? 0) eqn:E; [| discriminate].
  apply Z.leb_le in E. intros H. split; [done |].
  apply BlockNumber_error.
  destruct (backend.BlockNumber b db); [discriminate | congruence].
Qed.

(** A cached block is returned as it is, by either accessor. *)
Lemma GetBlock_cached (blockNum : Z) (hash : Hash)
    (ethBlock : watcher.EthBlock) :
  (watcher.GetBlockByNumber (backend.wrappedBackend b) db (uint64 blockNum)
     fullTx = Ok ethBlock ->
   backend.GetBlockByNumber b db blockNum fullTx
   = Ok (Some (backend.CachedBlock ethBlock)))
  /\ (watcher.GetBlockByHash (backend.wrappedBackend b) db hash fullTx
      = Ok ethBlock ->
      backend.GetBlockByHash b db hash fullTx
      = Ok (Some (backend.CachedBlock ethBlock))).
Proof.
  split; intros H.
  - unfold backend.GetBlockByNumber. by rewrite H.
  - unfold backend.GetBlockByHash. by rewrite H.
Qed.

(** C2, as amended: when the cache fails, by number or by hash, its error
    is dropped and the chain is asked.  An error of the height resolution,
    of the hash-to-height query, of its decoding or of the formatter is
    returned as it is; a failure of the block fetch itself is not: the
    accessor returns no block and no error. *)
Theorem block_accessors_fallback (blockNum : Z) (hash : Hash)
    (ec1 ec2 : error) :
  let ctx := backend.clientCtx b in
  watcher.GetBlockByNumber (backend.wrappedBackend b) db (uint64 blockNum)
    fullTx = Err ec1 ->
  watcher.GetBlockByHash (backend.wrappedBackend b) db hash fullTx
    = Err ec2 ->
  (forall e, backend.resolveHeight b db blockNum = Err e ->
     backend.GetBlockByNumber b db blockNum fullTx = Err e)
  /\ (forall height e,
        backend.resolveHeight b db blockNum = Ok height ->
        tm.GetBlock (Client ctx) height = Err e ->
        backend.GetBlockByNumber b db blockNum fullTx = Ok None)
  /\ (forall height resBlock,
        backend.resolveHeight b db blockNum = Ok height ->
        tm.GetBlock (Client ctx) height = Ok resBlock ->
        backend.GetBlockByNumber b db blockNum fullTx
        = formatted (EthBlockFromTendermint ctx resBlock fullTx))
  /\ (forall e, Query ctx (QueryHashToHeight hash) = Err e ->
        backend.GetBlockByHash b db hash fullTx = Err e)
  /\ (forall res e,
        Query ctx (QueryHashToHeight hash) = Ok res ->
        UnmarshalBlockNumber ctx res = Err e ->
        backend.GetBlockByHash b db hash fullTx = Err e)
  /\ (forall res number e,
        Query ctx (QueryHashToHeight hash) = Ok res ->
        UnmarshalBlockNumber ctx res = Ok number ->
        tm.GetBlock (Client ctx) number = Err e ->
        backend.GetBlockByHash b db hash fullTx = Ok None)
  /\ (forall res number resBlock,
        Query ctx (QueryHashToHeight hash) = Ok res ->
        UnmarshalBlockNumber ctx res = Ok number ->
        tm.GetBlock (Client ctx) number = Ok resBlock ->
        backend.GetBlockByHash b db hash fullTx
        = formatted (EthBlockFromTendermint ctx resBlock fullTx)).
Proof.
  intros ctx Hn Hh. unfold backend.GetBlockByNumber, backend.GetBlockByHash.
  rewrite Hn, Hh. subst ctx.
  repeat split.
  - intros e ->. done.
  - intros height e -> ->. done.
  - intros height resBlock -> ->. unfold formatted.
    by destruct (EthBlockFromTendermint _ _ _).
  - intros e ->. done.
  - intros res e -> ->. done.
  - intros res number e -> -> ->. done.
  - intros res number resBlock -> -> ->. unfold formatted.
    by destruct (EthBlockFromTendermint _ _ _).
Qed.

End BlockAccessors.

Lemma block_accessors_fallback_witness :
  backend.GetBlockByNumber samples.lostBlocks ∅ 5 false = Ok None
  /\ backend.GetBlockByHash samples.lostBlocks ∅ zeroHash false = Ok None.
Proof.
  pose proof (block_accessors_fallback samples.lostBlocks ∅ false 5 zeroHash
                "not found"%string "not found"%string
                eq_refl eq_refl) as (_ & Hn & _ & _ & _ & Hh & _).
  split.
  - exact (Hn 5 "unavailable"%string eq_refl eq_refl).
  - exact (Hh [5] 5 "unavailable"%string eq_refl eq_refl eq_refl).
Defined.

(** C2 as stated fails: the cache misses, the chain's block fetch fails
    with an error, and neither accessor returns that error. *)
Lemma block_fetch_error_dropped :
  let b := samples.lostBlocks in
  watcher.GetBlockByNumber (backend.wrappedBackend b) ∅ (uint64 5) false
  = Err "not found"%string
  /\ watcher.GetBlockByHash (backend.wrappedBackend b) ∅ zeroHash false
     = Err "not found"%string
  /\ tm.GetBlock (Client (backend.clientCtx b)) 5 = Err "unavailable"%string
  /\ backend.GetBlockByNumber b ∅ 5 false = Ok None
  /\ backend.GetBlockByHash b ∅ zeroHash false = Ok None.
Proof. cbv zeta. repeat split. Qed.

(** ** Headers by number and by hash *)

Section Headers.
Context {Db : Type} (b : backend.EthermintBackend Db) (db : Db).

(** The header built from the chain's block carries the bloom of the
    bloom query. *)
Lemma headerWithBloom_backfill (resBlock : tm.Block) (res : bytes)
    (bloom : Bloom) :
  Query (backend.clientCtx b)
    (QueryBloom (tm.Height (tm.BlockHeader resBlock))) = Ok res ->
  UnmarshalBloom (backend.clientCtx b) res = Ok bloom ->
  returnedBloom (backend.headerWithBloom b resBlock) = Some bloom.
Proof.
  intros Hq Hu. unfold backend.headerWithBloom. by rewrite Hq, Hu.
Qed.

Lemma HeaderByHash_resolved (hash : Hash) (res : bytes) (number : Z) :
  Query (backend.clientCtx b) (QueryHashToHeight hash) = Ok res ->
  UnmarshalBlockNumber (backend.clientCtx b) res = Ok number ->
  backend.HeaderByHash b hash
  = match tm.GetBlock (Client (backend.clientCtx b)) number with
    | Err err => Return (Err err)
    | Ok resBlock => backend.headerWithBloom b resBlock
    end.
Proof. intros Hq Hu. unfold backend.HeaderByHash. by rewrite Hq, Hu. Qed.

(** Where the two blooms come from, for a block at a positive height
    that the chain maps its hash to.  When the cache does not hold the
    block the two accessors return the same result, both taking the bloom
    from the bloom query.  When the cache holds the block,
    [HeaderByNumber] returns the header of the cached block as it is and
    [HeaderByHash] the one of the chain with the queried bloom. *)
Lemma header_resolution_bloom (blockNum : Z) (hash : Hash) (res : bytes) :
  let ctx := backend.clientCtx b in
  let q := backend.wrappedBackend b in
  0 < blockNum ->
  Query ctx (QueryHashToHeight hash) = Ok res ->
  UnmarshalBlockNumber ctx res = Ok blockNum ->
  (forall ec,
     watcher.GetBlockByNumber q db (uint64 blockNum) false = Err ec ->
     backend.HeaderByNumber b db blockNum = backend.HeaderByHash b hash)
  /\ (forall ethBlock resBlock res' bloom,
        watcher.GetBlockByNumber q db (uint64 blockNum) false = Ok ethBlock ->
        tm.GetBlock (Client ctx) blockNum = Ok resBlock ->
        Query ctx (QueryBloom (tm.Height (tm.BlockHeader resBlock)))
        = Ok res' ->
        UnmarshalBloom ctx res' = Ok bloom ->
        returnedBloom (backend.HeaderByNumber b db blockNum)
        = Some (HeaderBloom (watcher.EthHeader q ethBlock))
        /\ returnedBloom (backend.HeaderByHash b hash) = Some bloom).
Proof.
  intros ctx q Hpos Hq Hu. subst ctx q. split.
  - intros ec Hc. rewrite (HeaderByHash_resolved hash res blockNum Hq Hu).
    unfold backend.HeaderByNumber.
    by rewrite (resolveHeight_positive b db blockNum Hpos), Hc.
  - intros ethBlock resBlock res' bloom Hc Hb Hq' Hu'. split.
    + unfold backend.HeaderByNumber.
      by rewrite (resolveHeight_positive b db blockNum Hpos), Hc.
    + rewrite (HeaderByHash_resolved hash res blockNum Hq Hu), Hb.
      by apply (headerWithBloom_backfill resBlock res').
Qed.

End Headers.

Lemma header_resolution_bloom_witness :
  backend.HeaderByNumber samples.coldCache ∅ 5
  = backend.HeaderByHash samples.coldCache zeroHash
  /\ returnedBloom (backend.HeaderByHash samples.coldCache zeroHash)
     = Some [2].
Proof.
  pose proof (header_resolution_bloom samples.coldCache ∅ 5 zeroHash [5]
                ltac:(lia) eq_refl eq_refl) as [Hmiss _].
  split.
  - exact (Hmiss "not found"%string eq_refl).
  - reflexivity.
Defined.

(** The accessors do not reconcile the two sources themselves: behind a
    cache that is no projection of the chain, holding block 5 with the
    bloom [[1]] where the bloom query answers [[2]], they return headers
    with these two blooms. *)
Lemma header_bloom_differs :
  returnedBloom (backend.HeaderByNumber samples.staleBloom ∅ 5) = Some [1]
  /\ returnedBloom (backend.HeaderByHash samples.staleBloom
                      (common.BytesToHash [5])) = Some [2].
Proof. split; reflexivity. Qed.

(** ** The bloom of a block by either accessor *)

Section HeaderBlooms.
Context {Db : Type} (b : backend.EthermintBackend Db) (db : Db).

(** What [HeaderByHash] returned when it returned a header. *)
Lemma HeaderByHash_returned (hash : Hash) (res : bytes) (number : Z)
    (byHash : Header) :
  Query (backend.clientCtx b) (QueryHashToHeight hash) = Ok res ->
  UnmarshalBlockNumber (backend.clientCtx b) res = Ok number ->
  backend.HeaderByHash b hash = Return (Ok byHash) ->
  exists resBlock res' bloom,
    tm.GetBlock (Client (backend.clientCtx b)) number = Ok resBlock
    /\ Query (backend.clientCtx b)
         (QueryBloom (tm.Height (tm.BlockHeader resBlock))) = Ok res'
    /\ UnmarshalBloom (backend.clientCtx b) res' = Ok bloom
    /\ byHash = mergedHeader b resBlock bloom.
Proof.
  intros Hq Hu. rewrite (HeaderByHash_resolved b hash res number Hq Hu).
  destruct (tm.GetBlock _ number) as [resBlock | e]; [| discriminate].
  unfold backend.headerWithBloom.
  destruct (Query _ (QueryBloom _)) as [res' | e] eqn:Hq'; [| discriminate].
  destruct (UnmarshalBloom _ res') as [bloom | e] eqn:Hu'; [| discriminate].
  intros H. inversion H; subst byHash.
  by exists resBlock, res', bloom.
Qed.

(** C5: for a block at a positive height that the chain maps its hash to,
    behind a cache that is a projection of the chain, the header that
    [HeaderByNumber] returns and the header that [HeaderByHash] returns
    carry the same bloom.  When the chain delivers the block and its
    bloom, both accessors return a header, with that bloom; the header
    that either accessor builds from the chain's block, whose header has
    no bloom, is the Tendermint header with the bloom of the bloom query
    merged in. *)
Theorem header_bloom_identical (blockNum : Z) (hash : Hash) (res : bytes) :
  let ctx := backend.clientCtx b in
  let q := backend.wrappedBackend b in
  0 < blockNum ->
  Query ctx (QueryHashToHeight hash) = Ok res ->
  UnmarshalBlockNumber ctx res = Ok blockNum ->
  projectsBloom b db blockNum ->
  (forall byNumber byHash,
     backend.HeaderByNumber b db blockNum = Return (Ok byNumber) ->
     backend.HeaderByHash b hash = Return (Ok byHash) ->
     HeaderBloom byNumber = HeaderBloom byHash)
  /\ (forall resBlock res' bloom,
        tm.GetBlock (Client ctx) blockNum = Ok resBlock ->
        Query ctx (QueryBloom (tm.Height (tm.BlockHeader resBlock)))
        = Ok res' ->
        UnmarshalBloom ctx res' = Ok bloom ->
        returnedBloom (backend.HeaderByNumber b db blockNum) = Some bloom
        /\ returnedBloom (backend.HeaderByHash b hash) = Some bloom
        /\ backend.HeaderByHash b hash
           = Return (Ok (mergedHeader b resBlock bloom))
        /\ (forall ec,
              watcher.GetBlockByNumber q db (uint64 blockNum) false
              = Err ec ->
              backend.HeaderByNumber b db blockNum
              = Return (Ok (mergedHeader b resBlock bloom)))).
Proof.
  intros ctx q Hpos Hq Hu Hproj. subst ctx q.
  assert (Hchain : forall resBlock res' bloom,
            tm.GetBlock (Client (backend.clientCtx b)) blockNum
            = Ok resBlock ->
            Query (backend.clientCtx b)
              (QueryBloom (tm.Height (tm.BlockHeader resBlock))) = Ok res' ->
            UnmarshalBloom (backend.clientCtx b) res' = Ok bloom ->
            backend.headerWithBloom b resBlock
            = Return (Ok (mergedHeader b resBlock bloom))).
  { intros resBlock res' bloom _ Hq' Hu'. unfold backend.headerWithBloom.
    by rewrite Hq', Hu'. }
  assert (Hnum : backend.HeaderByNumber b db blockNum
                 = match watcher.GetBlockByNumber (backend.wrappedBackend b)
                           db (uint64 blockNum) false with
                   | Ok ethBlock =>
                       Return (Ok (watcher.EthHeader
                                     (backend.wrappedBackend b) ethBlock))
                   | Err _ => backend.HeaderByHash b hash
                   end).
  { rewrite (HeaderByHash_resolved b hash res blockNum Hq Hu).
    unfold backend.HeaderByNumber.
    by rewrite (resolveHeight_positive b db blockNum Hpos). }
  split.
  - intros byNumber byHash Hn Hh.
    destruct (HeaderByHash_returned hash res blockNum byHash Hq Hu Hh)
      as (resBlock & res' & bloom & Hb & Hq' & Hu' & ->).
    rewrite Hnum in Hn.
    destruct (watcher.GetBlockByNumber _ db (uint64 blockNum) false)
      as [ethBlock | ec] eqn:Hc.
    + inversion Hn; subst byNumber.
      exact (Hproj ethBlock resBlock res' bloom Hc Hb Hq' Hu').
    + rewrite Hh in Hn. by inversion Hn.
  - intros resBlock res' bloom Hb Hq' Hu'.
    assert (Hh : backend.HeaderByHash b hash
                 = Return (Ok (mergedHeader b resBlock bloom))).
    { rewrite (HeaderByHash_resolved b hash res blockNum Hq Hu), Hb.
      by apply (Hchain resBlock res'). }
    split; [| split; [by rewrite Hh | split; [exact Hh |]]].
    + rewrite Hnum.
      destruct (watcher.GetBlockByNumber _ db (uint64 blockNum) false)
        as [ethBlock | ec] eqn:Hc.
      * simpl. f_equal.
        exact (Hproj ethBlock resBlock res' bloom Hc Hb Hq' Hu').
      * by rewrite Hh.
    + intros ec Hc. by rewrite Hnum, Hc.
Qed.

End HeaderBlooms.

Lemma header_bloom_identical_witness :
  returnedBloom (backend.HeaderByNumber samples.warmCache ∅ 5) = Some [2]
  /\ returnedBloom (backend.HeaderByHash samples.warmCache
                      (common.BytesToHash [5])) = Some [2]
  /\ backend.HeaderByNumber samples.coldCache ∅ 5
     = Return (Ok (mergedHeader samples.coldCache samples.blockFive [2])).
Proof.
  assert (Hwarm : projectsBloom samples.warmCache ∅ 5).
  { intros ethBlock resBlock res bloom Hc Hb Hq Hu.
    vm_compute in Hc. inversion Hc; subst ethBlock.
    vm_compute in Hb. inversion Hb; subst resBlock.
    vm_compute in Hq. inversion Hq; subst res.
    vm_compute in Hu. inversion Hu; subst bloom. reflexivity. }
  assert (Hcold : projectsBloom samples.coldCache ∅ 5).
  { intros ethBlock resBlock res bloom Hc. vm_compute in Hc. discriminate. }
  destruct (header_bloom_identical samples.warmCache ∅ 5
              (common.BytesToHash [5]) [5] ltac:(lia) eq_refl eq_refl Hwarm)
    as [_ Hw].
  destruct (Hw samples.blockFive [2] [2] eq_refl eq_refl eq_refl)
    as (Hn & Hh & _).
  destruct (header_bloom_identical samples.coldCache ∅ 5
              (common.BytesToHash [5]) [5] ltac:(lia) eq_refl eq_refl Hcold)
    as [_ Hc].
  destruct (Hc samples.blockFive [2] [2] eq_refl eq_refl eq_refl)
    as (_ & _ & _ & Hmiss).
  split; [exact Hn |]. split; [exact Hh |].
  exact (Hmiss "not found"%string eq_refl).
Defined.

(** ** Pending transactions *)

Section Pending.
Context {Db : Type} (b : backend.EthermintBackend Db).
Let ctx := backend.clientCtx b.

Lemma pendingLoop_collect (txs : list bytes)
    (transactions : list (option Transaction)) :
  backend.pendingLoop b txs transactions
  = mapResult (fun l => transactions ++ (Some <$> l))
      (collect (unmined ctx <$> evmEntries ctx txs)).
Proof.
  revert transactions.
  induction txs as [| tx txs IH]; intros transactions; simpl.
  - by rewrite app_nil_r.
  - unfold evmEntries in *. simpl. fold ctx.
    destruct (RawTxToEthTx ctx tx) as [ethTx | e]; simpl.
    + unfold unmined at 1. simpl.
      destruct (NewTransaction ctx ethTx _ zeroHash 0 0) as [rpcTx | e];
        simpl; [| done].
      rewrite IH.
      destruct (collect _) as [l | e]; simpl; [| done].
      by rewrite <- app_assoc.
    + apply IH.
Qed.

Lemma collect_Forall {A : Type} (P : A -> Prop) (l : list (result A))
    (l' : list A) :
  Forall (fun r => forall a, r = Ok a -> P a) l ->
  collect l = Ok l' -> Forall P l'.
Proof.
  revert l'. induction l as [| r l IH]; intros l' Hl Hc; simpl in Hc.
  - by inversion Hc.
  - inversion Hl as [| ? ? Hr Hl']; subst.
    destruct r as [a | e]; [| discriminate].
    destruct (collect l) as [l'' | e]; [| discriminate].
    inversion Hc; subst. constructor; [by apply Hr | by apply IH].
Qed.

Lemma unmined_notMined (entries : list (bytes * MsgEthereumTx))
    (l : list Transaction) :
  keepsLinkage ctx ->
  collect (unmined ctx <$> entries) = Ok l -> Forall notMined l.
Proof.
  intros Hk. apply collect_Forall.
  apply Forall_fmap, Forall_forall. intros entry _ t Ht.
  exact (Hk _ _ _ _ _ _ Ht).
Qed.

(** The three views as the code has them.  The full list omits, without
    an error, every pool entry that does not decode as an EVM transaction
    and returns the others in pool order, each made by [NewTransaction]
    with the zero block hash, block number 0 and index 0.  The view by
    hash returns the decoding error of its entry; an entry that decodes
    is returned the same way.  In the view by address the entries that
    are not [nil] are, in pool order, the decoded entries made the same
    way. *)
Lemma pending_views (txs utxs : list bytes) (count limit : Z)
    (address : list ascii) (target : Hash) (pendingTx : bytes) :
  let client := Client (backend.clientCtx b) in
  tm.UnconfirmedTxs client (-1) = Ok (txs, count) ->
  tm.UserUnconfirmedTxs client address limit = Ok utxs ->
  tm.GetUnconfirmedTxByHash client target = Ok pendingTx ->
  backend.PendingTransactions b
  = mapResult (fmap Some)
      (collect (unmined (backend.clientCtx b)
                <$> evmEntries (backend.clientCtx b) txs))
  /\ mapResult (omap id) (backend.UserPendingTransactions b address limit)
     = collect (unmined (backend.clientCtx b)
                <$> evmEntries (backend.clientCtx b) utxs)
  /\ (forall e,
        RawTxToEthTx (backend.clientCtx b) pendingTx = Err e ->
        backend.PendingTransactionsByHash b target = Err e)
  /\ (forall ethTx,
        RawTxToEthTx (backend.clientCtx b) pendingTx = Ok ethTx ->
        backend.PendingTransactionsByHash b target
        = unmined (backend.clientCtx b) (pendingTx, ethTx))
  /\ (keepsLinkage (backend.clientCtx b) ->
      forall l,
        collect (unmined (backend.clientCtx b)
                 <$> evmEntries (backend.clientCtx b) txs) = Ok l ->
        Forall notMined l).
Proof.
  intros client Hp Hu Hh. subst client. repeat split.
  - unfold backend.PendingTransactions. rewrite Hp.
    by rewrite pendingLoop_collect.
  - unfold backend.UserPendingTransactions. rewrite Hu.
    rewrite pendingLoop_collect. fold ctx.
    destruct (collect _) as [l | e]; simpl; [| done].
    f_equal. rewrite omap_app.
    assert (Hnil : omap id (replicate (length utxs) (@None Transaction))
                   = []).
    { induction (length utxs) as [| n IH]; [done | exact IH]. }
    rewrite Hnil. simpl. clear. induction l as [| t l IH]; [done |].
    simpl. f_equal. exact IH.
  - intros e He. unfold backend.PendingTransactionsByHash.
    by rewrite Hh, He.
  - intros ethTx He. unfold backend.PendingTransactionsByHash, unmined.
    rewrite Hh, He. simpl. by destruct (NewTransaction _ _ _ _ _ _).
  - intros Hk l. apply unmined_notMined. exact Hk.
Qed.

End Pending.

Lemma pending_views_witness :
  backend.PendingTransactions (samples.pooled samples.mixedPool)
  = Ok [Some (mkTransaction zeroHash 0 0 (common.BytesToHash [1; 7; 0])
                (mkMsg 7 21000 [0]));
        Some (mkTransaction zeroHash 0 0 (common.BytesToHash [1; 8])
                (mkMsg 8 21000 []))].
Proof.
  pose proof (pending_views (samples.pooled samples.mixedPool)
                samples.mixedPool samples.mixedPool 3 10 [] zeroHash
                [1; 7; 0] eq_refl eq_refl eq_refl) as [Hfull _].
  exact Hfull.
Defined.

(** C4, on a pool whose only entry is not an EVM transaction: the full
    list and the list by address leave the entry out and return no error,
    as their loops [continue] on the decoding error; the view by hash,
    under the comment "ignore non Ethermint EVM transactions", returns
    that error. *)
Lemma pending_by_hash_decode_error :
  let b := samples.pooled [[9; 9]] in
  RawTxToEthTx (backend.clientCtx b) [9; 9]
  = Err "not an EVM transaction"%string
  /\ backend.PendingTransactions b = Ok []
  /\ mapResult (omap id) (backend.UserPendingTransactions b [] 10) = Ok []
  /\ backend.PendingTransactionsByHash b zeroHash
     = Err "not an EVM transaction"%string.
Proof. cbv zeta. repeat split. Qed.

(** The view by address starts its list at the length of the pool and
    appends to it: one [nil] entry per pool entry comes first. *)
Lemma UserPendingTransactions_nil_prefix :
  backend.UserPendingTransactions (samples.pooled [[1; 7; 0]]) [] 10
  = Ok [None;
        Some (mkTransaction zeroHash 0 0 (common.BytesToHash [1; 7; 0])
                (mkMsg 7 21000 [0]))].
Proof. reflexivity. Qed.

(** ** Logs of a block: [GetLogs] *)

Section Logs.
Context {Db : Type} (b : backend.EthermintBackend Db).
Let ctx := backend.clientCtx b.
Let client := Client (backend.clientCtx b).

(** One turn on a transaction that the chain has no record of. *)
Lemma logsOfTx_unlocatable (db : Db) (txHash : Hash) :
  unlocatable b db txHash -> backend.logsOfTx b db txHash = (backend.ReturnNil, db).
Proof.
  intros [[e1 H1] [e2 H2]]. unfold backend.logsOfTx.
  by rewrite H1, H2.
Qed.

(** One turn: the state changes only by a commit for this transaction, and
    only when the chain has its record. *)
Lemma logsOfTx_cases (db : Db) (txHash : Hash) :
  (exists logs, backend.logsOfTx b db txHash = (backend.Logs logs, db))
  \/ backend.logsOfTx b db txHash = (backend.ReturnNil, db)
  \/ (exists e, backend.logsOfTx b db txHash = (backend.ReturnErr e, db)
                /\ hardError b txHash e)
  \/ (exists tx logs status ethTx blockHash index height data cumulative
             gasUsed,
        tm.Tx client txHash (negb (TrustNode ctx)) = Ok tx
        /\ backend.logsOfTx b db txHash
           = (backend.Logs logs,
              watcher.CommitTransactionReceiptToRpcDb
                (backend.watcherBackend b) db status ethTx txHash blockHash
                index height data cumulative gasUsed)).
Proof.
  unfold backend.logsOfTx. fold client ctx.
  destruct (watcher.MustGetTransactionReceipt _ db txHash) as [r | e0].
  { left. by eexists. }
  destruct (tm.Tx client txHash _) as [tx | e1] eqn:Htx.
  2: { right. by left. }
  destruct (tm.GetBlock client (tm.TxHeight tx)) as [block | e2] eqn:Hb.
  2: { right. right. left. exists e2. split; [done |].
       exists tx. split; [done |]. by left. }
  destruct (RawTxToEthTx ctx (tm.RawTx tx)) as [ethTx | e3] eqn:Hd.
  2: { right. right. left. exists e3. split; [done |].
       exists tx. split; [done |]. right. by exists block. }
  right. right. right.
  destruct (DecodeResultData ctx _) as [data | e4];
    repeat eexists; reflexivity.
Qed.

(** The loop on a block with a transaction that neither source has. *)
Lemma logsLoop_unlocatable (pre post : list Hash) (txHash : Hash) :
  commitLocal b ->
  forall (db : Db) (blockLogs : list (slice Log)),
    unlocatable b db txHash ->
    ((backend.logsLoop b db (pre ++ txHash :: post) blockLogs).1 = Ok None
     \/ exists e h,
          h ∈ pre /\ hardError b h e
          /\ (backend.logsLoop b db (pre ++ txHash :: post) blockLogs).1
             = Err e).
Proof.
  intros Hlocal. induction pre as [| h pre IH]; intros db blockLogs Hun.
  - left. simpl. by rewrite (logsOfTx_unlocatable db txHash Hun).
  - simpl.
    destruct (logsOfTx_cases db h)
      as [[logs ->] | [-> | [(e & -> & He) |
          (tx & logs & st & et & bh & ix & ht & dt & cu & gu & Htx & ->)]]].
    + destruct (IH db (blockLogs ++ [logs]) Hun)
        as [Hnil | (e & h' & Hin & He & Hr)]; [by left |].
      right. exists e, h'. split; [by right | done].
    + by left.
    + right. exists e, h. split; [by left | done].
    + assert (Hne : txHash <> h).
      { intros ->. destruct Hun as [_ [e He]].
        unfold client, ctx in Htx. congruence. }
      assert (Hun' : unlocatable b
                (watcher.CommitTransactionReceiptToRpcDb
                   (backend.watcherBackend b) db st et h bh ix ht dt cu gu)
                txHash).
      { destruct Hun as [[e He] Hchain]. split; [| done].
        exists e. by rewrite Hlocal. }
      destruct (IH _ (blockLogs ++ [logs]) Hun')
        as [Hnil | (e & h' & Hin & He & Hr)]; [by left |].
      right. exists e, h'. split; [by right | done].
Qed.

(** [GetLogs] on a block that resolves to the given transaction hashes. *)
Lemma GetLogs_resolved (db : Db) (blockHash : Hash)
    (resBlock : option backend.BlockValue) (txHashes : list Hash) :
  backend.GetBlockByHash b db blockHash false = Ok resBlock ->
  backend.blockTxHashes resBlock = Return txHashes ->
  (backend.GetLogs b db blockHash).1
  = Return (backend.logsLoop b db txHashes []).1.
Proof.
  intros Hb Ht. unfold backend.GetLogs. rewrite Hb, Ht.
  by destruct (backend.logsLoop b db txHashes []).
Qed.

(** C1, as amended: on a block with a transaction that neither source
    has, [GetLogs] returns no logs, never the logs of a part of the
    block.  It returns no error either, unless, for a transaction ahead of
    that one, the chain has the record and fails on its block or on its
    decoding: that error is then returned. *)
Theorem GetLogs_unlocatable (db : Db) (blockHash : Hash)
    (resBlock : option backend.BlockValue) (pre post : list Hash)
    (txHash : Hash) :
  commitLocal b ->
  backend.GetBlockByHash b db blockHash false = Ok resBlock ->
  backend.blockTxHashes resBlock = Return (pre ++ txHash :: post) ->
  unlocatable b db txHash ->
  ((backend.GetLogs b db blockHash).1 = Return (Ok None)
   \/ exists e h,
        h ∈ pre /\ hardError b h e
        /\ (backend.GetLogs b db blockHash).1 = Return (Err e))
  /\ ((forall h e, h ∈ pre -> ~ hardError b h e) ->
      (backend.GetLogs b db blockHash).1 = Return (Ok None)).
Proof.
  intros Hlocal Hb Ht Hun.
  rewrite (GetLogs_resolved db blockHash resBlock _ Hb Ht).
  destruct (logsLoop_unlocatable pre post txHash Hlocal db [] Hun)
    as [-> | (e & h & Hin & He & ->)].
  - split; [by left | done].
  - split.
    + right. by exists e, h.
    + intros Hno. by destruct (Hno h e Hin He).
Qed.

End Logs.

Lemma samples_commitLocal (raws : list bytes) (known : list (bytes * Z)) :
  commitLocal (samples.chainWith raws known).
Proof.
  intros db status ethTx txHash blockHash index height data cumulative
    gasUsed other Hne. simpl.
  by rewrite lookup_insert_ne.
Qed.

Lemma GetLogs_unlocatable_witness :
  (backend.GetLogs
     (samples.chainWith [[1; 7; 0]; [1; 8]] [([1; 7; 0], 0)]) ∅ zeroHash).1
  = Return (Ok None).
Proof.
  set (b := samples.chainWith [[1; 7; 0]; [1; 8]] [([1; 7; 0], 0)]).
  assert (Hun : unlocatable b ∅ (common.BytesToHash [1; 8])).
  { split; by eexists. }
  assert (Hblock : backend.GetBlockByHash b ∅ zeroHash false
                   = Ok (Some (backend.FormattedBlock
                           {[ "transactions"%string :=
                                HashList [common.BytesToHash [1; 7; 0];
                                          common.BytesToHash [1; 8]] ]}))).
  { reflexivity. }
  assert (Hclean : forall h e,
             h ∈ [common.BytesToHash [1; 7; 0]] -> ~ hardError b h e).
  { intros h e Hin (tx & Htx & Herr).
    apply list_elem_of_singleton in Hin. subst h.
    vm_compute in Htx. inversion Htx; subst tx; clear Htx.
    destruct Herr as [Herr | (block & _ & Herr)]; vm_compute in Herr;
      discriminate. }
  exact (proj2 (GetLogs_unlocatable b ∅ zeroHash _
                  [common.BytesToHash [1; 7; 0]] []
                  (common.BytesToHash [1; 8])
                  (samples_commitLocal _ _) Hblock eq_refl Hun) Hclean).
Defined.

(** C1 as stated fails: the second transaction of the block is in
    neither source, the first is not in the cache and its record, found
    by the chain, does not decode: [GetLogs] returns that error. *)
Lemma GetLogs_error_before_unlocatable :
  let b := samples.chainWith [[9; 9]; [1; 8]] [([9; 9], 0)] in
  backend.GetBlockByHash b ∅ zeroHash false
  = Ok (Some (backend.FormattedBlock
                {[ "transactions"%string :=
                     HashList [common.BytesToHash [9; 9];
                               common.BytesToHash [1; 8]] ]}))
  /\ unlocatable b ∅ (common.BytesToHash [1; 8])
  /\ (backend.GetLogs b ∅ zeroHash).1
     = Return (Err "not an EVM transaction"%string).
Proof.
  cbv zeta. split; [reflexivity |]. split; [| reflexivity].
  split; by eexists.
Qed.

(** ** The receipt that [GetLogs] rebuilds *)

Section Receipt.
Context {Db : Type} (b : backend.EthermintBackend Db).
Let ctx := backend.clientCtx b.
Let client := Client (backend.clientCtx b).

(** One turn of the loop on a cache miss, for a transaction whose record,
    block and decoding the chain provides: the turn commits a receipt to
    the watcher and goes on with the logs of that receipt.  Its
    cumulative gas is the own gas of the transaction at index 0 and, at
    any other index, the own gas plus [GetBlockCumulativeGas] of the
    block at that index, in [uint64]; its status is 0 when the result
    blob does not decode; its logs are the decoded ones, or the empty
    list when there are none. *)
Lemma rebuilt_receipt (db : Db) (txHash : Hash) (ec : error)
    (tx : tm.ResultTx) (block : tm.Block) (ethTx : MsgEthereumTx) :
  watcher.MustGetTransactionReceipt (backend.wrappedBackend b) db txHash
  = Err ec ->
  tm.Tx client txHash (negb (TrustNode ctx)) = Ok tx ->
  tm.GetBlock client (tm.TxHeight tx) = Ok block ->
  RawTxToEthTx ctx (tm.RawTx tx) = Ok ethTx ->
  let gasUsed := tm.GasUsed (tm.Result tx) in
  let before := GetBlockCumulativeGas ctx block (tm.Index tx) in
  let decoded := DecodeResultData ctx (tm.Data (tm.Result tx)) in
  exists status data cumulative,
    backend.logsOfTx b db txHash
    = (backend.Logs (rd_Logs data),
       watcher.CommitTransactionReceiptToRpcDb (backend.watcherBackend b)
         db status ethTx txHash (common.BytesToHash (tm.BlockHash block))
         (uint64 (tm.Index tx)) (uint64 (tm.Height (tm.BlockHeader block)))
         data cumulative (uint64 gasUsed))
    /\ (tm.Index tx = 0 -> cumulative = uint64 gasUsed)
    /\ (tm.Index tx <> 0 -> cumulative = uint64 (uint64 gasUsed + before))
    /\ (tm.Index tx <> 0 -> 0 <= gasUsed -> 0 <= before ->
        gasUsed + before < 2 ^ 64 -> cumulative = gasUsed + before)
    /\ (forall e, decoded = Err e -> status = 0 /\ rd_Logs data = Some [])
    /\ (forall d, decoded = Ok d ->
          status = (if tm.IsOK (tm.Result tx) then 1 else 0)
          /\ rd_Logs data
             = (if (slen (rd_Logs d) =? 0)%nat then Some [] else rd_Logs d))
    /\ rd_Logs data <> None.
Proof.
  intros Hc Ht Hb Hd gasUsed before decoded.
  unfold backend.logsOfTx. fold client ctx. rewrite Hc, Ht, Hb, Hd.
  fold gasUsed before. unfold tm.GetData. fold decoded.
  assert (Hcum :
    forall cumulative,
      cumulative = (if negb (tm.Index tx =? 0)
                    then uint64 (uint64 gasUsed + before)
                    else uint64 gasUsed) ->
      (tm.Index tx = 0 -> cumulative = uint64 gasUsed)
      /\ (tm.Index tx <> 0 -> cumulative = uint64 (uint64 gasUsed + before))
      /\ (tm.Index tx <> 0 -> 0 <= gasUsed -> 0 <= before ->
          gasUsed + before < 2 ^ 64 -> cumulative = gasUsed + before)).
  { intros cumulative ->. destruct (tm.Index tx =? 0) eqn:Hi; simpl.
    - apply Z.eqb_eq in Hi. repeat split; congruence.
    - apply Z.eqb_neq in Hi. split; [congruence |]. split; [done |].
      intros _ Hg Hbf Hsum.
      rewrite (uint64_id gasUsed) by (unfold is_uint64; lia).
      apply uint64_id. unfold is_uint64. lia. }
  destruct decoded as [d | e] eqn:Hdec.
  - destruct (slen (rd_Logs d) =? 0)%nat eqn:Hlen.
    + eexists _, _, _. split; [reflexivity |].
      destruct (Hcum _ eq_refl) as (H0 & H1 & H2).
      split; [exact H0 |]. split; [exact H1 |]. split; [exact H2 |].
      split; [discriminate |]. split; [| discriminate].
      intros d' Hd'. inversion Hd'; subst d'. by rewrite Hlen.
    + eexists _, _, _. split; [reflexivity |].
      destruct (Hcum _ eq_refl) as (H0 & H1 & H2).
      split; [exact H0 |]. split; [exact H1 |]. split; [exact H2 |].
      split; [discriminate |]. split.
      * intros d' Hd'. inversion Hd'; subst d'. by rewrite Hlen.
      * destruct (rd_Logs d); [discriminate | done].
  - eexists _, _, _. split; [reflexivity |].
    destruct (Hcum _ eq_refl) as (H0 & H1 & H2).
    split; [exact H0 |]. split; [exact H1 |]. split; [exact H2 |].
    split; [done |]. split; discriminate.
Qed.

(** With the helper read as the specification words it, the cumulative
    gas at an index that is not 0 is the own gas plus the sum over the
    transactions before the index. *)
Corollary cumulativeGasBefore_sum (gasOf : bytes -> Z) (block : tm.Block)
    (idx : Z) :
  Forall (fun tx => 0 <= gasOf tx) (tm.Txs block) ->
  foldr Z.add 0 (gasOf <$> take (Z.to_nat idx) (tm.Txs block)) < 2 ^ 64 ->
  cumulativeGasBefore gasOf block idx
  = foldr Z.add 0 (gasOf <$> take (Z.to_nat idx) (tm.Txs block)).
Proof.
  unfold cumulativeGasBefore. intros Hpos.
  apply (Forall_take _ (Z.to_nat idx)) in Hpos. revert Hpos.
  generalize (take (Z.to_nat idx) (tm.Txs block)) as l.
  intros l Hl Hsum.
  assert (Hgen : forall acc, 0 <= acc ->
            acc + foldr Z.add 0 (gasOf <$> l) < 2 ^ 64 ->
            foldl (fun gasUsed tx => uint64 (gasUsed + gasOf tx)) acc l
            = acc + foldr Z.add 0 (gasOf <$> l)).
  { clear Hsum. induction Hl as [| x l Hx Hl IH]; intros acc Hacc Hs.
    - simpl. lia.
    - rewrite fmap_cons in *. cbn [foldr foldl] in *.
      assert (0 <= foldr Z.add 0 (gasOf <$> l)).
      { clear -Hl. induction Hl as [| y l Hy Hl IH]; [done |].
        rewrite fmap_cons. cbn [foldr]. lia. }
      rewrite uint64_id by (unfold is_uint64; lia).
      rewrite IH; lia. }
  rewrite Hgen; lia.
Qed.

End Receipt.

Lemma rebuilt_receipt_witness :
  let b := samples.chainWith [[1; 7; 0]; [1; 8]]
             [([1; 7; 0], 0); ([1; 8], 1)] in
  let txHash := common.BytesToHash [1; 8] in
  exists status data cumulative,
    backend.logsOfTx b ∅ txHash
    = (backend.Logs (rd_Logs data),
       <[txHash := watcher.mkReceipt status cumulative (rd_Logs data) 21000]>
         ∅)
    /\ cumulative = 42000 /\ status = 1 /\ rd_Logs data = Some [].
Proof.
  intros b txHash.
  assert (Hmiss : watcher.MustGetTransactionReceipt
                    (backend.wrappedBackend b) ∅ txHash
                  = Err "not found"%string) by reflexivity.
  assert (Htx : tm.Tx (Client (backend.clientCtx b)) txHash
                  (negb (TrustNode (backend.clientCtx b)))
                = Ok (tm.mkResultTx 5 1 (tm.mkTxResult 0 [1; 42] 21000)
                        [1; 8])) by reflexivity.
  destruct (rebuilt_receipt b ∅ txHash "not found"%string _
              (tm.mkBlock (tm.mkHeader 5 1600000000 [4]) [5]
                 [[1; 7; 0]; [1; 8]])
              (mkMsg 8 21000 []) Hmiss Htx eq_refl eq_refl)
    as (status & data & cumulative & Hrun & _ & _ & Hsum & _ & Hdec & _).
  exists status, data, cumulative.
  destruct (Hdec (mkResultData None [42]) eq_refl) as [Hstatus Hlogs].
  split; [exact Hrun |]. split; [| split; [exact Hstatus | exact Hlogs]].
  apply Hsum; vm_compute; congruence.
Defined.

(** ** The receipt that [GetLogs] writes back *)

Lemma sum_nonneg (gasOf : bytes -> Z) (l : list bytes) :
  Forall (fun raw => 0 <= gasOf raw) l -> 0 <= foldr Z.add 0 (gasOf <$> l).
Proof.
  induction 1 as [| raw l Hraw Hl IH]; [done |].
  rewrite fmap_cons. cbn [foldr]. lia.
Qed.

Section WriteBack.
Context {Db : Type} (b : backend.EthermintBackend Db).

(** The loop over a list in two parts: the second part starts from the
    cache and the logs that the first part leaves. *)
Lemma logsLoop_app (pre rest : list Hash) :
  forall (db : Db) (blockLogs : list (slice Log)),
    backend.logsLoop b db (pre ++ rest) blockLogs
    = match backend.logsLoop b db pre blockLogs with
      | (Ok (Some logs), db') => backend.logsLoop b db' rest logs
      | stopped => stopped
      end.
Proof.
  induction pre as [| h pre IH]; intros db blockLogs; [done |].
  cbn [app backend.logsLoop].
  destruct (backend.logsOfTx b db h) as [[logs | | e] db']; [| done | done].
  apply IH.
Qed.

(** C6: [GetLogs] on a block where the loop reaches a transaction that
    the cache misses and whose record, block and decoding the chain
    provides.  A receipt is committed to the watcher and the loop goes on
    from the cache with that receipt, the logs of the receipt appended:
    when the transaction is the last of the block, [GetLogs] returns the
    logs together with the cache that holds the receipt.  The cumulative
    gas of the receipt is the own gas of the transaction at index 0 and,
    at any other index, the own gas plus the gas of the transactions
    before it in the block, in [uint64]; its status is 0 when the result
    blob does not decode; its logs are the decoded ones, or the empty list
    when there are none.  [GetBlockCumulativeGas] is taken to be the sum
    that the specification words. *)
Theorem GetLogs_rebuilt_receipt (db reached : Db) (blockHash : Hash)
    (resBlock : option backend.BlockValue) (pre post : list Hash)
    (preLogs : list (slice Log)) (txHash : Hash) (ec : error)
    (tx : tm.ResultTx) (block : tm.Block) (ethTx : MsgEthereumTx)
    (gasOf : bytes -> Z) :
  let ctx := backend.clientCtx b in
  backend.GetBlockByHash b db blockHash false = Ok resBlock ->
  backend.blockTxHashes resBlock = Return (pre ++ txHash :: post) ->
  backend.logsLoop b db pre [] = (Ok (Some preLogs), reached) ->
  watcher.MustGetTransactionReceipt (backend.wrappedBackend b) reached txHash
  = Err ec ->
  tm.Tx (Client ctx) txHash (negb (TrustNode ctx)) = Ok tx ->
  tm.GetBlock (Client ctx) (tm.TxHeight tx) = Ok block ->
  RawTxToEthTx ctx (tm.RawTx tx) = Ok ethTx ->
  GetBlockCumulativeGas ctx block (tm.Index tx)
  = cumulativeGasBefore gasOf block (tm.Index tx) ->
  let gasUsed := tm.GasUsed (tm.Result tx) in
  let before :=
    foldr Z.add 0 (gasOf <$> take (Z.to_nat (tm.Index tx)) (tm.Txs block)) in
  let decoded := DecodeResultData ctx (tm.Data (tm.Result tx)) in
  exists status data cumulative,
    let written :=
      watcher.CommitTransactionReceiptToRpcDb (backend.watcherBackend b)
        reached status ethTx txHash
        (common.BytesToHash (tm.BlockHash block)) (uint64 (tm.Index tx))
        (uint64 (tm.Height (tm.BlockHeader block))) data cumulative
        (uint64 gasUsed) in
    let rest :=
      backend.logsLoop b written post (preLogs ++ [rd_Logs data]) in
    backend.GetLogs b db blockHash = (Return rest.1, rest.2)
    /\ (post = [] ->
        backend.GetLogs b db blockHash
        = (Return (Ok (Some (preLogs ++ [rd_Logs data]))), written))
    /\ (tm.Index tx = 0 -> cumulative = uint64 gasUsed)
    /\ (tm.Index tx <> 0 ->
        cumulative
        = uint64 (uint64 gasUsed
                  + cumulativeGasBefore gasOf block (tm.Index tx)))
    /\ (tm.Index tx <> 0 -> 0 <= gasUsed ->
        Forall (fun raw => 0 <= gasOf raw) (tm.Txs block) ->
        gasUsed + before < 2 ^ 64 -> cumulative = gasUsed + before)
    /\ (forall e, decoded = Err e -> status = 0 /\ rd_Logs data = Some [])
    /\ (forall d, decoded = Ok d ->
          status = (if tm.IsOK (tm.Result tx) then 1 else 0)
          /\ rd_Logs data
             = (if (slen (rd_Logs d) =? 0)%nat then Some [] else rd_Logs d))
    /\ rd_Logs data <> None.
Proof.
  intros ctx Hblock Hhashes Hpre Hmiss Htx Hb Hd Hgas gasUsed before decoded.
  subst ctx.
  destruct (rebuilt_receipt b reached txHash ec tx block ethTx Hmiss Htx Hb
              Hd)
    as (status & data & cumulative & Hrun & H0 & H1 & H2 & Herr & Hok & Hnn).
  exists status, data, cumulative. cbv zeta.
  assert (Hlogs :
    backend.GetLogs b db blockHash
    = (Return
         (backend.logsLoop b
            (watcher.CommitTransactionReceiptToRpcDb
               (backend.watcherBackend b) reached status ethTx txHash
               (common.BytesToHash (tm.BlockHash block))
               (uint64 (tm.Index tx))
               (uint64 (tm.Height (tm.BlockHeader block))) data cumulative
               (uint64 gasUsed))
            post (preLogs ++ [rd_Logs data])).1,
       (backend.logsLoop b
          (watcher.CommitTransactionReceiptToRpcDb
             (backend.watcherBackend b) reached status ethTx txHash
             (common.BytesToHash (tm.BlockHash block))
             (uint64 (tm.Index tx))
             (uint64 (tm.Height (tm.BlockHeader block))) data cumulative
             (uint64 gasUsed))
          post (preLogs ++ [rd_Logs data])).2)).
  { unfold backend.GetLogs. rewrite Hblock, Hhashes.
    rewrite logsLoop_app, Hpre. cbn [backend.logsLoop]. rewrite Hrun.
    by destruct (backend.logsLoop b _ post _). }
  split; [exact Hlogs |].
  split; [intros ->; exact Hlogs |].
  split; [exact H0 |].
  split; [intros Hi; rewrite (H1 Hi), Hgas; reflexivity |].
  split; [| split; [exact Herr | split; [exact Hok | exact Hnn]]].
  intros Hi Hown Hpos Hsum.
  pose proof (sum_nonneg gasOf _
                (Forall_take _ (Z.to_nat (tm.Index tx)) _ Hpos)) as Hsum0.
  fold before in Hsum0.
  assert (Hbefore : cumulativeGasBefore gasOf block (tm.Index tx) = before).
  { apply cumulativeGasBefore_sum; [exact Hpos | fold before; lia]. }
  rewrite <- Hbefore, <- Hgas.
  apply (H2 Hi Hown); rewrite Hgas, Hbefore; lia.
Qed.

End WriteBack.

Lemma GetLogs_rebuilt_receipt_witness :
  let b := samples.chainWith [[1; 7; 0]; [1; 8]]
             [([1; 7; 0], 0); ([1; 8], 1)] in
  backend.GetLogs b ∅ zeroHash
  = (Return (Ok (Some [Some []; Some []])),
     <[common.BytesToHash [1; 8] :=
         watcher.mkReceipt 1 42000 (Some []) 21000]>
       (<[common.BytesToHash [1; 7; 0] :=
            watcher.mkReceipt 1 21000 (Some []) 21000]> ∅)).
Proof.
  intros b.
  set (first := common.BytesToHash [1; 7; 0]).
  set (second := common.BytesToHash [1; 8]).
  set (reached :=
         <[first := watcher.mkReceipt 1 21000 (Some []) 21000]>
           (∅ : samples.Store)).
  assert (Hblock : backend.GetBlockByHash b ∅ zeroHash false
                   = Ok (Some (backend.FormattedBlock
                           {[ "transactions"%string :=
                                HashList [first; second] ]})))
    by reflexivity.
  assert (Hpre : backend.logsLoop b ∅ [first] []
                 = (Ok (Some [Some []]), reached)) by reflexivity.
  assert (Hmiss : watcher.MustGetTransactionReceipt
                    (backend.wrappedBackend b) reached second
                  = Err "not found"%string) by reflexivity.
  assert (Htx : tm.Tx (Client (backend.clientCtx b)) second
                  (negb (TrustNode (backend.clientCtx b)))
                = Ok (tm.mkResultTx 5 1 (tm.mkTxResult 0 [1; 42] 21000)
                        [1; 8])) by reflexivity.
  destruct (GetLogs_rebuilt_receipt b ∅ reached zeroHash _ [first] []
              [Some []] second "not found"%string _
              (tm.mkBlock (tm.mkHeader 5 1600000000 [4]) [5]
                 [[1; 7; 0]; [1; 8]])
              (mkMsg 8 21000 []) (fun _ => 21000)
              Hblock eq_refl Hpre Hmiss Htx eq_refl eq_refl eq_refl)
    as (status & data & cumulative & _ & Hlast & _ & _ & Hsum & _ & Hdec & _).
  destruct (Hdec (mkResultData None [42]) eq_refl) as [Hstatus Hlogs].
  assert (Hcum : cumulative = 42000).
  { apply Hsum; [discriminate | vm_compute; congruence | |
                 vm_compute; reflexivity].
    repeat constructor; lia. }
  rewrite (Hlast eq_refl), Hlogs. cbn [app]. f_equal.
  cbn [watcher.CommitTransactionReceiptToRpcDb backend.watcherBackend b
       samples.chainWith samples.writer].
  rewrite Hlogs, Hstatus, Hcum. reflexivity.
Defined.

(** ** The bloom handlers *)

Lemma uint64_mod (z : Z) : uint64 z mod 2 ^ 64 = z mod 2 ^ 64.
Proof. unfold uint64. apply Z.mod_mod. lia. Qed.

Lemma int64_mod (z : Z) : int64 z mod 2 ^ 64 = z mod 2 ^ 64.
Proof.
  unfold int64. rewrite Zminus_mod_idemp_l. f_equal. lia.
Qed.

Lemma int64_range (z : Z) : is_int64 (int64 z).
Proof.
  unfold int64, is_int64.
  pose proof (Z.mod_pos_bound (z + 2 ^ 63) (2 ^ 64) ltac:(lia)). lia.
Qed.

(** Two signed 64-bit values that agree modulo [2^64] are equal. *)
Lemma is_int64_inj (x y : Z) :
  is_int64 x -> is_int64 y -> x mod 2 ^ 64 = y mod 2 ^ 64 -> x = y.
Proof.
  unfold is_int64. intros Hx Hy Hm.
  rewrite <- (int64_id x), <- (int64_id y) by done.
  unfold int64.
  rewrite <- (Zplus_mod_idemp_l x), <- (Zplus_mod_idemp_l y), Hm. done.
Qed.

Section Bloom.
Context {Db : Type} (b : backend.EthermintBackend Db).
Context (sectionSize : Z) (kv : KeyValueReader) (db : Db).
Let g := backend.globals b.
Let ctx := backend.clientCtx b.

(** The height asked for a section is the last block of the section moved
    by the start height, in 64-bit arithmetic. *)
Lemma sectionHeight_mod (section : Z) :
  backend.sectionHeight b sectionSize section mod 2 ^ 64
  = ((section + 1) * sectionSize - 1 + GetStartBlockHeight g) mod 2 ^ 64.
Proof.
  unfold backend.sectionHeight. fold g.
  rewrite int64_mod, <- Zplus_mod_idemp_l, int64_mod, uint64_mod.
  rewrite <- Zminus_mod_idemp_l, uint64_mod, <- Zmult_mod_idemp_l, uint64_mod.
  rewrite Zmult_mod_idemp_l, Zminus_mod_idemp_l, Zplus_mod_idemp_l. done.
Qed.

Lemma sectionHeight_exact (section : Z) :
  is_int64 ((section + 1) * sectionSize - 1 + GetStartBlockHeight g) ->
  backend.sectionHeight b sectionSize section
  = (section + 1) * sectionSize - 1 + GetStartBlockHeight g.
Proof.
  intros H. apply is_int64_inj; [apply int64_range | done |].
  apply sectionHeight_mod.
Qed.

Lemma serveSection_eq (task : backend.Retrieval) (i : nat) (section : Z) :
  backend.serveSection b sectionSize kv db task i section
  = backend.mkRetrieval (backend.Bit task) (backend.Sections task)
      (match sectionBlob b sectionSize kv db (backend.Bit task) section with
       | Ok blob => <[i:=blob]> (backend.Bitsets task)
       | Err _ => backend.Bitsets task
       end)
      (keepLast (backend.Error task)
         (sectionError b sectionSize kv db (backend.Bit task) section)).
Proof.
  unfold backend.serveSection, sectionError, sectionBlob, sectionVector,
    sectionHash. fold g ctx.
  destruct (backend.GetBlockHashByHeight b db _) as [hash | e]; simpl;
    destruct (IsClientRestServer g);
    repeat match goal with
           | |- context [match ?r with Ok _ => _ | Err _ => _ end] =>
               destruct r; simpl
           end; reflexivity.
Qed.

Lemma serveSections_Bit (sections : list Z) :
  forall (task : backend.Retrieval) (i : nat),
    backend.Bit (backend.serveSections b sectionSize kv db task i sections)
    = backend.Bit task.
Proof.
  induction sections as [| s sections IH]; intros task i; simpl; [done |].
  rewrite IH, serveSection_eq. done.
Qed.

Lemma serveSections_length (sections : list Z) :
  forall (task : backend.Retrieval) (i : nat),
    length (backend.Bitsets
              (backend.serveSections b sectionSize kv db task i sections))
    = length (backend.Bitsets task).
Proof.
  induction sections as [| s sections IH]; intros task i; simpl; [done |].
  rewrite IH, serveSection_eq. simpl.
  destruct (sectionBlob _ _); [apply length_insert | done].
Qed.

(** The slots below the index of the turn are left alone. *)
Lemma serveSections_below (sections : list Z) :
  forall (task : backend.Retrieval) (i k : nat),
    (k < i)%nat ->
    backend.Bitsets
      (backend.serveSections b sectionSize kv db task i sections) !! k
    = backend.Bitsets task !! k.
Proof.
  induction sections as [| s sections IH]; intros task i k Hk; simpl;
    [done |].
  rewrite IH by lia. rewrite serveSection_eq. simpl.
  destruct (sectionBlob _ _); [| done].
  apply list_lookup_insert_ne. lia.
Qed.

(** The slot of a section holds its bit vector when it has one, and is
    left as it was when it has none. *)
Lemma serveSections_slot (sections : list Z) :
  forall (task : backend.Retrieval) (i j : nat) (section : Z),
    sections !! j = Some section ->
    (i + j < length (backend.Bitsets task))%nat ->
    backend.Bitsets
      (backend.serveSections b sectionSize kv db task i sections) !! (i + j)%nat
    = match sectionBlob b sectionSize kv db (backend.Bit task) section with
      | Ok blob => Some blob
      | Err _ => backend.Bitsets task !! (i + j)%nat
      end.
Proof.
  induction sections as [| s sections IH]; intros task i j section Hj Hlen;
    [done |].
  destruct j as [| j]; simpl in Hj |- *.
  - inversion Hj; subst s. rewrite Nat.add_0_r in *.
    rewrite serveSections_below by lia. rewrite serveSection_eq. simpl.
    destruct (sectionBlob _ _); [| done].
    by apply list_lookup_insert_eq.
  - replace (i + S j)%nat with (S i + j)%nat in * by lia.
    rewrite (IH _ (S i) j section Hj).
    + rewrite serveSection_eq. simpl.
      destruct (sectionBlob b sectionSize kv db (backend.Bit task) section); [done |].
      destruct (sectionBlob b sectionSize kv db (backend.Bit task) s); [| done].
      apply list_lookup_insert_ne. lia.
    + rewrite serveSection_eq. simpl.
      destruct (sectionBlob b sectionSize kv db (backend.Bit task) s);
        [by rewrite length_insert | done].
Qed.

(** The error slot holds the error of the last section that left one. *)
Lemma serveSections_Error (sections : list Z) :
  forall (task : backend.Retrieval) (i : nat),
    backend.Error (backend.serveSections b sectionSize kv db task i sections)
    = foldl keepLast (backend.Error task)
        (sectionError b sectionSize kv db (backend.Bit task) <$> sections).
Proof.
  induction sections as [| s sections IH]; intros task i; simpl; [done |].
  rewrite IH, serveSection_eq. done.
Qed.

Lemma keepLast_kept (errs : list (option error)) (acc : option error) :
  is_Some acc -> is_Some (foldl keepLast acc errs).
Proof.
  revert acc. induction errs as [| e errs IH]; intros acc Hacc; [done |].
  simpl. apply IH. destruct e; [by eexists | done].
Qed.

Lemma keepLast_none (errs : list (option error)) (acc : option error) :
  Forall (fun e => e = None) errs -> foldl keepLast acc errs = acc.
Proof.
  revert acc. induction errs as [| e errs IH]; intros acc H; [done |].
  inversion H; subst. simpl. by apply IH.
Qed.

Lemma keepLast_recorded (errs : list (option error)) (acc : option error)
    (e : error) :
  Some e ∈ errs -> is_Some (foldl keepLast acc errs).
Proof.
  revert acc. induction errs as [| e' errs IH]; intros acc Hin.
  - by apply elem_of_nil in Hin.
  - apply elem_of_cons in Hin as [<- | Hin]; simpl.
    + apply keepLast_kept. by eexists.
    + by apply IH.
Qed.

Lemma keepLast_only (errs : list (option error)) (acc : option error)
    (i : nat) (e : error) :
  errs !! i = Some (Some e) ->
  (forall j, j <> i -> errs !! j = Some None \/ errs !! j = None) ->
  foldl keepLast acc errs = Some e.
Proof.
  revert acc i. induction errs as [| e' errs IH]; intros acc i Hi Hothers;
    [done |].
  destruct i as [| i]; simpl in *.
  - inversion Hi; subst e'. simpl. apply keepLast_none.
    apply Forall_forall. intros x Hx.
    apply list_elem_of_lookup in Hx as [j Hj].
    destruct (Hothers (S j) ltac:(lia)) as [H | H]; simpl in H; congruence.
  - apply (IH _ i Hi). intros j Hj.
    apply (Hothers (S j)). lia.
Qed.

End Bloom.

(** *** The decompression of [bitutil] *)

Lemma distribute_length (data bitset : bytes) (bits : list nat) :
  forall (decomp : bytes) (ptr : nat) (out : bytes) (size : nat),
    bitutil.distribute data bitset bits decomp ptr = Ok (out, size) ->
    length out = length decomp.
Proof.
  induction bits as [| i bits IH]; intros decomp ptr out size; simpl.
  - intros H. by inversion H.
  - destruct (negb _).
    + destruct (length data <=? ptr)%nat; [discriminate |].
      destruct (length decomp <=? i)%nat; [discriminate |].
      destruct (nth ptr data 0 =? 0); [discriminate |].
      intros H. apply IH in H. rewrite H. apply length_insert.
    + apply IH.
Qed.

Lemma bitsetDecodePartialBytes_length (data : bytes) (target : nat)
    (out : bytes) (size : nat) :
  bitutil.bitsetDecodePartialBytes data target = Ok (out, size) ->
  length out = target.
Proof.
  funelim (bitutil.bitsetDecodePartialBytes data target).
  all: try (intros Hr; inversion Hr; subst; simpl;
            try rewrite length_replicate; done).
  all: intros Hr.
  all: try (inversion Hr; subst; by rewrite length_insert, length_replicate).
  apply distribute_length in Hr. rewrite Hr. apply length_replicate.
Qed.

(** A vector that [DecompressBytes] returns has the size of the target. *)
Lemma DecompressBytes_length (data : bytes) (target : Z) (blob : bytes) :
  bitutil.DecompressBytes data target = Ok blob ->
  Z.of_nat (length blob) = target.
Proof.
  unfold bitutil.DecompressBytes, bitutil.bitsetDecodeBytes.
  destruct (target <? Z.of_nat (length data)) eqn:E1; [discriminate |].
  destruct (Z.of_nat (length data) =? target) eqn:E2.
  - intros H. inversion H; subst. by apply Z.eqb_eq.
  - destruct (bitutil.bitsetDecodePartialBytes data (Z.to_nat target))
      as [[out size] | e] eqn:E3; [| discriminate].
    destruct (size =? length data)%nat; [| discriminate].
    intros H. inversion H; subst.
    apply bitsetDecodePartialBytes_length in E3. rewrite E3.
    apply Z.ltb_ge in E1. lia.
Qed.

Section BloomTasks.
Context {Db : Type} (b : backend.EthermintBackend Db).
Context (sectionSize : Z) (kv : KeyValueReader) (db : Db).

Lemma serveTask_slot (task : backend.Retrieval) (i : nat) (section : Z) :
  backend.Sections task !! i = Some section ->
  backend.Bitsets (backend.serveTask b sectionSize kv db task) !! i
  = Some (match sectionBlob b sectionSize kv db (backend.Bit task) section
          with
          | Ok blob => blob
          | Err _ => []
          end).
Proof.
  intros Hi. unfold backend.serveTask. cbv zeta. simpl.
  pose proof (lookup_lt_Some _ _ _ Hi) as Hlt.
  pose proof (serveSections_slot b sectionSize kv db (backend.Sections task)
                (backend.mkRetrieval (backend.Bit task)
                   (backend.Sections task)
                   (replicate (length (backend.Sections task)) [])
                   (backend.Error task)) 0 i section Hi) as Hslot.
  simpl in Hslot. rewrite Hslot by (rewrite length_replicate; lia).
  destruct (sectionBlob _ _ _ _ _ _); [done |].
  by apply lookup_replicate_2.
Qed.

Lemma serveTask_Error (task : backend.Retrieval) :
  backend.Error (backend.serveTask b sectionSize kv db task)
  = foldl keepLast (backend.Error task)
      (sectionError b sectionSize kv db (backend.Bit task)
       <$> backend.Sections task).
Proof. unfold backend.serveTask. by rewrite serveSections_Error. Qed.

(** C7: a section that fails, on its hash, its read or its decompression,
    leaves its error in the error slot of the task and stops neither the
    other sections nor the handler.  Whatever the other sections do, the
    slot of a section whose vector is read and decompressed holds that
    vector, the slot of a section without one stays [nil], and the error
    slot holds an error as soon as one section failed: the error of that
    section when it is the only one. *)
Theorem bloom_task_partial_failure (task : backend.Retrieval) (i : nat)
    (section : Z) :
  let served := backend.serveTask b sectionSize kv db task in
  let blobOf := sectionBlob b sectionSize kv db (backend.Bit task) in
  let errorOf := sectionError b sectionSize kv db (backend.Bit task) in
  backend.Sections task !! i = Some section ->
  length (backend.Bitsets served) = length (backend.Sections task)
  /\ (forall blob,
        blobOf section = Ok blob -> backend.Bitsets served !! i = Some blob)
  /\ (forall e,
        blobOf section = Err e ->
        backend.Bitsets served !! i = Some ([] : bytes))
  /\ (forall e, errorOf section = Some e -> is_Some (backend.Error served))
  /\ (forall e,
        errorOf section = Some e ->
        (forall j s, j <> i -> backend.Sections task !! j = Some s ->
                     errorOf s = None) ->
        backend.Error served = Some e)
  /\ (forall events,
        backend.bloomHandler b sectionSize kv db
          (backend.Request task :: events)
        = served :: backend.bloomHandler b sectionSize kv db events).
Proof.
  intros served blobOf errorOf Hi. subst served blobOf errorOf.
  split; [| split; [| split; [| split; [| split]]]].
  - unfold backend.serveTask. rewrite serveSections_length. simpl.
    apply length_replicate.
  - intros blob Hb. by rewrite (serveTask_slot task i section Hi), Hb.
  - intros e Hb. by rewrite (serveTask_slot task i section Hi), Hb.
  - intros e He. rewrite serveTask_Error.
    apply (keepLast_recorded _ _ e).
    apply list_elem_of_fmap. exists section. split; [done |].
    by apply list_elem_of_lookup_2 with i.
  - intros e He Hothers. rewrite serveTask_Error.
    apply (keepLast_only _ _ i).
    + by rewrite list_lookup_fmap, Hi; simpl; rewrite He.
    + intros j Hj. rewrite list_lookup_fmap.
      destruct (backend.Sections task !! j) as [s |] eqn:Hs; simpl;
        [left | by right].
      by rewrite (Hothers j s Hj Hs).
  - done.
Qed.

(** C8: for the section at an index of the task, the handler asks the
    hash of the block at [(section+1)*sectionSize - 1] plus the start
    height, computed in 64-bit arithmetic and exact when it fits a signed
    64-bit integer; it goes on with that hash, or with the zero hash when
    there is none; the vector is asked under the key of (bit, section,
    hash), or read from the store for (bit, section, hash); and the
    vector that [bitutil.DecompressBytes] makes of it, which the slot then
    holds, is [sectionSize/8] bytes long. *)
Theorem bloom_section_request (task : backend.Retrieval) (i : nat)
    (section : Z) :
  let g := backend.globals b in
  let bit := backend.Bit task in
  let height := backend.sectionHeight b sectionSize section in
  let last := (section + 1) * sectionSize - 1 + GetStartBlockHeight g in
  let hash :=
    match backend.GetBlockHashByHeight b db height with
    | Ok hash => hash
    | Err _ => zeroHash
    end in
  let vector :=
    if IsClientRestServer g
    then Query (backend.clientCtx b)
           (QueryBloomBits (BloomBitsKey g bit section hash))
    else ReadBloomBits g kv bit section hash in
  backend.Sections task !! i = Some section ->
  height mod 2 ^ 64 = last mod 2 ^ 64
  /\ is_int64 height
  /\ (is_int64 last -> height = last)
  /\ (forall compVector blob,
        vector = Ok compVector ->
        bitutil.DecompressBytes compVector (sectionSize / 8) = Ok blob ->
        backend.Bitsets (backend.serveTask b sectionSize kv db task) !! i
        = Some blob
        /\ Z.of_nat (length blob) = sectionSize / 8).
Proof.
  intros g bit height last hash vector Hi.
  split; [apply sectionHeight_mod |].
  split; [apply int64_range |].
  split; [apply sectionHeight_exact |].
  intros compVector blob Hv Hd.
  split; [| by apply (DecompressBytes_length compVector)].
  rewrite (serveTask_slot task i section Hi).
  unfold sectionBlob, sectionVector, sectionHash.
  fold g bit height hash. fold vector. by rewrite Hv, Hd.
Qed.

End BloomTasks.

Lemma bloom_task_partial_failure_witness :
  let served :=
    backend.serveTask samples.bloomNode 64 samples.bloomKv ∅
      samples.bloomTask in
  backend.Bitsets served !! 1%nat = Some [170; 85; 0; 0; 0; 0; 0; 0]
  /\ backend.Bitsets served !! 0%nat = Some ([] : bytes)
  /\ backend.Error served = Some "not found"%string.
Proof.
  intros served.
  pose proof (bloom_task_partial_failure samples.bloomNode 64
                samples.bloomKv ∅ samples.bloomTask 1 0 eq_refl)
    as (_ & Hgood & _).
  pose proof (bloom_task_partial_failure samples.bloomNode 64
                samples.bloomKv ∅ samples.bloomTask 0 1 eq_refl)
    as (_ & _ & Hnil & _ & Honly & _).
  split; [apply Hgood; vm_compute; reflexivity |].
  split; [exact (Hnil "not found"%string eq_refl) |].
  apply Honly; [reflexivity |].
  intros j s Hj Hs. destruct j as [| [| j]]; [done | | done].
  inversion Hs; subst s. vm_compute. reflexivity.
Defined.

Lemma bloom_section_request_witness :
  backend.sectionHeight samples.bloomNode 64 0 = 63
  /\ backend.Bitsets
       (backend.serveTask samples.bloomNode 64 samples.bloomKv ∅
          samples.bloomTask) !! 1%nat = Some [170; 85; 0; 0; 0; 0; 0; 0]
  /\ Z.of_nat (length [170; 85; 0; 0; 0; 0; 0; 0]) = 64 / 8.
Proof.
  pose proof (bloom_section_request samples.bloomNode 64 samples.bloomKv ∅
                samples.bloomTask 1 0 eq_refl)
    as (_ & _ & Hheight & Hslot).
  split; [apply Hheight; unfold is_int64; simpl; lia |].
  apply (Hslot [192; 170; 85]); vm_compute; reflexivity.
Defined.

(** ** The bloom status *)

Section BloomStatus.
Context {Db : Type} (b : backend.EthermintBackend Db).
Let g := backend.globals b.
Let ctx := backend.clientCtx b.

(** The section size is the constant, in either topology and whatever the
    sources answer. *)
Lemma BloomStatus_size (logger : list string) :
  (backend.BloomStatus b logger).1.1 = BloomBitsBlocks g.
Proof.
  unfold backend.BloomStatus. fold g ctx.
  destruct (IsClientRestServer g); [| done].
  destruct (Query ctx QuerySection); simpl;
    by destruct (UnmarshalUint64 g _).
Qed.

(** C9: [BloomStatus] returns a pair of numbers and no error.  In front
    of a remote chain, when the section query fails, or when its payload
    does not decode, the pair is the section size constant with the count
    0, and the failure is only logged.  (A failed query leaves no
    payload, which [json.Unmarshal] rejects.) *)
Theorem BloomStatus_remote_failure (logger : list string) :
  IsClientRestServer (backend.globals b) = true ->
  (forall e e',
     Query (backend.clientCtx b) QuerySection = Err e ->
     UnmarshalUint64 (backend.globals b) [] = Err e' ->
     backend.BloomStatus b logger
     = ((BloomBitsBlocks (backend.globals b), 0),
        logger ++ ["query section failed from node"%string;
                   "unmarshal sections failed"%string]))
  /\ (forall res e,
        Query (backend.clientCtx b) QuerySection = Ok res ->
        UnmarshalUint64 (backend.globals b) res = Err e ->
        backend.BloomStatus b logger
        = ((BloomBitsBlocks (backend.globals b), 0),
           logger ++ ["unmarshal sections failed"%string]))
  /\ (forall res sections,
        Query (backend.clientCtx b) QuerySection = Ok res ->
        UnmarshalUint64 (backend.globals b) res = Ok sections ->
        backend.BloomStatus b logger
        = ((BloomBitsBlocks (backend.globals b), sections), logger)).
Proof.
  intros Hrest. unfold backend.BloomStatus. rewrite Hrest.
  split; [| split].
  - intros e e' -> ->. by rewrite <- app_assoc.
  - intros res e -> ->. done.
  - intros res sections -> ->. done.
Qed.

End BloomStatus.

Lemma BloomStatus_remote_failure_witness :
  backend.BloomStatus (samples.restNode samples.unavailable) []
  = ((4096, 0), ["query section failed from node"%string;
                 "unmarshal sections failed"%string])
  /\ backend.BloomStatus (samples.restNode (Ok [1; 2])) []
     = ((4096, 0), ["unmarshal sections failed"%string]).
Proof.
  split.
  - exact (proj1 (BloomStatus_remote_failure
                    (samples.restNode samples.unavailable) [] eq_refl)
             "unavailable"%string "bad json"%string eq_refl eq_refl).
  - exact (proj1 (proj2 (BloomStatus_remote_failure
                           (samples.restNode (Ok [1; 2])) [] eq_refl))
             [1; 2] "bad json"%string eq_refl eq_refl).
Defined.

(** ** The storage export and its reader *)

(** *** Hexadecimal text *)

Lemma byteOk_all (v : Z) : is_byte v -> byteOk v = true.
Proof.
  intros Hv.
  assert (Hall : forallb byteOk (seqZ 0 256) = true) by (vm_compute; done).
  rewrite forallb_forall in Hall. apply Hall.
  apply list_elem_of_In, elem_of_seqZ. unfold is_byte in Hv. lia.
Qed.

Lemma eqb_false_neq (c d : ascii) : (c =? d)%char = false <-> c <> d.
Proof. apply Ascii.eqb_neq. Qed.

Lemma EncodeToString_plain (src : bytes) :
  Forall is_byte src -> plain (hex.EncodeToString src).
Proof.
  induction 1 as [| v src Hv Hsrc IH]; simpl; [constructor |].
  pose proof (byteOk_all v Hv) as Hok. unfold byteOk in Hok.
  repeat (apply andb_prop in Hok as [Hok ?]).
  repeat match goal with
         | H : negb _ = true |- _ =>
             apply negb_true_iff, eqb_false_neq in H
         end.
  constructor; [done |]. constructor; [done |]. exact IH.
Qed.

Lemma EncodeToString_length (src : bytes) :
  length (hex.EncodeToString src) = (2 * length src)%nat.
Proof. induction src as [| v src IH]; simpl; lia. Qed.

Lemma DecodeString_EncodeToString (src : bytes) :
  Forall is_byte src ->
  hex.DecodeString (hex.EncodeToString src) = (src, None).
Proof.
  induction 1 as [| v src Hv Hsrc IH]; [done |].
  pose proof (byteOk_all v Hv) as Hok. unfold byteOk in Hok.
  repeat (apply andb_prop in Hok as [Hok ?]).
  cbn [hex.EncodeToString hex.DecodeString].
  repeat match goal with
         | H : (_ <=? 15) = true |- _ => apply Z.leb_le in H
         end.
  match goal with
  | H : (uint8 _ =? v) = true |- _ => apply Z.eqb_eq in H; rename H into Hv'
  end.
  destruct (15 <? hex.fromHexChar _) eqn:E1;
    [apply Z.ltb_lt in E1; lia |].
  destruct (15 <? hex.fromHexChar
                    (nth (Z.to_nat (Z.land v 15)) hex.hextable "000"%char))
    eqn:E2; [apply Z.ltb_lt in E2; lia |].
  rewrite IH. cbn beta iota. by rewrite Hv'.
Qed.

Lemma BytesToHash_hash (h : Hash) : is_hash h -> common.BytesToHash h = h.
Proof.
  intros [Hlen _]. unfold common.BytesToHash. rewrite Hlen.
  rewrite Nat.ltb_irrefl, Hlen, Nat.sub_diag. done.
Qed.

Lemma Hex_plain (h : Hash) : is_hash h -> plain (common.Hex h).
Proof.
  intros [_ Hb]. unfold common.Hex, hexutil.Encode. apply Forall_app. split.
  - repeat constructor; discriminate.
  - by apply EncodeToString_plain.
Qed.

(** A hash is read back from its hexadecimal text. *)
Lemma HexToHash_Hex (h : Hash) : is_hash h -> common.HexToHash (common.Hex h) = h.
Proof.
  intros Hh. pose proof Hh as [Hlen Hb].
  unfold common.HexToHash, common.FromHex, common.Hex, hexutil.Encode.
  cbn [list_ascii_of_string app common.has0xPrefix].
  replace (("0" =? "0")%char && (("x" =? "x")%char || ("x" =? "X")%char))
    with true by done.
  cbn [drop]. rewrite !drop_0.
  rewrite EncodeToString_length, Nat.odd_mul.
  change (Nat.odd 2) with false. cbn [andb].
  unfold common.Hex2Bytes. rewrite DecodeString_EncodeToString by done.
  by apply BytesToHash_hash.
Qed.

(** *** Lines *)

Lemma ReadString_line (body rest : list ascii) :
  Forall (fun c => c <> newline) body ->
  bufio.ReadString (body ++ newline :: rest) newline
  = ((body ++ [newline], None), rest).
Proof.
  induction 1 as [| c body Hc Hbody IH]; simpl.
  - reflexivity.
  - apply eqb_false_neq in Hc. rewrite Hc, IH. done.
Qed.

(** A line that is read leaves less to read. *)
Lemma ReadString_shorter (rd line rest : list ascii) (delim : ascii) :
  bufio.ReadString rd delim = ((line, None), rest) ->
  (length rest < length rd)%nat.
Proof.
  revert line rest. induction rd as [| c rd IH]; intros line rest; simpl;
    [discriminate |].
  destruct (c =? delim)%char.
  - intros H. inversion H; subst. lia.
  - destruct (bufio.ReadString rd delim) as [[line' err] rest'] eqn:E.
    intros H. inversion H; subst.
    specialize (IH line' rest eq_refl). lia.
Qed.

Lemma ReplaceAll_line (body : list ascii) :
  Forall (fun c => c <> newline) body ->
  strings.ReplaceAll (body ++ [newline]) newline [] = body.
Proof.
  induction 1 as [| c body Hc Hbody IH]; simpl.
  - reflexivity.
  - apply eqb_false_neq in Hc. rewrite Hc, IH. done.
Qed.

Lemma Split_field (field : list ascii) :
  Forall (fun c => c <> colon) field ->
  strings.Split field colon = [field].
Proof.
  induction 1 as [| c field Hc Hfield IH]; simpl; [done |].
  apply eqb_false_neq in Hc. rewrite Hc, IH. done.
Qed.

Lemma Split_fields (field rest : list ascii) :
  Forall (fun c => c <> colon) field ->
  strings.Split (field ++ colon :: rest) colon
  = field :: strings.Split rest colon.
Proof.
  induction 1 as [| c field Hc Hfield IH]; simpl.
  - reflexivity.
  - apply eqb_false_neq in Hc. rewrite Hc, IH. done.
Qed.

(** *** Writing and reading a storage *)

Lemma plain_no_newline (s : list ascii) :
  plain s -> Forall (fun c => c <> newline) s.
Proof.
  intros H. eapply Forall_impl; [exact H |]. by intros c [? ?].
Qed.

Lemma plain_no_colon (s : list ascii) :
  plain s -> Forall (fun c => c <> colon) s.
Proof.
  intros H. eapply Forall_impl; [exact H |]. by intros c [? ?].
Qed.

(** What the writer holds after the iteration, and the count of the
    lines. *)
Lemma ForEachStorage_lines (storage : evm.Storage) :
  forall (writer : list ascii) (index : Z),
    0 <= index ->
    index + Z.of_nat (length storage) < 2 ^ 63 ->
    evm.ForEachStorage storage
      (fun key value '(writer, index) =>
         ((evm.writeOneLine writer
             (common.Hex key ++ [colon] ++ common.Hex value ++ [newline]),
           int64 (index + 1)),
          false))
      (writer, index)
    = (writer ++ concat (stateLine <$> storage),
       index + Z.of_nat (length storage)).
Proof.
  induction storage as [| st storage IH]; intros writer index Hpos Hlt.
  - simpl. rewrite app_nil_r. f_equal. lia.
  - cbn [evm.ForEachStorage]. cbn beta iota.
    rewrite length_cons, Nat2Z.inj_succ in *.
    rewrite int64_id by (unfold is_int64; lia).
    rewrite IH by lia.
    unfold evm.writeOneLine. rewrite fmap_cons. simpl concat.
    f_equal; [| lia]. rewrite <- app_assoc. f_equal.
Qed.

(** Reading one exported line gives back its state. *)
Lemma readLoop_line (st : evm.State) (rest : list ascii) (fuel : nat)
    (states : evm.Storage) :
  validState st ->
  evm.readLoop (S fuel) (stateLine st ++ rest) states
  = evm.readLoop fuel rest (states ++ [st]).
Proof.
  intros [Hk Hv]. destruct st as [k v]. simpl in Hk, Hv.
  pose proof (Hex_plain k Hk) as Pk. pose proof (Hex_plain v Hv) as Pv.
  unfold stateLine. cbn [evm.Key evm.Value evm.readLoop].
  replace ((common.Hex k ++ [colon] ++ common.Hex v ++ [newline]) ++ rest)
    with ((common.Hex k ++ colon :: common.Hex v) ++ newline :: rest)
    by (rewrite <- ?app_assoc; cbn [app]; by rewrite <- ?app_assoc).
  rewrite ReadString_line.
  2: { apply Forall_app. split; [by apply plain_no_newline |].
       constructor; [discriminate | by apply plain_no_newline]. }
  rewrite ReplaceAll_line.
  2: { apply Forall_app. split; [by apply plain_no_newline |].
       constructor; [discriminate | by apply plain_no_newline]. }
  rewrite Split_fields by (by apply plain_no_colon).
  rewrite Split_field by (by apply plain_no_colon).
  by rewrite !HexToHash_Hex.
Qed.

Lemma readLoop_lines (storage : evm.Storage) :
  forall (fuel : nat) (states : evm.Storage),
    (length storage < fuel)%nat ->
    Forall validState storage ->
    evm.readLoop fuel (concat (stateLine <$> storage)) states
    = Some (Return (states ++ storage)).
Proof.
  induction storage as [| st storage IH]; intros fuel states Hfuel Hvalid.
  - destruct fuel as [| fuel]; [simpl in Hfuel; lia |].
    simpl. by rewrite app_nil_r.
  - destruct fuel as [| fuel]; [simpl in Hfuel; lia |].
    inversion Hvalid as [| ? ? Hst Hrest]; subst.
    rewrite fmap_cons. cbn [concat]. rewrite readLoop_line by done.
    rewrite IH; [| simpl in Hfuel; lia | done].
    by rewrite <- app_assoc.
Qed.

Lemma lines_length (storage : evm.Storage) :
  (length storage <= length (concat (stateLine <$> storage)))%nat.
Proof.
  induction storage as [| st storage IH]; [done |].
  rewrite fmap_cons. cbn [concat]. rewrite length_app.
  assert (1 <= length (stateLine st))%nat.
  { unfold stateLine. rewrite !length_app. cbn [length]. lia. }
  cbn [length]. lia.
Qed.

(** The loop of the reader never uses up its fuel. *)
Lemma readLoop_total (fuel : nat) :
  forall (rd : list ascii) (states : evm.Storage),
    (length rd < fuel)%nat -> is_Some (evm.readLoop fuel rd states).
Proof.
  induction fuel as [| fuel IH]; intros rd states Hfuel; [lia |].
  simpl.
  destruct (bufio.ReadString rd newline) as [[kvStr [e |]] rd'] eqn:E;
    [by eexists |].
  apply ReadString_shorter in E.
  destruct (strings.Split _ _) as [| kv0 [| kv1 kvPair]];
    [by eexists | by eexists |].
  apply IH. lia.
Qed.

(** [readStorageFromFile] returns, on any files. *)
Lemma readStorageFromFile_total (files : evm.Files) (path : string) :
  is_Some (evm.readStorageFromFile files path).
Proof.
  unfold evm.readStorageFromFile.
  destruct (files !! path) as [content |]; [| by eexists].
  apply readLoop_total. lia.
Qed.

(** C10: what [syncWriteAccountStorageSlice] writes for a storage,
    [readStorageFromFile] reads back as the same states in the same
    order; the storage holds hashes of 32 bytes and fewer than [2^63]
    states, as a Go slice does. *)
Theorem storage_round_trip (storage : evm.Storage) (filename : string)
    (files : evm.Files) :
  Forall validState storage ->
  Z.of_nat (length storage) < 2 ^ 63 ->
  evm.readStorageFromFile
    (evm.syncWriteAccountStorageSlice storage filename files) filename
  = Some (Return storage).
Proof.
  intros Hvalid Hlen. unfold evm.syncWriteAccountStorageSlice.
  rewrite ForEachStorage_lines by lia. cbn beta iota.
  unfold evm.readStorageFromFile, evm.closeFile, evm.createFile.
  destruct (0 + Z.of_nat (length storage) =? 0) eqn:E.
  - apply Z.eqb_eq in E.
    assert (storage = []) as ->.
    { destruct storage; [done |].
      rewrite length_cons, Nat2Z.inj_succ in E. lia. }
    by rewrite lookup_delete_eq.
  - rewrite lookup_insert_eq. cbn [app].
    apply (readLoop_lines storage _ []); [| done].
    pose proof (lines_length storage). lia.
Qed.

Lemma samples_hashOf (v : Z) : is_byte v -> is_hash (samples.hashOf v).
Proof.
  intros Hv. split; [reflexivity |].
  unfold samples.hashOf. apply Forall_app. split.
  - apply Forall_replicate. unfold is_byte. lia.
  - by constructor.
Qed.

Lemma storage_round_trip_witness :
  evm.readStorageFromFile
    (evm.syncWriteAccountStorageSlice samples.storage "0xabc.storage" ∅)
    "0xabc.storage"
  = Some (Return samples.storage).
Proof.
  apply storage_round_trip.
  - unfold samples.storage.
    constructor; [split; apply samples_hashOf; unfold is_byte; lia |].
    constructor; [split; apply samples_hashOf; unfold is_byte; lia |].
    constructor.
  - simpl. lia.
Defined.

(** * Further properties *)

(** ** Errors of the height and hash accessors *)

Lemma BytesToHash_length (b : bytes) :
  length (common.BytesToHash b) = HashLength.
Proof.
  unfold common.BytesToHash.
  destruct (HashLength <? length b)%nat eqn:E.
  - apply Nat.ltb_lt in E. rewrite length_app, length_replicate, length_drop.
    lia.
  - apply Nat.ltb_ge in E. rewrite length_app, length_replicate. lia.
Qed.

Section AccessorErrors.
Context {Db : Type} (b : backend.EthermintBackend Db) (db : Db).

(** [BlockNumber] fails exactly when the cache fails and the chain fails,
    and then with the error of the chain. *)
Theorem BlockNumber_fails_iff (e : error) :
  backend.BlockNumber b db = Err e
  <-> (exists ec,
         watcher.GetLatestBlockNumber (backend.wrappedBackend b) db = Err ec)
      /\ tm.BlockchainInfo (Client (backend.clientCtx b)) 0 0 = Err e.
Proof.
  unfold backend.BlockNumber, backend.LatestBlockNumber. split.
  - destruct (watcher.GetLatestBlockNumber _ _) as [t | ec];
      [discriminate |].
    destruct (tm.BlockchainInfo _ _ _) as [t | e']; [discriminate |].
    intros H. inversion H; subst. split; [by eexists | done].
  - intros [[ec ->] ->]. done.
Qed.

(** [GetBlockHashByHeight] fails exactly when the cache fails and the
    height-to-hash query fails, with the error of the query; a payload
    that the query returns is made a hash of 32 bytes, and is the hash
    itself when it has 32 bytes. *)
Theorem GetBlockHashByHeight_fallback (height : Z) :
  let q := backend.wrappedBackend b in
  let ctx := backend.clientCtx b in
  (forall e,
     backend.GetBlockHashByHeight b db height = Err e
     <-> (exists ec, watcher.GetBlockHashByNumber q db (uint64 height)
                     = Err ec)
         /\ Query ctx (QueryHeightToHash height) = Err e)
  /\ (forall hash,
        watcher.GetBlockHashByNumber q db (uint64 height) = Ok hash ->
        backend.GetBlockHashByHeight b db height = Ok hash)
  /\ (forall ec res,
        watcher.GetBlockHashByNumber q db (uint64 height) = Err ec ->
        Query ctx (QueryHeightToHash height) = Ok res ->
        exists hash,
          backend.GetBlockHashByHeight b db height = Ok hash
          /\ length hash = HashLength
          /\ (length res = HashLength -> hash = res)).
Proof.
  intros q ctx. subst q ctx. unfold backend.GetBlockHashByHeight.
  split; [| split].
  - intros e. split.
    + destruct (watcher.GetBlockHashByNumber _ _ _) as [h | ec];
        [discriminate |].
      destruct (Query _ _) as [res | e']; [discriminate |].
      intros H. inversion H; subst. split; [by eexists | done].
    + intros [[ec ->] ->]. done.
  - intros hash ->. done.
  - intros ec res -> ->. eexists. split; [reflexivity |].
    split; [apply BytesToHash_length |].
    intros Hlen. unfold common.BytesToHash.
    rewrite Hlen, Nat.ltb_irrefl, Hlen, Nat.sub_diag. done.
Qed.

End AccessorErrors.

(** ** Headers: errors, panics and the latest height *)

Section HeaderEdges.
Context {Db : Type} (b : backend.EthermintBackend Db) (db : Db).

(** The steps of [HeaderByHash] that the chain can fail, in their order:
    the hash-to-height query, the decoding of its payload, the block
    fetch, the bloom query. *)
Theorem HeaderByHash_fails_iff (blockHash : Hash) (e : error) :
  let ctx := backend.clientCtx b in
  backend.HeaderByHash b blockHash = Return (Err e)
  <-> Query ctx (QueryHashToHeight blockHash) = Err e
      \/ (exists res,
            Query ctx (QueryHashToHeight blockHash) = Ok res
            /\ (UnmarshalBlockNumber ctx res = Err e
                \/ (exists number,
                      UnmarshalBlockNumber ctx res = Ok number
                      /\ (tm.GetBlock (Client ctx) number = Err e
                          \/ (exists resBlock,
                                tm.GetBlock (Client ctx) number = Ok resBlock
                                /\ Query ctx
                                     (QueryBloom
                                        (tm.Height (tm.BlockHeader resBlock)))
                                   = Err e))))).
Proof.
  intros ctx. subst ctx. unfold backend.HeaderByHash, backend.headerWithBloom.
  destruct (Query _ (QueryHashToHeight blockHash)) as [res | e1].
  2: { split.
       - intros H. inversion H. by left.
       - intros [H | (res & H & _)]; [by inversion H | discriminate]. }
  destruct (UnmarshalBlockNumber _ res) as [number | e2] eqn:E2.
  2: { split.
       - intros H. inversion H; subst. right. exists res. split; [done |].
         by left.
       - intros [H | (res' & H & Hrest)]; [discriminate |].
         inversion H; subst res'.
         destruct Hrest as [Hu | (number & Hu & _)]; congruence. }
  destruct (tm.GetBlock _ number) as [resBlock | e3] eqn:E3.
  2: { split.
       - intros H. inversion H; subst. right. exists res. split; [done |].
         right. exists number. split; [done |]. by left.
       - intros [H | (res' & H & Hrest)]; [discriminate |].
         inversion H; subst res'.
         destruct Hrest as [Hu | (number' & Hu & Hrest)]; [congruence |].
         assert (number' = number) as -> by congruence.
         destruct Hrest as [Hb | (resBlock & Hb & _)]; congruence. }
  destruct (Query _ (QueryBloom _)) as [res' | e4] eqn:E4.
  - split.
    + destruct (UnmarshalBloom _ res'); discriminate.
    + intros [H | (res0 & H & Hrest)]; [discriminate |].
      inversion H; subst res0.
      destruct Hrest as [Hu | (number' & Hu & Hrest)]; [congruence |].
      assert (number' = number) as -> by congruence.
      destruct Hrest as [Hb | (resBlock' & Hb & Hq)]; [congruence |].
      assert (resBlock' = resBlock) as -> by congruence. congruence.
  - split.
    + intros H. inversion H; subst. right. exists res. split; [done |].
      right. exists number. split; [done |]. right. by exists resBlock.
    + intros [H | (res0 & H & Hrest)]; [discriminate |].
      inversion H; subst res0.
      destruct Hrest as [Hu | (number' & Hu & Hrest)]; [congruence |].
      assert (number' = number) as -> by congruence.
      destruct Hrest as [Hb | (resBlock' & Hb & Hq)]; [congruence |].
      assert (resBlock' = resBlock) as -> by congruence. congruence.
Qed.

(** The header of the chain's block panics exactly when the bloom query
    answers and its payload does not decode. *)
Lemma headerWithBloom_panics_iff (resBlock : tm.Block) (msg : string) :
  backend.headerWithBloom b resBlock = Panic msg
  <-> exists res,
        Query (backend.clientCtx b)
          (QueryBloom (tm.Height (tm.BlockHeader resBlock))) = Ok res
        /\ UnmarshalBloom (backend.clientCtx b) res = Err msg.
Proof.
  unfold backend.headerWithBloom.
  destruct (Query _ _) as [res | e] eqn:Eq.
  - destruct (UnmarshalBloom _ res) as [bloom | e] eqn:Eu.
    + split; [discriminate |]. intros (res' & H & Hu). congruence.
    + split.
      * intros H. inversion H; subst. by exists res.
      * intros (res' & H & Hu). congruence.
  - split; [discriminate |]. intros (res' & H & _). discriminate.
Qed.

(** Header resolution panics, and returns no error, when the payload of
    the bloom query does not decode: [HeaderByHash] after the hash is
    resolved and the block fetched, [HeaderByNumber] after a cache miss
    at a positive height and the block fetched.  A header of the cache
    never panics. *)
Theorem header_bloom_payload_panics (blockNum : Z) (blockHash : Hash)
    (res res' : bytes) (resBlock : tm.Block) (msg : string) :
  let ctx := backend.clientCtx b in
  let q := backend.wrappedBackend b in
  tm.GetBlock (Client ctx) blockNum = Ok resBlock ->
  Query ctx (QueryBloom (tm.Height (tm.BlockHeader resBlock))) = Ok res' ->
  UnmarshalBloom ctx res' = Err msg ->
  (Query ctx (QueryHashToHeight blockHash) = Ok res ->
   UnmarshalBlockNumber ctx res = Ok blockNum ->
   backend.HeaderByHash b blockHash = Panic msg)
  /\ (0 < blockNum ->
      (exists ec,
         watcher.GetBlockByNumber q db (uint64 blockNum) false = Err ec) ->
      backend.HeaderByNumber b db blockNum = Panic msg)
  /\ (0 < blockNum ->
      forall ethBlock,
        watcher.GetBlockByNumber q db (uint64 blockNum) false = Ok ethBlock ->
        backend.HeaderByNumber b db blockNum
        = Return (Ok (watcher.EthHeader q ethBlock))).
Proof.
  intros ctx q Hb Hq Hu. subst ctx q.
  assert (Hp : backend.headerWithBloom b resBlock = Panic msg).
  { apply headerWithBloom_panics_iff. by exists res'. }
  split; [| split].
  - intros Hh Hn. by rewrite (HeaderByHash_resolved b blockHash res blockNum),
      Hb.
  - intros Hpos [ec Hc]. unfold backend.HeaderByNumber.
    by rewrite (resolveHeight_positive b db blockNum Hpos), Hc, Hb.
  - intros Hpos ethBlock Hc. unfold backend.HeaderByNumber.
    by rewrite (resolveHeight_positive b db blockNum Hpos), Hc.
Qed.

(** A request that is not positive is a request for the current height:
    [HeaderByNumber] answers it as it answers the height that
    [BlockNumber] returns. *)
Theorem HeaderByNumber_latest (blockNum h : Z) :
  backend.BlockNumber b db = Ok h ->
  0 < h < 2 ^ 63 ->
  blockNum <= 0 ->
  backend.HeaderByNumber b db blockNum = backend.HeaderByNumber b db h.
Proof.
  intros Hh Hrange Hn. unfold backend.HeaderByNumber.
  rewrite (resolveHeight_positive b db h) by lia.
  unfold backend.resolveHeight.
  destruct (blockNum <=? 0) eqn:E; [| apply Z.leb_gt in E; lia].
  rewrite Hh, int64_id by (unfold is_int64; lia). done.
Qed.

(** [GetBlockByNumber] asks the cache for the request as it is, converted
    to [uint64], and only then resolves a request that is not positive to
    the current height: when the cache has neither, the answer is the one
    for the current height. *)
Theorem GetBlockByNumber_latest (blockNum h : Z) (fullTx : bool) :
  let q := backend.wrappedBackend b in
  backend.BlockNumber b db = Ok h ->
  0 < h < 2 ^ 63 ->
  blockNum <= 0 ->
  (exists ec, watcher.GetBlockByNumber q db (uint64 blockNum) fullTx
              = Err ec) ->
  (exists ec, watcher.GetBlockByNumber q db (uint64 h) fullTx = Err ec) ->
  backend.GetBlockByNumber b db blockNum fullTx
  = backend.GetBlockByNumber b db h fullTx.
Proof.
  intros q Hh Hrange Hn [ec1 H1] [ec2 H2]. subst q.
  unfold backend.GetBlockByNumber. rewrite H1, H2.
  rewrite (resolveHeight_positive b db h) by lia.
  unfold backend.resolveHeight.
  destruct (blockNum <=? 0) eqn:E; [| apply Z.leb_gt in E; lia].
  rewrite Hh, int64_id by (unfold is_int64; lia). done.
Qed.

End HeaderEdges.

Lemma header_bloom_payload_panics_witness :
  backend.HeaderByHash samples.noBloomCodec zeroHash
  = Panic "bad bloom"%string
  /\ backend.HeaderByNumber samples.noBloomCodec ∅ 5
     = Panic "bad bloom"%string.
Proof.
  pose proof (header_bloom_payload_panics samples.noBloomCodec ∅ 5 zeroHash
                [5] [2] samples.blockFive "bad bloom"%string
                eq_refl eq_refl eq_refl) as (Hhash & Hnum & _).
  split.
  - exact (Hhash eq_refl eq_refl).
  - apply Hnum; [lia | by eexists].
Defined.

Lemma HeaderByNumber_latest_witness :
  backend.HeaderByNumber samples.tipSix ∅ 0
  = backend.HeaderByNumber samples.tipSix ∅ 5
  /\ returnedBloom (backend.HeaderByNumber samples.tipSix ∅ (-1))
     = Some [2].
Proof.
  split.
  - exact (HeaderByNumber_latest samples.tipSix ∅ 0 5 eq_refl
             ltac:(lia) ltac:(lia)).
  - rewrite (HeaderByNumber_latest samples.tipSix ∅ (-1) 5 eq_refl
               ltac:(lia) ltac:(lia)).
    reflexivity.
Defined.

Lemma GetBlockByNumber_latest_witness :
  backend.GetBlockByNumber samples.tipSix ∅ 0 false
  = backend.GetBlockByNumber samples.tipSix ∅ 5 false.
Proof.
  apply (GetBlockByNumber_latest samples.tipSix ∅ 0 5 false eq_refl);
    [lia | lia | by eexists | by eexists].
Defined.

(** ** More on [GetLogs] and [GetTransactionLogs] *)

Section LogsEdges.
Context {Db : Type} (b : backend.EthermintBackend Db).

Lemma logsLoop_cached (txHashes : list Hash)
    (receipts : list watcher.TransactionReceipt) (db : Db) :
  Forall2 (fun txHash receipt =>
             watcher.MustGetTransactionReceipt (backend.wrappedBackend b)
               db txHash = Ok receipt) txHashes receipts ->
  forall blockLogs,
    backend.logsLoop b db txHashes blockLogs
    = (Ok (Some (blockLogs ++ (watcher.Logs <$> receipts))), db).
Proof.
  induction 1 as [| txHash receipt txHashes receipts Hr Hrest IH];
    intros blockLogs; simpl.
  - by rewrite app_nil_r.
  - unfold backend.logsOfTx. rewrite Hr, IH, <- app_assoc. done.
Qed.

(** When the cache holds the receipt of every transaction of the block,
    [GetLogs] returns their logs, one entry per transaction in the order
    of the block, asks the chain for no transaction and commits nothing:
    the cache is left as it was.  A block without transactions gives the
    empty list, not [nil]. *)
Theorem GetLogs_all_cached (db : Db) (blockHash : Hash)
    (resBlock : option backend.BlockValue) (txHashes : list Hash)
    (receipts : list watcher.TransactionReceipt) :
  backend.GetBlockByHash b db blockHash false = Ok resBlock ->
  backend.blockTxHashes resBlock = Return txHashes ->
  Forall2 (fun txHash receipt =>
             watcher.MustGetTransactionReceipt (backend.wrappedBackend b)
               db txHash = Ok receipt) txHashes receipts ->
  backend.GetLogs b db blockHash
  = (Return (Ok (Some (watcher.Logs <$> receipts))), db).
Proof.
  intros Hb Ht Hr. unfold backend.GetLogs. rewrite Hb, Ht.
  by rewrite (logsLoop_cached txHashes receipts db Hr []).
Qed.

Lemma logsLoop_length (txHashes : list Hash) :
  forall (db db' : Db) (blockLogs logs : list (slice Log)),
    backend.logsLoop b db txHashes blockLogs = (Ok (Some logs), db') ->
    length logs = (length blockLogs + length txHashes)%nat.
Proof.
  induction txHashes as [| txHash txHashes IH];
    intros db db' blockLogs logs; simpl.
  - intros H. inversion H; subst. lia.
  - destruct (backend.logsOfTx b db txHash) as [[l | | e] db1];
      [| discriminate | discriminate].
    intros H. apply IH in H. rewrite length_app in H. simpl in H. lia.
Qed.

(** When [GetLogs] returns logs, it returns one entry per transaction of
    the block, whichever of them came from the cache. *)
Theorem GetLogs_length (db : Db) (blockHash : Hash)
    (resBlock : option backend.BlockValue) (txHashes : list Hash)
    (logs : list (slice Log)) :
  backend.GetBlockByHash b db blockHash false = Ok resBlock ->
  backend.blockTxHashes resBlock = Return txHashes ->
  (backend.GetLogs b db blockHash).1 = Return (Ok (Some logs)) ->
  length logs = length txHashes.
Proof.
  intros Hb Ht. unfold backend.GetLogs. rewrite Hb, Ht.
  destruct (backend.logsLoop b db txHashes []) as [r db'] eqn:E. simpl.
  intros H. inversion H; subst.
  by apply logsLoop_length in E.
Qed.

(** When the cache misses the block and the chain resolves its hash but
    cannot deliver the block, [GetBlockByHash] returns no block and no
    error, and [GetLogs] panics on it: its second type assertion is on a
    [nil] interface.  Nothing is committed. *)
Theorem GetLogs_block_not_delivered (db : Db) (blockHash : Hash)
    (ec e : error) (res : bytes) (number : Z) :
  let ctx := backend.clientCtx b in
  watcher.GetBlockByHash (backend.wrappedBackend b) db blockHash false
  = Err ec ->
  Query ctx (QueryHashToHeight blockHash) = Ok res ->
  UnmarshalBlockNumber ctx res = Ok number ->
  tm.GetBlock (Client ctx) number = Err e ->
  backend.GetLogs b db blockHash = (Panic "interface conversion"%string, db).
Proof.
  intros ctx Hc Hq Hu Hb. subst ctx.
  unfold backend.GetLogs, backend.GetBlockByHash.
  by rewrite Hc, Hq, Hu, Hb.
Qed.

(** For a transaction that the cache misses and the chain delivers with
    its block, [GetLogs] takes the logs that [GetTransactionLogs] returns,
    with the empty list for no logs; where [GetTransactionLogs] returns
    the error of the result blob, [GetLogs] takes the empty list. *)
Theorem GetLogs_agrees_with_GetTransactionLogs (db : Db) (txHash : Hash)
    (ec : error) (tx : tm.ResultTx) (block : tm.Block)
    (ethTx : MsgEthereumTx) :
  let ctx := backend.clientCtx b in
  watcher.MustGetTransactionReceipt (backend.wrappedBackend b) db txHash
  = Err ec ->
  tm.Tx (Client ctx) txHash (negb (TrustNode ctx)) = Ok tx ->
  tm.GetBlock (Client ctx) (tm.TxHeight tx) = Ok block ->
  RawTxToEthTx ctx (tm.RawTx tx) = Ok ethTx ->
  (forall logs,
     backend.GetTransactionLogs b txHash = Ok logs ->
     (backend.logsOfTx b db txHash).1
     = backend.Logs (if (slen logs =? 0)%nat then Some [] else logs))
  /\ (forall e,
        backend.GetTransactionLogs b txHash = Err e ->
        (backend.logsOfTx b db txHash).1 = backend.Logs (Some [])).
Proof.
  intros ctx Hc Ht Hb Hd. subst ctx.
  unfold backend.GetTransactionLogs, backend.logsOfTx, tm.GetData.
  rewrite Hc, Ht, Hb, Hd.
  destruct (DecodeResultData _ _) as [d | e']; split.
  - intros logs H. inversion H; subst. simpl.
    by destruct (slen (rd_Logs d) =? 0)%nat.
  - discriminate.
  - discriminate.
  - intros e H. done.
Qed.

End LogsEdges.

Lemma GetLogs_all_cached_witness :
  backend.GetLogs
    (samples.chainWith [[1; 7; 0]; [1; 8]] []) samples.twoReceipts zeroHash
  = (Return (Ok (Some [Some [mkLog [9] [] [1]]; None])),
     samples.twoReceipts).
Proof.
  apply (GetLogs_all_cached _ _ _
           (Some (backend.FormattedBlock
                    {[ "transactions"%string :=
                         HashList [common.BytesToHash [1; 7; 0];
                                   common.BytesToHash [1; 8]] ]}))
           [common.BytesToHash [1; 7; 0]; common.BytesToHash [1; 8]]
           [watcher.mkReceipt 1 21000 (Some [mkLog [9] [] [1]]) 21000;
            watcher.mkReceipt 1 42000 None 21000]).
  - reflexivity.
  - reflexivity.
  - repeat constructor.
Defined.

Lemma GetLogs_length_witness :
  length [Some [mkLog [9] [] [1]]; (None : slice Log)] = 2%nat.
Proof.
  apply (GetLogs_length
           (samples.chainWith [[1; 7; 0]; [1; 8]] []) samples.twoReceipts
           zeroHash
           (Some (backend.FormattedBlock
                    {[ "transactions"%string :=
                         HashList [common.BytesToHash [1; 7; 0];
                                   common.BytesToHash [1; 8]] ]}))
           [common.BytesToHash [1; 7; 0]; common.BytesToHash [1; 8]]).
  - reflexivity.
  - reflexivity.
  - reflexivity.
Defined.

Lemma GetLogs_block_not_delivered_witness :
  backend.GetLogs samples.lostBlocks ∅ zeroHash
  = (Panic "interface conversion"%string, ∅).
Proof.
  exact (GetLogs_block_not_delivered samples.lostBlocks ∅ zeroHash
           "not found"%string "unavailable"%string [5] 5
           eq_refl eq_refl eq_refl eq_refl).
Defined.

Lemma GetLogs_agrees_with_GetTransactionLogs_witness :
  let b := samples.chainWith [[1; 7; 0]] [([1; 7; 0], 0)] in
  backend.GetTransactionLogs b (common.BytesToHash [1; 7; 0]) = Ok None
  /\ (backend.logsOfTx b ∅ (common.BytesToHash [1; 7; 0])).1
     = backend.Logs (Some []).
Proof.
  intros b. split; [reflexivity |].
  assert (Hmiss : watcher.MustGetTransactionReceipt
                    (backend.wrappedBackend b) ∅
                    (common.BytesToHash [1; 7; 0])
                  = Err "not found"%string) by reflexivity.
  assert (Htx : tm.Tx (Client (backend.clientCtx b))
                  (common.BytesToHash [1; 7; 0])
                  (negb (TrustNode (backend.clientCtx b)))
                = Ok (tm.mkResultTx 5 0 (tm.mkTxResult 0 [1; 42] 21000)
                        [1; 7; 0])) by reflexivity.
  exact (proj1 (GetLogs_agrees_with_GetTransactionLogs b ∅
                  (common.BytesToHash [1; 7; 0]) "not found"%string _
                  (tm.mkBlock (tm.mkHeader 5 1600000000 [4]) [5] [[1; 7; 0]])
                  (mkMsg 7 21000 [0]) Hmiss Htx eq_refl eq_refl)
           None eq_refl).
Defined.

(** ** The shape of the pending lists *)

Section PendingShape.
Context {Db : Type} (b : backend.EthermintBackend Db).

Lemma evmEntries_length (ctx : CLIContext) (txs : list bytes) :
  (length (evmEntries ctx txs) <= length txs)%nat.
Proof.
  induction txs as [| tx txs IH]; [done |].
  assert (Hcons : evmEntries ctx (tx :: txs)
                  = match RawTxToEthTx ctx tx with
                    | Ok ethTx => (tx, ethTx) :: evmEntries ctx txs
                    | Err _ => evmEntries ctx txs
                    end).
  { unfold evmEntries. simpl. by destruct (RawTxToEthTx ctx tx). }
  rewrite Hcons.
  destruct (RawTxToEthTx ctx tx); rewrite ?length_cons; lia.
Qed.

Lemma collect_length {A : Type} (l : list (result A)) (l' : list A) :
  collect l = Ok l' -> length l' = length l.
Proof.
  revert l'. induction l as [| r l IH]; intros l'; simpl.
  - intros H. by inversion H.
  - destruct r as [a | e]; [| discriminate].
    destruct (collect l) as [l'' | e]; [| discriminate].
    intros H. inversion H; subst. simpl. by rewrite (IH l'' eq_refl).
Qed.

(** The list of [PendingTransactions] holds no [nil] entry and one entry
    for each pool entry that decodes as an EVM transaction: it is never
    longer than the pool. *)
Theorem PendingTransactions_entries (txs : list bytes) (count : Z)
    (l : list (option Transaction)) :
  tm.UnconfirmedTxs (Client (backend.clientCtx b)) (-1) = Ok (txs, count) ->
  backend.PendingTransactions b = Ok l ->
  Forall is_Some l
  /\ length l = length (evmEntries (backend.clientCtx b) txs)
  /\ (length l <= length txs)%nat.
Proof.
  intros Hp. unfold backend.PendingTransactions. rewrite Hp.
  rewrite pendingLoop_collect.
  destruct (collect _) as [l' | e] eqn:E; simpl; [| discriminate].
  intros H. inversion H; subst l. clear H.
  apply collect_length in E. rewrite length_fmap in E.
  split; [apply Forall_fmap, Forall_forall; by eexists |].
  rewrite length_fmap.
  split; [done |].
  rewrite E. apply evmEntries_length.
Qed.

(** The list of [UserPendingTransactions] is made with the length of the
    pool and then appended to: it starts with one [nil] entry for each
    pool entry, and the transactions of the entries that decode follow. *)
Theorem UserPendingTransactions_entries (utxs : list bytes)
    (address : list ascii) (limit : Z) (l : list (option Transaction)) :
  tm.UserUnconfirmedTxs (Client (backend.clientCtx b)) address limit
  = Ok utxs ->
  backend.UserPendingTransactions b address limit = Ok l ->
  take (length utxs) l = replicate (length utxs) None
  /\ Forall is_Some (drop (length utxs) l)
  /\ length l
     = (length utxs + length (evmEntries (backend.clientCtx b) utxs))%nat.
Proof.
  intros Hp. unfold backend.UserPendingTransactions. rewrite Hp.
  rewrite pendingLoop_collect.
  destruct (collect _) as [l' | e] eqn:E; simpl; [| discriminate].
  intros H. inversion H; subst l. clear H.
  apply collect_length in E. rewrite length_fmap in E.
  split; [| split].
  - rewrite take_app_length'; [done | by rewrite length_replicate].
  - rewrite drop_app_length'; [| by rewrite length_replicate].
    apply Forall_fmap, Forall_forall. by eexists.
  - rewrite length_app, length_replicate, length_fmap. lia.
Qed.

End PendingShape.

Lemma PendingTransactions_entries_witness :
  length (evmEntries (backend.clientCtx (samples.pooled samples.mixedPool))
            samples.mixedPool) = 2%nat
  /\ (2 <= length samples.mixedPool)%nat.
Proof.
  destruct (PendingTransactions_entries (samples.pooled samples.mixedPool)
              samples.mixedPool 3
              [Some (mkTransaction zeroHash 0 0
                       (common.BytesToHash [1; 7; 0]) (mkMsg 7 21000 [0]));
               Some (mkTransaction zeroHash 0 0 (common.BytesToHash [1; 8])
                       (mkMsg 8 21000 []))]
              eq_refl eq_refl) as (_ & Hlen & Hle).
  split; [symmetry; exact Hlen | exact Hle].
Defined.

Lemma UserPendingTransactions_entries_witness :
  let l := [None; None; None;
            Some (mkTransaction zeroHash 0 0
                    (common.BytesToHash [1; 7; 0]) (mkMsg 7 21000 [0]));
            Some (mkTransaction zeroHash 0 0 (common.BytesToHash [1; 8])
                    (mkMsg 8 21000 []))] in
  backend.UserPendingTransactions (samples.pooled samples.mixedPool) [] 10
  = Ok l
  /\ take (length samples.mixedPool) l
     = replicate (length samples.mixedPool) None
  /\ Forall is_Some (drop (length samples.mixedPool) l).
Proof.
  intros l.
  destruct (UserPendingTransactions_entries
              (samples.pooled samples.mixedPool) samples.mixedPool [] 10 l
              eq_refl eq_refl) as (Htake & Hdrop & _).
  split; [reflexivity |]. split; [exact Htake | exact Hdrop].
Defined.

(** ** More on the bloom handlers *)

Lemma Retrieval_eq (t1 t2 : backend.Retrieval) :
  backend.Bit t1 = backend.Bit t2 ->
  backend.Sections t1 = backend.Sections t2 ->
  backend.Bitsets t1 = backend.Bitsets t2 ->
  backend.Error t1 = backend.Error t2 ->
  t1 = t2.
Proof. destruct t1, t2. simpl. by intros -> -> -> ->. Qed.

Lemma keepLast_twice (errs : list (option error)) (acc : option error) :
  foldl keepLast (foldl keepLast acc errs) errs = foldl keepLast acc errs.
Proof.
  destruct (decide (Forall (fun e => e = None) errs)) as [Hnone | Hsome].
  - by rewrite !keepLast_none.
  - apply not_Forall_Exists in Hsome; [| intros x; apply _].
    assert (Hlast : forall a a', foldl keepLast a errs = foldl keepLast a' errs).
    { clear acc. induction errs as [| e errs IH]; intros a a'.
      - by apply Exists_nil in Hsome.
      - simpl. destruct e as [e |]; [done |].
        apply Exists_cons in Hsome as [Hhd | Htl]; [by destruct Hhd |].
        by apply IH. }
    apply Hlast.
Qed.

Section BloomMore.
Context {Db : Type} (b : backend.EthermintBackend Db).
Context (sectionSize : Z) (kv : KeyValueReader) (db : Db).

Lemma serveSections_Sections (sections : list Z) :
  forall (task : backend.Retrieval) (i : nat),
    backend.Sections
      (backend.serveSections b sectionSize kv db task i sections)
    = backend.Sections task.
Proof.
  induction sections as [| s sections IH]; intros task i; simpl; [done |].
  rewrite IH, serveSection_eq. done.
Qed.

(** The slots after the loop depend on the bit and on the slots before
    it, not on the error slot. *)
Lemma serveSections_Bitsets_ext (sections : list Z) :
  forall (t1 t2 : backend.Retrieval) (i : nat),
    backend.Bit t1 = backend.Bit t2 ->
    backend.Bitsets t1 = backend.Bitsets t2 ->
    backend.Bitsets (backend.serveSections b sectionSize kv db t1 i sections)
    = backend.Bitsets
        (backend.serveSections b sectionSize kv db t2 i sections).
Proof.
  induction sections as [| s sections IH]; intros t1 t2 i Hbit Hsets; simpl;
    [done |].
  apply IH; rewrite !serveSection_eq; simpl; [done |].
  by rewrite Hbit, Hsets.
Qed.

Lemma serveTask_Bit (task : backend.Retrieval) :
  backend.Bit (backend.serveTask b sectionSize kv db task)
  = backend.Bit task.
Proof. unfold backend.serveTask. by rewrite serveSections_Bit. Qed.

Lemma serveTask_Sections (task : backend.Retrieval) :
  backend.Sections (backend.serveTask b sectionSize kv db task)
  = backend.Sections task.
Proof. unfold backend.serveTask. by rewrite serveSections_Sections. Qed.

(** Serving a task changes neither its bit nor its sections, and never
    clears its error slot: a task that arrives with an error leaves with
    one, and a task whose sections all succeed leaves with the error
    slot it arrived with. *)
Theorem serveTask_keeps (task : backend.Retrieval) :
  let served := backend.serveTask b sectionSize kv db task in
  backend.Bit served = backend.Bit task
  /\ backend.Sections served = backend.Sections task
  /\ (is_Some (backend.Error task) -> is_Some (backend.Error served))
  /\ (Forall (fun s => sectionError b sectionSize kv db (backend.Bit task) s
                       = None) (backend.Sections task) ->
      backend.Error served = backend.Error task).
Proof.
  intros served. subst served.
  split; [| split; [| split]].
  - apply serveTask_Bit.
  - apply serveTask_Sections.
  - rewrite serveTask_Error. apply keepLast_kept.
  - intros Hnone. rewrite serveTask_Error. apply keepLast_none.
    by apply Forall_fmap.
Qed.

(** Serving a task that was served changes nothing: the slots are made
    anew from the bit and the sections, and the error slot keeps the
    error of the last section that fails. *)
Theorem serveTask_idempotent (task : backend.Retrieval) :
  backend.serveTask b sectionSize kv db
    (backend.serveTask b sectionSize kv db task)
  = backend.serveTask b sectionSize kv db task.
Proof.
  pose proof (serveTask_Bit task) as Hbit.
  pose proof (serveTask_Sections task) as Hsec.
  apply Retrieval_eq.
  - apply serveTask_Bit.
  - apply serveTask_Sections.
  - unfold backend.serveTask at 1 3. cbv zeta. rewrite Hsec.
    apply serveSections_Bitsets_ext; simpl; [exact Hbit | done].
  - rewrite (serveTask_Error b sectionSize kv db
               (backend.serveTask b sectionSize kv db task)).
    rewrite Hbit, Hsec, serveTask_Error. apply keepLast_twice.
Qed.

(** When the hash of the last block of a section cannot be resolved, the
    handler records the error and goes on with the zero hash: if a vector
    is found for the zero hash and decompresses, the slot of the section
    is filled with it although the error slot holds the error of the
    resolution. *)
Theorem serveTask_unresolved_hash (task : backend.Retrieval) (i : nat)
    (section : Z) (e : error) (compVector blob : bytes) :
  let g := backend.globals b in
  let bit := backend.Bit task in
  let served := backend.serveTask b sectionSize kv db task in
  backend.Sections task !! i = Some section ->
  backend.GetBlockHashByHeight b db
    (backend.sectionHeight b sectionSize section) = Err e ->
  (if IsClientRestServer g
   then Query (backend.clientCtx b)
          (QueryBloomBits (BloomBitsKey g bit section zeroHash))
   else ReadBloomBits g kv bit section zeroHash) = Ok compVector ->
  bitutil.DecompressBytes compVector (sectionSize / 8) = Ok blob ->
  backend.Bitsets served !! i = Some blob
  /\ is_Some (backend.Error served)
  /\ ((forall j s, j <> i -> backend.Sections task !! j = Some s ->
         sectionError b sectionSize kv db bit s = None) ->
      backend.Error served = Some e).
Proof.
  intros g bit served Hi Hh Hv Hd. subst served bit.
  assert (Hblob : sectionBlob b sectionSize kv db (backend.Bit task) section
                  = Ok blob).
  { unfold sectionBlob, sectionVector, sectionHash. rewrite Hh.
    fold g. by rewrite Hv, Hd. }
  assert (Herr : sectionError b sectionSize kv db (backend.Bit task)
                   section = Some e).
  { unfold sectionError. by rewrite Hblob, Hh. }
  split; [| split].
  - rewrite (serveTask_slot b sectionSize kv db task i section Hi).
    by rewrite Hblob.
  - rewrite serveTask_Error. apply (keepLast_recorded _ _ e).
    apply list_elem_of_fmap. exists section. split; [done |].
    by apply list_elem_of_lookup_2 with i.
  - intros Hothers. rewrite serveTask_Error.
    apply (keepLast_only _ _ i).
    + rewrite list_lookup_fmap, Hi. simpl. by rewrite Herr.
    + intros j Hj. rewrite list_lookup_fmap.
      destruct (backend.Sections task !! j) as [s |] eqn:Hs; simpl;
        [left | by right].
      by rewrite (Hothers j s Hj Hs).
Qed.

End BloomMore.

Lemma serveTask_unresolved_hash_witness :
  let served :=
    backend.serveTask samples.bloomNode 64 samples.zeroHashKv ∅
      (backend.mkRetrieval 3 [1] [] None) in
  backend.Bitsets served !! 0%nat = Some [1; 2; 0; 0; 0; 0; 0; 0]
  /\ backend.Error served = Some "unavailable"%string.
Proof.
  intros served.
  destruct (serveTask_unresolved_hash samples.bloomNode 64
              samples.zeroHashKv ∅ (backend.mkRetrieval 3 [1] [] None)
              0 1 "unavailable"%string [192; 1; 2]
              [1; 2; 0; 0; 0; 0; 0; 0]
              eq_refl eq_refl eq_refl ltac:(vm_compute; reflexivity))
    as (Hslot & _ & Honly).
  split; [exact Hslot |]. apply Honly.
  intros j s Hj Hs. destruct j as [| j]; [done | discriminate].
Defined.

(** ** More on the export files *)

(** *** What the reader makes of any text *)

Lemma uint8_byte (z : Z) : is_byte (uint8 z).
Proof.
  unfold is_byte, uint8.
  pose proof (Z.mod_pos_bound z (2 ^ 8) ltac:(lia)). lia.
Qed.

Lemma DecodeString_bytes_upto (n : nat) :
  forall s : list ascii,
    (length s <= n)%nat -> Forall is_byte (hex.DecodeString s).1.
Proof.
  induction n as [| n IH]; intros s Hlen.
  - destruct s; [constructor | simpl in Hlen; lia].
  - destruct s as [| p [| q s]]; simpl.
    + constructor.
    + destruct (15 <? hex.fromHexChar p); constructor.
    + destruct (15 <? hex.fromHexChar p); [constructor |].
      destruct (15 <? hex.fromHexChar q); [constructor |].
      specialize (IH s ltac:(simpl in Hlen; lia)).
      destruct (hex.DecodeString s) as [dst err]. simpl in *.
      constructor; [apply uint8_byte | exact IH].
Qed.

Lemma DecodeString_bytes (s : list ascii) :
  Forall is_byte (hex.DecodeString s).1.
Proof. by apply (DecodeString_bytes_upto (length s)). Qed.

Lemma BytesToHash_is_hash (b : bytes) :
  Forall is_byte b -> is_hash (common.BytesToHash b).
Proof.
  intros Hb. split; [apply BytesToHash_length |].
  unfold common.BytesToHash. apply Forall_app. split.
  - apply Forall_replicate. unfold is_byte. lia.
  - destruct (HashLength <? length b)%nat; [by apply Forall_drop | done].
Qed.

(** [HexToHash] makes a hash of any text. *)
Lemma HexToHash_is_hash (s : list ascii) : is_hash (common.HexToHash s).
Proof.
  unfold common.HexToHash, common.FromHex, common.Hex2Bytes.
  apply BytesToHash_is_hash, DecodeString_bytes.
Qed.

(** One line of two fields of any text is read as the hashes of the
    fields. *)
Lemma readLoop_fieldLine (kv : list ascii * list ascii) (rest : list ascii)
    (fuel : nat) (states : evm.Storage) :
  plainFields kv ->
  evm.readLoop (S fuel) (fieldLine kv ++ rest) states
  = evm.readLoop fuel rest (states ++ [fieldState kv]).
Proof.
  destruct kv as [k v]. intros [Pk Pv]. simpl in Pk, Pv.
  unfold fieldLine, fieldState. cbn [fst snd evm.readLoop].
  replace ((k ++ [colon] ++ v ++ [newline]) ++ rest)
    with ((k ++ colon :: v) ++ newline :: rest)
    by (rewrite <- ?app_assoc; cbn [app]; by rewrite <- ?app_assoc).
  rewrite ReadString_line.
  2: { apply Forall_app. split; [by apply plain_no_newline |].
       constructor; [discriminate | by apply plain_no_newline]. }
  rewrite ReplaceAll_line.
  2: { apply Forall_app. split; [by apply plain_no_newline |].
       constructor; [discriminate | by apply plain_no_newline]. }
  rewrite Split_fields by (by apply plain_no_colon).
  by rewrite Split_field by (by apply plain_no_colon).
Qed.

Lemma readLoop_fieldLines (pairs : list (list ascii * list ascii)) :
  forall (fuel : nat) (rest : list ascii) (states : evm.Storage),
    Forall plainFields pairs ->
    evm.readLoop (length pairs + fuel) (concat (fieldLine <$> pairs) ++ rest)
      states
    = evm.readLoop fuel rest (states ++ (fieldState <$> pairs)).
Proof.
  induction pairs as [| kv pairs IH]; intros fuel rest states Hplain.
  - simpl. by rewrite app_nil_r.
  - inversion Hplain as [| ? ? Hkv Hrest]; subst.
    rewrite !fmap_cons. cbn [concat length Nat.add].
    rewrite <- app_assoc, readLoop_fieldLine by done.
    rewrite IH by done. by rewrite <- app_assoc.
Qed.

Lemma fieldLines_length (pairs : list (list ascii * list ascii)) :
  (length pairs <= length (concat (fieldLine <$> pairs)))%nat.
Proof.
  induction pairs as [| kv pairs IH]; [done |].
  rewrite fmap_cons. cbn [concat]. rewrite length_app.
  assert (1 <= length (fieldLine kv))%nat.
  { unfold fieldLine. rewrite !length_app. cbn [length]. lia. }
  cbn [length]. lia.
Qed.

(** [readStorageFromFile] refuses no field: a file of lines of two
    fields, of any text without a line end and a separator, hexadecimal
    or not, is read as one state for each line, in their order, with
    [HexToHash] of the first field as the key and of the second as the
    value; the reader neither panics nor skips a line. *)
Theorem read_any_fields (pairs : list (list ascii * list ascii))
    (files : evm.Files) (path : string) :
  Forall plainFields pairs ->
  files !! path = Some (concat (fieldLine <$> pairs)) ->
  evm.readStorageFromFile files path
  = Some (Return (fieldState <$> pairs)).
Proof.
  intros Hplain Hfile. unfold evm.readStorageFromFile. rewrite Hfile.
  pose proof (fieldLines_length pairs) as Hlen.
  replace (S (length (concat (fieldLine <$> pairs))))
    with (length pairs
          + S (length (concat (fieldLine <$> pairs)) - length pairs))%nat
    by lia.
  rewrite <- (app_nil_r (concat (fieldLine <$> pairs))) at 2.
  by rewrite readLoop_fieldLines.
Qed.

Lemma read_any_fields_witness :
  evm.readStorageFromFile samples.oddFiles "odd.storage"
  = Some (Return [evm.NewState zeroHash (samples.hashOf 1)]).
Proof.
  apply (read_any_fields
           [(list_ascii_of_string "zz", list_ascii_of_string "1")]
           samples.oddFiles "odd.storage").
  - constructor; [| constructor].
    split; repeat constructor; discriminate.
  - reflexivity.
Defined.

(** The bytes that [hex.DecodeString] decoded before a character that is
    no hexadecimal digit. *)
Lemma DecodeString_cut (b : bytes) (c : ascii) (rest : list ascii) :
  Forall is_byte b ->
  15 < hex.fromHexChar c ->
  hex.DecodeString (hex.EncodeToString b ++ c :: rest)
  = (b, Some "invalid byte"%string).
Proof.
  intros Hb Hc. apply Z.ltb_lt in Hc.
  induction Hb as [| v src Hv Hsrc IH].
  - cbn [hex.EncodeToString app hex.DecodeString].
    destruct rest as [| q rest]; cbn beta iota zeta; by rewrite Hc.
  - pose proof (byteOk_all v Hv) as Hok. unfold byteOk in Hok.
    repeat (apply andb_prop in Hok as [Hok ?]).
    cbn [hex.EncodeToString app hex.DecodeString].
    repeat match goal with
           | H : (_ <=? 15) = true |- _ => apply Z.leb_le in H
           end.
    match goal with
    | H : (uint8 _ =? v) = true |- _ =>
        apply Z.eqb_eq in H; rename H into Hv'
    end.
    destruct (15 <? hex.fromHexChar
                      (nth (Z.to_nat (Z.shiftr v 4)) hex.hextable "000"%char))
      eqn:E1; [apply Z.ltb_lt in E1; lia |].
    destruct (15 <? hex.fromHexChar
                      (nth (Z.to_nat (Z.land v 15)) hex.hextable "000"%char))
      eqn:E2; [apply Z.ltb_lt in E2; lia |].
    rewrite IH. cbn beta iota. by rewrite Hv'.
Qed.

Lemma HexToHash_cutField (b : bytes) (c : ascii) (rest : list ascii) :
  Forall is_byte b ->
  15 < hex.fromHexChar c ->
  Nat.odd (length rest) = true ->
  common.HexToHash (cutField b c rest) = common.BytesToHash b.
Proof.
  intros Hb Hc Hodd.
  unfold common.HexToHash, common.FromHex, cutField.
  cbn [list_ascii_of_string app common.has0xPrefix].
  replace (("0" =? "0")%char && (("x" =? "x")%char || ("x" =? "X")%char))
    with true by done.
  cbn [drop]. rewrite !drop_0.
  rewrite length_app, EncodeToString_length. cbn [length].
  replace (Nat.odd (2 * length b + S (length rest))) with false.
  2: { symmetry. apply Nat.odd_spec in Hodd as [k Hk].
       rewrite <- Nat.negb_even. apply negb_false_iff, Nat.even_spec.
       exists (length b + k + 1)%nat. lia. }
  unfold common.Hex2Bytes. by rewrite DecodeString_cut.
Qed.

Lemma cutField_plain (b : bytes) (c : ascii) (rest : list ascii) :
  Forall is_byte b -> plain (c :: rest) -> plain (cutField b c rest).
Proof.
  intros Hb Hrest. unfold cutField. apply Forall_app. split.
  - repeat constructor; discriminate.
  - apply Forall_app. split; [by apply EncodeToString_plain | done].
Qed.

(** A key that is no hexadecimal text is decoded as far as it goes: when
    the key starts as the text of the bytes [b] and goes on, an even
    number of characters before its end, with a character that is no
    hexadecimal digit, the state that [readStorageFromFile] returns has
    the key [b], right-aligned in 32 zero bytes or cropped to its last 32
    bytes; the rest of the field is dropped without a notice. *)
Theorem read_cut_key (b : bytes) (c : ascii) (rest : list ascii)
    (v : Hash) (files : evm.Files) (path : string) :
  Forall is_byte b ->
  15 < hex.fromHexChar c ->
  Nat.odd (length rest) = true ->
  plain (c :: rest) ->
  is_hash v ->
  files !! path
  = Some (cutField b c rest ++ [colon] ++ common.Hex v ++ [newline]) ->
  evm.readStorageFromFile files path
  = Some (Return [evm.NewState (common.BytesToHash b) v])
  /\ ((length b <= HashLength)%nat ->
      common.BytesToHash b = replicate (HashLength - length b) 0 ++ b)
  /\ ((HashLength < length b)%nat ->
      common.BytesToHash b = drop (length b - HashLength) b).
Proof.
  intros Hb Hc Hodd Hplain Hv Hfile. split; [| split].
  - unfold evm.readStorageFromFile. rewrite Hfile.
    set (kv := (cutField b c rest, common.Hex v)).
    change (cutField b c rest ++ [colon] ++ common.Hex v ++ [newline])
      with (fieldLine kv).
    rewrite <- (app_nil_r (fieldLine kv)) at 2.
    rewrite readLoop_fieldLine.
    2: { split; [by apply cutField_plain | by apply Hex_plain]. }
    assert (Hfuel : length (fieldLine kv) <> 0%nat).
    { unfold fieldLine. rewrite !length_app. cbn [length]. lia. }
    destruct (length (fieldLine kv)) as [| fuel]; [done |].
    cbn [evm.readLoop bufio.ReadString app]. unfold fieldState, kv.
    cbn [fst snd]. by rewrite HexToHash_cutField, HexToHash_Hex.
  - intros Hlen. unfold common.BytesToHash.
    by apply Nat.ltb_ge in Hlen as ->.
  - intros Hlen. unfold common.BytesToHash.
    apply Nat.ltb_lt in Hlen as Hlt. rewrite Hlt.
    rewrite length_drop.
    replace (HashLength - (length b - (length b - HashLength)))%nat
      with 0%nat by lia.
    reflexivity.
Qed.

Lemma read_cut_key_witness :
  evm.readStorageFromFile samples.cutKeyFiles "key.storage"
  = Some (Return [evm.NewState (samples.hashOf 171) (samples.hashOf 7)]).
Proof.
  apply (read_cut_key [171] "g" (list_ascii_of_string "h") (samples.hashOf 7)
           samples.cutKeyFiles "key.storage").
  - repeat constructor; unfold is_byte; lia.
  - reflexivity.
  - reflexivity.
  - repeat constructor; discriminate.
  - apply samples_hashOf. unfold is_byte. lia.
  - reflexivity.
Defined.

(** *** Text after the last line, and lines without a separator *)

Lemma ReadString_eof (tail : list ascii) :
  Forall (fun c => c <> newline) tail ->
  bufio.ReadString tail newline = ((tail, Some "EOF"%string), []).
Proof.
  induction 1 as [| c tail Hc Htail IH]; simpl; [done |].
  apply eqb_false_neq in Hc. by rewrite Hc, IH.
Qed.

(** The exported lines are read first, whatever follows them. *)
Lemma readLoop_lines_then (storage : evm.Storage) :
  forall (fuel : nat) (rest : list ascii) (states : evm.Storage),
    Forall validState storage ->
    evm.readLoop (length storage + fuel) (concat (stateLine <$> storage)
                                          ++ rest) states
    = evm.readLoop fuel rest (states ++ storage).
Proof.
  induction storage as [| st storage IH]; intros fuel rest states Hvalid.
  - simpl. by rewrite app_nil_r.
  - inversion Hvalid as [| ? ? Hst Hrest]; subst.
    rewrite fmap_cons. cbn [concat length Nat.add].
    rewrite <- app_assoc, readLoop_line by done.
    rewrite IH by done. by rewrite <- app_assoc.
Qed.

Section ReaderEdges.
Context (storage : evm.Storage) (files : evm.Files) (path : string).

(** Text after the last line end is dropped without a notice: a file
    that ends in the middle of a line is read as the states of its
    complete lines. *)
Theorem read_drops_unterminated (tail : list ascii) :
  Forall validState storage ->
  Forall (fun c => c <> newline) tail ->
  files !! path = Some (concat (stateLine <$> storage) ++ tail) ->
  evm.readStorageFromFile files path = Some (Return storage).
Proof.
  intros Hvalid Htail Hfile. unfold evm.readStorageFromFile. rewrite Hfile.
  pose proof (lines_length storage) as Hlen.
  replace (S (length (concat (stateLine <$> storage) ++ tail)))
    with (length storage
          + S (length (concat (stateLine <$> storage) ++ tail)
               - length storage))%nat
    by (rewrite length_app; lia).
  rewrite readLoop_lines_then by done.
  simpl. by rewrite ReadString_eof.
Qed.

(** A complete line without a separator makes [readStorageFromFile]
    panic, on the index 1 of its fields: an empty line does. *)
Theorem read_panics_without_separator (line rest : list ascii) :
  Forall validState storage ->
  plain line ->
  files !! path
  = Some (concat (stateLine <$> storage) ++ line ++ newline :: rest) ->
  evm.readStorageFromFile files path
  = Some (Panic "index out of range"%string).
Proof.
  intros Hvalid Hline Hfile. unfold evm.readStorageFromFile. rewrite Hfile.
  pose proof (lines_length storage) as Hlen.
  replace (S (length (concat (stateLine <$> storage)
                      ++ line ++ newline :: rest)))
    with (length storage
          + S (length (concat (stateLine <$> storage)
                       ++ line ++ newline :: rest)
               - length storage))%nat
    by (rewrite length_app; lia).
  rewrite readLoop_lines_then by done.
  cbn [evm.readLoop].
  rewrite ReadString_line by (by apply plain_no_newline).
  rewrite ReplaceAll_line by (by apply plain_no_newline).
  by rewrite Split_field by (by apply plain_no_colon).
Qed.

End ReaderEdges.

Lemma read_drops_unterminated_witness :
  evm.readStorageFromFile
    (samples.cutFiles (list_ascii_of_string "0x00ff:0x"))
    "cut.storage"
  = Some (Return samples.storage).
Proof.
  apply (read_drops_unterminated samples.storage _ _
           (list_ascii_of_string "0x00ff:0x")).
  - unfold samples.storage.
    constructor; [split; apply samples_hashOf; unfold is_byte; lia |].
    constructor; [split; apply samples_hashOf; unfold is_byte; lia |].
    constructor.
  - repeat constructor; discriminate.
  - reflexivity.
Defined.

Lemma read_panics_without_separator_witness :
  evm.readStorageFromFile (samples.cutFiles [newline]) "cut.storage"
  = Some (Panic "index out of range"%string).
Proof.
  apply (read_panics_without_separator samples.storage _ _ [] []).
  - unfold samples.storage.
    constructor; [split; apply samples_hashOf; unfold is_byte; lia |].
    constructor; [split; apply samples_hashOf; unfold is_byte; lia |].
    constructor.
  - constructor.
  - reflexivity.
Defined.

(** *** The code file *)

(** [hexutil.Decode] reads back what [hexutil.Encode] wrote. *)
Lemma Decode_Encode (b : bytes) :
  Forall is_byte b -> hexutil.Decode (hexutil.Encode b) = Ok b.
Proof.
  intros Hb. unfold hexutil.Decode, hexutil.Encode.
  cbn [list_ascii_of_string app length Nat.eqb hexutil.has0xPrefix].
  replace (("0" =? "0")%char && (("x" =? "x")%char || ("x" =? "X")%char))
    with true by done.
  cbn [negb drop]. rewrite !drop_0.
  by rewrite DecodeString_EncodeToString.
Qed.

(** The code that [syncWriteAccountCode] writes, [readCodeFromFile] reads
    back; the account has code, as the writer asks before it creates the
    file. *)
Theorem code_round_trip (code : bytes) (filename : string)
    (files : evm.Files) :
  code <> [] ->
  Forall is_byte code ->
  evm.readCodeFromFile (evm.syncWriteAccountCode code filename files)
    filename
  = Return code.
Proof.
  intros Hcode Hb. unfold evm.syncWriteAccountCode.
  destruct code as [| v code]; [done |].
  cbn [length Nat.eqb negb].
  unfold evm.readCodeFromFile, evm.closeFile, evm.createFile,
    evm.writeOneLine.
  rewrite lookup_insert_eq. cbn [app].
  by rewrite Decode_Encode.
Qed.

Lemma code_round_trip_witness :
  evm.readCodeFromFile
    (evm.syncWriteAccountCode samples.code "0xabc.code" ∅) "0xabc.code"
  = Return samples.code.
Proof.
  apply (code_round_trip samples.code "0xabc.code" ∅).
  - discriminate.
  - unfold samples.code. repeat constructor; unfold is_byte; lia.
Defined.

(** The round trip of the code stops at an account without code: the
    writer leaves the files as they are, so that the reader panics when
    there was no file, and returns the code of an earlier export when its
    file is still there. *)
Theorem empty_code_export (filename : string) (files : evm.Files) :
  evm.syncWriteAccountCode [] filename files = files
  /\ (files !! filename = None ->
      exists msg,
        evm.readCodeFromFile (evm.syncWriteAccountCode [] filename files)
          filename
        = Panic msg)
  /\ (forall old : bytes,
        Forall is_byte old ->
        files !! filename = Some (codeText old) ->
        evm.readCodeFromFile (evm.syncWriteAccountCode [] filename files)
          filename
        = Return old).
Proof.
  split; [reflexivity |]. split.
  - intros Hnone. unfold evm.syncWriteAccountCode, evm.readCodeFromFile.
    cbn [length Nat.eqb negb]. rewrite Hnone. by eexists.
  - intros old Hold Hfile.
    unfold evm.syncWriteAccountCode, evm.readCodeFromFile.
    cbn [length Nat.eqb negb]. rewrite Hfile. unfold codeText.
    by rewrite Decode_Encode.
Qed.

(** *** The files of the writers *)

Lemma Hex_length (h : Hash) :
  is_hash h -> length (common.Hex h) = 66%nat.
Proof.
  intros [Hlen _]. unfold common.Hex, hexutil.Encode.
  rewrite length_app, EncodeToString_length, Hlen. reflexivity.
Qed.

Lemma lines_length_exact (storage : evm.Storage) :
  Forall validState storage ->
  length (concat (stateLine <$> storage)) = (134 * length storage)%nat.
Proof.
  induction 1 as [| st storage [Hk Hv] Hrest IH]; [done |].
  rewrite fmap_cons. cbn [concat]. rewrite length_app, IH.
  unfold stateLine. rewrite !length_app, !Hex_length by done.
  cbn [length]. lia.
Qed.

Section WriterFiles.
Context (filename : string) (files : evm.Files).

(** After [syncWriteAccountStorageSlice] the file of the account exists
    exactly when its storage is not empty, whatever was there before: an
    empty storage removes the file, any other leaves one line of 134
    characters for each state and nothing of the earlier text. *)
Theorem storage_file_content (storage : evm.Storage) :
  Forall validState storage ->
  Z.of_nat (length storage) < 2 ^ 63 ->
  let written := evm.syncWriteAccountStorageSlice storage filename files in
  (storage = [] -> written !! filename = None)
  /\ (storage <> [] ->
      written !! filename = Some (concat (stateLine <$> storage))
      /\ length (concat (stateLine <$> storage))
         = (134 * length storage)%nat).
Proof.
  intros Hvalid Hlen written. subst written.
  unfold evm.syncWriteAccountStorageSlice.
  rewrite ForEachStorage_lines by lia. cbn beta iota.
  unfold evm.closeFile, evm.createFile. split.
  - intros ->. change (0 + Z.of_nat (length ([] : evm.Storage)) =? 0) with true.
    cbn iota. by rewrite lookup_delete_eq.
  - intros Hne.
    destruct (0 + Z.of_nat (length storage) =? 0) eqn:E.
    + apply Z.eqb_eq in E. destruct storage; [done |].
      rewrite length_cons, Nat2Z.inj_succ in E. lia.
    + rewrite lookup_insert_eq. cbn [app].
      split; [reflexivity | by apply lines_length_exact].
Qed.

(** The two writers touch the file of their account only: every other
    file is after the call what it was before. *)
Theorem writers_keep_other_files (storage : evm.Storage) (code : bytes)
    (other : string) :
  other <> filename ->
  evm.syncWriteAccountStorageSlice storage filename files !! other
  = files !! other
  /\ evm.syncWriteAccountCode code filename files !! other
     = files !! other.
Proof.
  intros Hother. split.
  - unfold evm.syncWriteAccountStorageSlice.
    destruct (evm.ForEachStorage _ _ _) as [writer index].
    unfold evm.closeFile, evm.createFile.
    destruct (index =? 0).
    + by rewrite lookup_delete_ne, !lookup_insert_ne.
    + by rewrite !lookup_insert_ne.
  - unfold evm.syncWriteAccountCode.
    destruct (negb _); [| reflexivity].
    unfold evm.closeFile, evm.createFile.
    by rewrite !lookup_insert_ne.
Qed.

End WriterFiles.

Lemma storage_file_content_witness :
  evm.syncWriteAccountStorageSlice [] "0xabc.storage" samples.staleFiles
    !! "0xabc.storage"%string = None
  /\ length (concat (stateLine <$> samples.storage)) = 268%nat.
Proof.
  assert (Hvalid : Forall validState samples.storage).
  { unfold samples.storage.
    constructor; [split; apply samples_hashOf; unfold is_byte; lia |].
    constructor; [split; apply samples_hashOf; unfold is_byte; lia |].
    constructor. }
  split.
  - apply (storage_file_content "0xabc.storage" samples.staleFiles []);
      [constructor | simpl; lia | reflexivity].
  - apply (storage_file_content "0xabc.storage" samples.staleFiles
             samples.storage); [exact Hvalid | simpl; lia | discriminate].
Defined.

Lemma writers_keep_other_files_witness :
  evm.syncWriteAccountStorageSlice [] "0xabc.storage" samples.staleFiles
    !! "0xabc.code"%string
  = Some (hexutil.Encode samples.code).
Proof.
  assert (Hold : samples.staleFiles !! "0xabc.code"%string
                 = Some (hexutil.Encode samples.code)) by reflexivity.
  rewrite <- Hold.
  apply (writers_keep_other_files "0xabc.storage" samples.staleFiles []
           samples.code "0xabc.code").
  discriminate.
Defined.

(** *** The hash of a file name *)

Lemma Split_nonempty (s : list ascii) (sep : ascii) :
  strings.Split s sep <> [].
Proof.
  destruct s as [| c s]; simpl; [done |].
  destruct (c =? sep)%char; [done |].
  by destruct (strings.Split s sep).
Qed.

Lemma Split_whole (field : list ascii) (sep : ascii) :
  Forall (fun c => c <> sep) field ->
  strings.Split field sep = [field].
Proof.
  induction 1 as [| c field Hc Hfield IH]; simpl; [done |].
  apply eqb_false_neq in Hc. by rewrite Hc, IH.
Qed.

Lemma Split_first (field rest : list ascii) (sep : ascii) :
  Forall (fun c => c <> sep) field ->
  strings.Split (field ++ sep :: rest) sep
  = field :: strings.Split rest sep.
Proof.
  induction 1 as [| c field Hc Hfield IH]; simpl.
  - by rewrite Ascii.eqb_refl.
  - apply eqb_false_neq in Hc. by rewrite Hc, IH.
Qed.

Lemma byteDotFree_all (v : Z) : is_byte v -> byteDotFree v = true.
Proof.
  intros Hv.
  assert (Hall : forallb byteDotFree (seqZ 0 256) = true)
    by (vm_compute; done).
  rewrite forallb_forall in Hall. apply Hall.
  apply list_elem_of_In, elem_of_seqZ. unfold is_byte in Hv. lia.
Qed.

Lemma Hex_no_dot (h : Hash) :
  is_hash h -> Forall (fun c => c <> dot) (common.Hex h).
Proof.
  intros [_ Hb]. unfold common.Hex, hexutil.Encode. apply Forall_app. split.
  - repeat constructor; discriminate.
  - induction Hb as [| v src Hv Hsrc IH]; simpl; [constructor |].
    pose proof (byteDotFree_all v Hv) as Hok. unfold byteDotFree in Hok.
    apply andb_prop in Hok as [Hhi Hlo].
    apply negb_true_iff, eqb_false_neq in Hhi.
    apply negb_true_iff, eqb_false_neq in Hlo.
    by repeat constructor.
Qed.

(** [convertHexStrToHash] returns a hash of 32 bytes for every file
    name: [strings.Split] gives at least one field, so that the index 0
    never panics, and a name that is no hexadecimal text is not
    refused. *)
Theorem convertHexStrToHash_returns (filename : list ascii) :
  exists h : Hash,
    evm.convertHexStrToHash filename = Return h /\ is_hash h.
Proof.
  unfold evm.convertHexStrToHash.
  pose proof (Split_nonempty filename "."%char) as Hne.
  destruct (strings.Split filename ".") as [| hashStr fields]; [done |].
  eexists. split; [reflexivity | apply HexToHash_is_hash].
Qed.

(** The hash is read back from the name of its file: from the
    hexadecimal text of the hash alone, and from the text followed by a
    dot and any suffix. *)
Theorem convertHexStrToHash_Hex (h : Hash) (suffix : list ascii) :
  is_hash h ->
  evm.convertHexStrToHash (common.Hex h) = Return h
  /\ evm.convertHexStrToHash (common.Hex h ++ dot :: suffix) = Return h.
Proof.
  intros Hh. unfold evm.convertHexStrToHash. split.
  - rewrite Split_whole by (by apply Hex_no_dot).
    by rewrite HexToHash_Hex.
  - fold dot. rewrite Split_first by (by apply Hex_no_dot).
    by rewrite HexToHash_Hex.
Qed.

Lemma convertHexStrToHash_Hex_witness :
  evm.convertHexStrToHash
    (common.Hex (samples.hashOf 171) ++ list_ascii_of_string ".storage.bak")
  = Return (samples.hashOf 171).
Proof.
  apply (convertHexStrToHash_Hex (samples.hashOf 171)
           (list_ascii_of_string "storage.bak")).
  apply samples_hashOf. unfold is_byte. lia.
Defined.
